(** * pipeline-runner: cache synchronisation and specification model

    A shallow embedding of [pipeline_runner/cache.py] (the cache manager, its
    restore and save strategies and the two factories) and of the parts of the
    specification model exercised by [tests/test_parse.py], followed by the
    properties established about them.

    Conventions of the embedding.
    - Python objects are records; a method takes [self] as its first argument
      and is named [Class_method] (a leading underscore of the method is
      kept: [CacheSave__download] is [CacheSave._download]).
    - A method that performs I/O or may raise lives in the monad [M]: it
      threads a [World] (the state of the container, the local file system
      and the trace of observable actions) and returns either a value or the
      raised exception.
    - The container runtime driver, the docker client, [tempfile],
      [slugify] and the configuration are external to [cache.py]; they are
      taken as explicit interfaces ([ContainerRunner], [DockerClient],
      [LocalOS], [Config]) and every statement holds for all of them.
    - A Python [str] is the string of its UTF-8 bytes, so that [bytes] and
      [str] share the type [string] and [output.decode()] is the check that
      the bytes are well-formed UTF-8.
    - The local file system is a map from paths to files and directories.
      An operation that puts an entry into a directory needs that directory
      in the map; only the root and the current directory are there without
      being listed. Permissions are not modelled.
    - A temporary file is written through a buffered writer: what
      [f.write] accepts reaches the disk when the operating system decides,
      at the latest when the [with] block is left and the file is closed;
      writes to the disk may fail.
    - Only exceptions deriving from Python's [Exception] are modelled; the
      clock is not modelled (elapsed times stay symbolic in the log
      records).

    Layout: the model of [cache.py]; the model of the specification
    documents; the vocabulary of the statements and the concrete
    collaborators used in examples; then the properties. *)

From Stdlib Require Import String Ascii ZArith NArith List Lia DecimalString.
From Stdlib.Strings Require Import Byte.
From stdpp Require Import base option list gmap strings.

Set Warnings "-register-all".

Open Scope string_scope.
Open Scope list_scope.
Open Scope stdpp_scope.

(** ** Python string primitives used by the module *)

Module PyStr.

(** The double quote and the line feed, which the source writes inside its
    shell command templates. *)
Definition dq : string := String "034"%char EmptyString.
Definition nl : string := String "010"%char EmptyString.

(** [s.startswith(p)] *)
Fixpoint startswith (p s : string) : bool :=
  match p, s with
  | EmptyString, _ => true
  | String a p', String b s' => if Ascii.eqb a b then startswith p' s' else false
  | String _ _, EmptyString => false
  end.

(** [s.endswith(p)]: [p] is [s] or ends the tail of [s]. *)
Fixpoint endswith (p s : string) : bool :=
  String.eqb p s
  || match s with
     | EmptyString => false
     | String _ s' => endswith p s'
     end.

(** [p in s] for strings. *)
Fixpoint contains (p s : string) : bool :=
  if startswith p s then true
  else match s with
       | EmptyString => false
       | String _ s' => contains p s'
       end.

(** [sep.join(parts)] *)
Fixpoint join (sep : string) (parts : list string) : string :=
  match parts with
  | [] => EmptyString
  | [x] => x
  | x :: rest => x +:+ sep +:+ join sep rest
  end.

(** [s.split(":")]: the fields between the colons (never an empty list). *)
Fixpoint split_colon (s : string) : list string :=
  match s with
  | EmptyString => [EmptyString]
  | String c s' =>
      if Ascii.eqb c ":"%char then EmptyString :: split_colon s'
      else match split_colon s' with
           | [] => [String c EmptyString]
           | f :: fs => String c f :: fs
           end
  end.

(** [s.rstrip("/")] on the reversed string: drop the leading slashes. *)
Fixpoint drop_slashes (s : string) : string :=
  match s with
  | String c s' => if Ascii.eqb c "/"%char then drop_slashes s' else s
  | EmptyString => EmptyString
  end.

(** On the reversed path: what follows the first slash, that slash included
    (the reversed [p[:p.rfind("/") + 1]]). *)
Fixpoint from_first_slash (s : string) : string :=
  match s with
  | String c s' => if Ascii.eqb c "/"%char then s else from_first_slash s'
  | EmptyString => EmptyString
  end.

(** [posixpath.dirname(p)]: the head up to the last slash, with its trailing
    slashes removed unless it consists of slashes only. *)
Definition dirname (p : string) : string :=
  let head := from_first_slash (String.rev p) in
  match drop_slashes head with
  | EmptyString => String.rev head
  | stripped => String.rev stripped
  end.

(** [posixpath.join(a, b)] *)
Definition path_join (a b : string) : string :=
  if startswith "/" b then b
  else if orb (String.eqb a EmptyString) (endswith "/" a) then a +:+ b
  else a +:+ "/" +:+ b.

(** [str(n)] for a natural number. *)
Definition of_nat (n : nat) : string := NilEmpty.string_of_uint (Nat.to_uint n).

(** ["%02x" % c] for a byte. *)
Definition hex_digit (n : N) : ascii :=
  match String.get (N.to_nat n) "0123456789abcdef" with
  | Some d => d
  | None => "0"%char
  end.

Definition hex2 (c : ascii) : string :=
  let n := N_of_ascii c in
  String (hex_digit (n / 16)) (String (hex_digit (n mod 16)) EmptyString).

(** The byte [c] lies between [lo] and [hi]. *)
Definition between (lo hi : N) (c : ascii) : bool :=
  ((lo <=? N_of_ascii c) && (N_of_ascii c <=? hi))%N.

(** The strict UTF-8 decoder of [bytes.decode()], as far as it can fail: the
    first ill-formed sequence of [s], as the slice [start, stop) of the input
    and the reason the codec gives, [pos] being the index of the first byte
    of [s]. A well-formed sequence is one of
    [00..7F], [C2..DF 80..BF], [E0 A0..BF 80..BF], [E1..EC 80..BF 80..BF],
    [ED 80..9F 80..BF], [EE..EF 80..BF 80..BF], [F0 90..BF 80..BF 80..BF],
    [F1..F3 80..BF 80..BF 80..BF], [F4 80..8F 80..BF 80..BF]. *)
Fixpoint decode_error (pos : nat) (s : string) : option (nat * nat * string) :=
  let bad_start := Some (pos, pos + 1, "invalid start byte") in
  let bad_continuation (seen : nat) := Some (pos, pos + seen, "invalid continuation byte") in
  let cut_short (seen : nat) := Some (pos, pos + seen, "unexpected end of data") in
  let second_ok (lead c2 : ascii) : bool :=
    between 128 191 c2
    && negb (Ascii.eqb lead "224"%char && between 128 159 c2)
    && negb (Ascii.eqb lead "237"%char && between 160 191 c2)
    && negb (Ascii.eqb lead "240"%char && between 128 143 c2)
    && negb (Ascii.eqb lead "244"%char && between 144 191 c2) in
  match s with
  | EmptyString => None
  | String c rest =>
      if between 0 127 c then decode_error (pos + 1) rest
      else if between 194 223 c then
        match rest with
        | EmptyString => cut_short 1
        | String c2 rest2 =>
            if between 128 191 c2 then decode_error (pos + 2) rest2
            else bad_continuation 1
        end
      else if between 224 239 c then
        match rest with
        | EmptyString => cut_short 1
        | String c2 rest2 =>
            if negb (second_ok c c2) then bad_continuation 1
            else match rest2 with
                 | EmptyString => cut_short 2
                 | String c3 rest3 =>
                     if between 128 191 c3 then decode_error (pos + 3) rest3
                     else bad_continuation 2
                 end
        end
      else if between 240 244 c then
        match rest with
        | EmptyString => cut_short 1
        | String c2 rest2 =>
            if negb (second_ok c c2) then bad_continuation 1
            else match rest2 with
                 | EmptyString => cut_short 2
                 | String c3 rest3 =>
                     if negb (between 128 191 c3) then bad_continuation 2
                     else match rest3 with
                          | EmptyString => cut_short 3
                          | String c4 rest4 =>
                              if between 128 191 c4 then decode_error (pos + 4) rest4
                              else bad_continuation 3
                          end
                 end
        end
      else bad_start
  end.

End PyStr.

(** ** Exceptions, observable actions and the world *)

Definition bytes : Type := list byte.

(** The exceptions that can reach the module. [Exception] is the plain
    [raise Exception(msg)] of the source, [KeyError] and [IndexError] come from
    indexing, the three [OSError] subclasses from the paths of the local file
    system, [UnicodeDecodeError] (with the attributes Python gives it) from
    [bytes.decode()], and [ExternalError] stands for whatever a collaborator
    or the disk raises (its class name and message). All of them derive from
    Python's [Exception]. *)
Inductive exn : Type :=
| Exception (msg : string)
| KeyError (key : string)
| IndexError (msg : string)
| FileNotFoundError (path : string)
| FileExistsError (path : string)
| IsADirectoryError (path : string)
| NotADirectoryError (path : string)
| UnicodeDecodeError (encoding object : string) (start stop : nat) (reason : string)
| ExternalError (cls msg : string).

(** [str(e)] *)
Definition exn_str (e : exn) : string :=
  match e with
  | Exception msg => msg
  | KeyError key => "'" +:+ key +:+ "'"
  | IndexError msg => msg
  | FileNotFoundError p => "[Errno 2] No such file or directory: '" +:+ p +:+ "'"
  | FileExistsError p => "[Errno 17] File exists: '" +:+ p +:+ "'"
  | IsADirectoryError p => "[Errno 21] Is a directory: '" +:+ p +:+ "'"
  | NotADirectoryError p => "[Errno 20] Not a directory: '" +:+ p +:+ "'"
  | UnicodeDecodeError encoding object start stop reason =>
      match String.get start object with
      | Some c =>
          if Nat.eqb stop (start + 1) then
            "'" +:+ encoding +:+ "' codec can't decode byte 0x" +:+ PyStr.hex2 c
              +:+ " in position " +:+ PyStr.of_nat start +:+ ": " +:+ reason
          else
            "'" +:+ encoding +:+ "' codec can't decode bytes in position "
              +:+ PyStr.of_nat start +:+ "-" +:+ PyStr.of_nat (stop - 1) +:+ ": " +:+ reason
      | None =>
          "'" +:+ encoding +:+ "' codec can't decode bytes in position "
            +:+ PyStr.of_nat start +:+ "-" +:+ PyStr.of_nat (stop - 1) +:+ ": " +:+ reason
      end
  | ExternalError _ msg => msg
  end.

Inductive result (A : Type) : Type :=
| Ok (a : A)
| Raise (e : exn).
Arguments Ok {A} a.
Arguments Raise {A} e.

Inductive level : Type := DEBUG | INFO | ERROR.

(** Arguments of a [logging] call. Sizes are rendered by
    [utils.get_human_readable_size] and elapsed times come from the clock;
    neither is part of [cache.py], so they are kept symbolic. *)
Inductive log_arg : Type :=
| AStr (s : string)
| AInt (n : nat)
| ASize (nbytes : nat)
| AElapsed.

(** What a run does to the outside: log records, calls on the container,
    calls on the docker client and mutations of the local file system.
    [FileWrite p chunk] is the call [f.write(chunk)] on the temporary file
    [p]; [Flush p data] is the moment the buffered writer puts [data] into
    the file, which by then has the path [p]. *)
Inductive event : Type :=
| Log (lvl : level) (fmt : string) (args : list log_arg)
| RunCommand (cmd : string)
| PutArchive (dir : string) (data : bytes)
| PathExists (path : string)
| GetArchive (path : string)
| ImagesList
| ImageSave (short_id : string)
| ImagesLoad (data : bytes)
| TmpCreate (path : string)
| FileWrite (path : string) (chunk : bytes)
| Flush (path : string) (data : bytes)
| Unlink (path : string)
| Rename (src dst : string)
| MakeDirs (path : string).

(** Is the event a call on the execution container? *)
Definition is_remote_call (e : event) : bool :=
  match e with
  | RunCommand _ | PutArchive _ _ | PathExists _ | GetArchive _ => true
  | _ => false
  end.

(** Is the event a mutation of the local file system? *)
Definition is_local_write (e : event) : bool :=
  match e with
  | TmpCreate _ | FileWrite _ _ | Flush _ _ | Unlink _ | Rename _ _ | MakeDirs _ => true
  | _ => false
  end.

(** A local path holds a regular file or a directory. *)
Inductive node : Type :=
| File (content : bytes)
| Dir.

(** A chunk stream as the loop [for chunk in data: ...] iterates it: the
    chunks it yields, and the exception it raises after them when there is
    one (a call that fails at once yields no chunk). Streams are finite. *)
Definition stream : Type := (list bytes * option exn)%type.

(** ** External collaborators *)

(** [container.ContainerRunner]: the four operations the module calls, over an
    abstract container state [S]. *)
Record ContainerRunner (S : Type) : Type := {
  run_command : string -> S -> (Z * string) * S;  (* exit code, output bytes *)
  put_archive : string -> bytes -> S -> bool * S;
  path_exists : string -> S -> bool * S;
  get_archive : string -> S -> stream * S
}.
Arguments run_command {S} _ _ _.
Arguments put_archive {S} _ _ _ _.
Arguments path_exists {S} _ _ _.
Arguments get_archive {S} _ _ _.

(** [docker.models.images.Image] as far as the module reads it. *)
Record Image : Type := {
  tags : list string;
  short_id : string;
  image_repr : string;
  image_save : stream
}.

(** [docker.DockerClient]: the result of [client.images.list()]. *)
Record DockerClient : Type := {
  images_list : list Image
}.

(** [utils.get_local_cache_directory()] and [config.caches_dir]. *)
Record Config : Type := {
  local_cache_directory : string;
  caches_dir : string
}.

(** [models.Cache] *)
Record Cache : Type := {
  name : string;
  path : string
}.

(** The local operating system as [tempfile] and the buffered writer of a
    temporary file expose it. [mktemp t dir fs] is the name
    [NamedTemporaryFile(dir=dir)] picks when the trace so far is [t] and the
    file system is [fs]; the file is new ([mktemp_fresh]) and its name
    carries no suffix ([mktemp_no_suffix]: the module never passes
    [suffix=]).
    [written_through t data] is how many of the bytes [data] that the writer
    holds (its buffer followed by the chunk of the call) a call of [f.write]
    puts into the file, when the trace so far is [t]: the buffer size and the
    policy are the platform's. [disk_error t] is the exception with which a
    write to the disk, or the close of the file, fails at that moment, if it
    does. *)
Class LocalOS : Type := {
  mktemp : list event -> string -> gmap string node -> string;
  mktemp_fresh : forall t dir fs, fs !! mktemp t dir fs = None;
  mktemp_no_suffix : forall t dir fs, PyStr.endswith ".tar" (mktemp t dir fs) = false;
  written_through : list event -> bytes -> nat;
  disk_error : list event -> option exn
}.

(** A disk that takes every write. *)
Definition reliable_disk {los : LocalOS} : Prop :=
  forall t : list event, disk_error t = None.

(** The world a method runs in: the state of the container, the local
    files, and what the run has done so far (oldest event first). *)
Record World (S : Type) : Type := {
  container_state : S;
  fs : gmap string node;
  trace : list event
}.
Arguments container_state {S} _.
Arguments fs {S} _.
Arguments trace {S} _.

(** ** The monad of methods *)

Definition M (S A : Type) : Type := World S -> result A * World S.

Definition ret {S A : Type} (a : A) : M S A := fun w => (Ok a, w).

Definition raise {S A : Type} (e : exn) : M S A := fun w => (Raise e, w).

Definition bind {S A B : Type} (m : M S A) (k : A -> M S B) : M S B :=
  fun w =>
    match m w with
    | (Ok a, w') => k a w'
    | (Raise e, w') => (Raise e, w')
    end.

Notation "'let*' x ':=' m 'in' k" := (bind m (fun x => k))
  (at level 10, x pattern, m at level 100, k at level 200).
Notation "m1 ';;;' m2" := (bind m1 (fun _ => m2))
  (at level 100, m2 at level 200, right associativity).

(** The [try:] part of a [try ... except Exception as e: ... else: ...]: run
    the suite and hand its outcome to the handler or to the else branch. *)
Definition attempt {S A : Type} (m : M S A) : M S (A + exn) :=
  fun w =>
    match m w with
    | (Ok a, w') => (Ok (inl a), w')
    | (Raise e, w') => (Ok (inr e), w')
    end.

(** [try: m finally: c], and the exit of a [with] block: [c] runs whether [m]
    returns or raises, and an exception of [c] replaces the outcome of [m]. *)
Definition finally {S A : Type} (m : M S A) (c : M S unit) : M S A :=
  fun w =>
    match m w with
    | (r, w') =>
        match c w' with
        | (Ok _, w'') => (r, w'')
        | (Raise e, w'') => (Raise e, w'')
        end
    end.

(** [for x in l: body(x)] *)
Fixpoint for_each {S A : Type} (body : A -> M S unit) (l : list A) : M S unit :=
  match l with
  | [] => ret tt
  | x :: rest => body x ;;; for_each body rest
  end.

Definition emit {S : Type} (e : event) : M S unit :=
  fun w => (Ok tt, {| container_state := container_state w; fs := fs w;
                      trace := trace w ++ [e] |}).

Definition logger_debug {S : Type} (msg : string) : M S unit := emit (Log DEBUG msg []).
Definition logger_info {S : Type} (fmt : string) (args : list log_arg) : M S unit :=
  emit (Log INFO fmt args).
Definition logger_error {S : Type} (fmt : string) (args : list log_arg) : M S unit :=
  emit (Log ERROR fmt args).

(** ** Local file system and collaborator calls *)

Section Model.

Context {S : Type}.
Context (config : Config) {los : LocalOS} (client : DockerClient).
(** [slugify.slugify] *)
Context (slugify : string -> string).

(** [os.path.exists(p)] *)
Definition os_path_exists (p : string) : M S bool :=
  fun w => (Ok (bool_decide (is_Some (fs w !! p))), w).

(** [os.path.getsize(p)]; the size the platform reports for a directory is
    not modelled (the module never uses it). *)
Definition os_path_getsize (p : string) : M S nat :=
  fun w =>
    match fs w !! p with
    | Some (File c) => (Ok (length c), w)
    | Some Dir => (Ok 0, w)
    | None => (Raise (FileNotFoundError p), w)
    end.

(** [open(p, "rb")] followed by reading the file to its end. *)
Definition open_rb (p : string) : M S bytes :=
  fun w =>
    match fs w !! p with
    | Some (File c) => (Ok c, w)
    | Some Dir => (Raise (IsADirectoryError p), w)
    | None => (Raise (FileNotFoundError p), w)
    end.

(** Is [d] a directory of the local file system? The root (a path of
    slashes) and the current directory (the empty path, which is the
    directory of a path without a slash) are. *)
Definition is_directory (m : gmap string node) (d : string) : bool :=
  match PyStr.drop_slashes d with
  | EmptyString => true
  | _ => match m !! d with Some Dir => true | _ => false end
  end.

(** What keeps the operating system from putting an entry [p] into the
    directory [d]: [d] is missing or is a regular file. *)
Definition directory_error (m : gmap string node) (d p : string) : option exn :=
  if is_directory m d then None
  else match m !! d with
       | Some _ => Some (NotADirectoryError p)
       | None => Some (FileNotFoundError p)
       end.

(** [NamedTemporaryFile(dir=dir, delete=False)]: a new, empty file in
    [dir], which has to be there; the value is [f.name]. *)
Definition NamedTemporaryFile (dir : string) : M S string :=
  fun w =>
    let p := mktemp (trace w) dir (fs w) in
    match directory_error (fs w) dir p with
    | Some e => (Raise e, w)
    | None => (Ok p, {| container_state := container_state w;
                        fs := <[p := File []]> (fs w);
                        trace := trace w ++ [TmpCreate p] |})
    end.

Definition append_chunk (chunk : bytes) (n : node) : node :=
  match n with
  | File c => File (c ++ chunk)
  | Dir => Dir
  end.

(** [f.write(chunk)] on the temporary file created at [p], whose writer
    holds [pending]: the writer takes the chunk, puts the first
    [written_through] bytes of what it now holds into the file, which may
    fail, and keeps the rest, which is the value. *)
Definition f_write (p : string) (pending chunk : bytes) : M S bytes :=
  fun w =>
    let held := pending ++ chunk in
    let now := take (written_through (trace w) held) held in
    let w1 := {| container_state := container_state w; fs := fs w;
                 trace := trace w ++ [FileWrite p chunk] |} in
    match now with
    | [] => (Ok held, w1)
    | _ :: _ =>
        match disk_error (trace w) with
        | Some e => (Raise e, w1)
        | None => (Ok (drop (length now) held),
                   {| container_state := container_state w;
                      fs := alter (append_chunk now) p (fs w);
                      trace := trace w1 ++ [Flush p now] |})
        end
    end.

(** The close of the temporary file when its [with] block is left. [linked]
    is the path the file has by then and what its writer still holds, or
    [None] when the file has been unlinked. The close may fail
    ([disk_error]), and then nothing more reaches the file; otherwise what
    the writer holds is put into the file, if it still has a path. *)
Definition f_close (linked : option (string * bytes)) : M S unit :=
  fun w =>
    match disk_error (trace w) with
    | Some e => (Raise e, w)
    | None =>
        match linked with
        | Some (p, (_ :: _) as pending) =>
            (Ok tt, {| container_state := container_state w;
                       fs := alter (append_chunk pending) p (fs w);
                       trace := trace w ++ [Flush p pending] |})
        | _ => (Ok tt, w)
        end
    end.

(** [os.unlink(p)] *)
Definition os_unlink (p : string) : M S unit :=
  fun w =>
    match fs w !! p with
    | Some (File _) => (Ok tt, {| container_state := container_state w;
                                  fs := delete p (fs w);
                                  trace := trace w ++ [Unlink p] |})
    | Some Dir => (Raise (IsADirectoryError p), w)
    | None => (Raise (FileNotFoundError p), w)
    end.

(** What keeps [os.rename] and [os.mkdir] from putting an entry at [p]: the
    directory of [p] is missing or is a regular file. *)
Definition parent_error (m : gmap string node) (p : string) : option exn :=
  directory_error m (PyStr.dirname p) p.

(** [os.rename(src, dst)] of a regular file: it replaces a file at [dst],
    refuses a directory there (which, being there, has its parent) and
    needs the directory of [dst]. *)
Definition os_rename (src dst : string) : M S unit :=
  fun w =>
    match fs w !! src, fs w !! dst with
    | None, _ => (Raise (FileNotFoundError src), w)
    | Some _, Some Dir => (Raise (IsADirectoryError dst), w)
    | Some n, _ =>
        match parent_error (fs w) dst with
        | Some e => (Raise e, w)
        | None => (Ok tt, {| container_state := container_state w;
                             fs := <[dst := n]> (delete src (fs w));
                             trace := trace w ++ [Rename src dst] |})
        end
    end.

(** [os.mkdir(p)] on the local files. *)
Definition mkdir (m : gmap string node) (p : string) : exn + gmap string node :=
  match m !! p with
  | Some _ => inl (FileExistsError p)
  | None =>
      match parent_error m p with
      | Some e => inl e
      | None => inr (<[p := Dir]> m)
      end
  end.

(** [os.makedirs(p)] on the local files, for a path that does not end in a
    slash: when the directory of [p] does not exist it is made first, in the
    same way, and then [p] itself is made. The fuel bounds the recursion,
    whose argument gets shorter at each call: the length of [p] is enough
    ([makedirs_fuel] below). *)
Fixpoint makedirs (fuel : nat) (m : gmap string node) (p : string)
  : exn + gmap string node :=
  let head := PyStr.dirname p in
  match fuel with
  | Datatypes.S n =>
      if (is_directory m head || bool_decide (is_Some (m !! head)))%bool then mkdir m p
      else match makedirs n m head with
           | inr m' => mkdir m' p
           | inl e => inl e
           end
  | O => mkdir m p
  end.

(** [os.makedirs(p)] *)
Definition os_makedirs (p : string) : M S unit :=
  fun w =>
    match makedirs (String.length p) (fs w) p with
    | inl e => (Raise e, w)
    | inr m => (Ok tt, {| container_state := container_state w;
                          fs := m;
                          trace := trace w ++ [MakeDirs p] |})
    end.

(** The entry that the local path [k] contributes to the listing of [dir]:
    [k] with [dir/] removed, when nothing but a name remains. *)
Fixpoint strip_prefix (p s : string) : option string :=
  match p, s with
  | EmptyString, _ => Some s
  | String a p', String b s' => if Ascii.eqb a b then strip_prefix p' s' else None
  | String _ _, EmptyString => None
  end.

Definition entry_of (dir k : string) : option string :=
  match strip_prefix (dir +:+ "/") k with
  | Some e => if (String.eqb e EmptyString || PyStr.contains "/" e)%bool then None else Some e
  | None => None
  end.

(** [os.listdir(dir)] *)
Definition os_listdir (dir : string) : M S (list string) :=
  fun w =>
    match fs w !! dir with
    | Some Dir => (Ok (omap (entry_of dir) (map fst (map_to_list (fs w)))), w)
    | Some (File _) => (Raise (NotADirectoryError dir), w)
    | None => (Raise (FileNotFoundError dir), w)
    end.

(** Calls on the container: the driver answers from its state, and the call
    is recorded. *)
Definition call {A : Type} (op : S -> A * S) (e : event) : M S A :=
  fun w =>
    let '(a, s') := op (container_state w) in
    (Ok a, {| container_state := s'; fs := fs w; trace := trace w ++ [e] |}).

Definition container_run_command (c : ContainerRunner S) (cmd : string) : M S (Z * string) :=
  call (run_command c cmd) (RunCommand cmd).

Definition container_put_archive (c : ContainerRunner S) (dir : string) (data : bytes) : M S bool :=
  call (put_archive c dir data) (PutArchive dir data).

Definition container_path_exists (c : ContainerRunner S) (p : string) : M S bool :=
  call (path_exists c p) (PathExists p).

Definition container_get_archive (c : ContainerRunner S) (p : string) : M S stream :=
  call (get_archive c p) (GetArchive p).

(** [for chunk in data: size += len(chunk); f.write(chunk)] over the chunks
    that the stream yields: the value is the final [size] and what the
    writer of the file holds at the end. *)
Fixpoint write_chunks (tmp : string) (chunks : list bytes) (size : nat) (pending : bytes)
  : M S (nat * bytes) :=
  match chunks with
  | [] => ret (size, pending)
  | chunk :: rest =>
      let* pending' := f_write tmp pending chunk in
      write_chunks tmp rest (size + length chunk) pending'
  end.

(** [size = 0], then the loop over the stream to its end or to its
    exception. *)
Definition write_stream (tmp : string) (data : stream) : M S (nat * bytes) :=
  let* written := write_chunks tmp (fst data) 0 [] in
  match snd data with
  | Some e => raise e
  | None => ret written
  end.

(** [output.decode()] *)
Definition bytes_decode (output : string) : M S string :=
  match PyStr.decode_error 0 output with
  | None => ret output
  | Some (start, stop, reason) => raise (UnicodeDecodeError "utf-8" output start stop reason)
  end.

(** [cache_definitions[cache_name]] on a [dict] *)
Definition dict_getitem {V : Type} (d : gmap string V) (k : string) : M S V :=
  match d !! k with
  | Some v => ret v
  | None => raise (KeyError k)
  end.

(** ** Module-level functions of [cache.py] *)

Definition get_local_cache_archive_path (cache_name : string) : string :=
  PyStr.path_join (local_cache_directory config) (cache_name +:+ ".tar").

Definition get_remote_temp_directory (cache_name : string) : string :=
  PyStr.path_join (caches_dir config) cache_name.

Definition sanitize_remote_path (p : string) : string :=
  match p with
  | String "~" rest => "$HOME" +:+ rest
  | _ => p
  end.

(** A path between double quotes, as the command templates write it. *)
Definition quoted (p : string) : string := PyStr.dq +:+ p +:+ PyStr.dq.

(** [not x] for a value that is [None] or a string. *)
Definition py_not (x : option string) : bool :=
  match x with
  | None => true
  | Some s => String.eqb s EmptyString
  end.

(** ["s" if n != 1 else ""] *)
Definition plural (n : nat) : string := if Nat.eqb n 1 then EmptyString else "s".

(** ** [CacheRestore], [DockerCacheRestore], [NullCacheRestore] *)

Inductive restore_class : Type :=
| CacheRestore_class
| DockerCacheRestore_class
| NullCacheRestore_class.

(** An instance: its class and the three attributes [__init__] stores
    ([_container], [_cache_name], [_cache_definitions]; the prefix [r_] tells
    them from those of [CacheSave]). *)
Record CacheRestore : Type := {
  r_class : restore_class;
  r_container : ContainerRunner S;
  r_cache_name : string;
  r_cache_definitions : gmap string Cache
}.

Definition CacheRestore__get_local_cache_file (self : CacheRestore) : M S (option string) :=
  let local_cache_archive_path := get_local_cache_archive_path (r_cache_name self) in
  let* found := os_path_exists local_cache_archive_path in
  if negb found then ret None
  else ret (Some local_cache_archive_path).

Definition prepare_cache_dir_cmd (remote_cache_directory remote_cache_parent_directory : string)
  : string :=
  "[ -d " +:+ quoted remote_cache_directory +:+ " ] && rm -rf "
    +:+ quoted remote_cache_directory +:+ "; "
    +:+ "mkdir -p " +:+ quoted remote_cache_parent_directory.

Definition CacheRestore__upload_cache (self : CacheRestore) (cache_file : string) : M S unit :=
  let remote_cache_directory := get_remote_temp_directory (r_cache_name self) in
  let remote_cache_parent_directory := PyStr.dirname remote_cache_directory in
  let* cache_archive_size := os_path_getsize cache_file in
  logger_info "Cache '%s': Uploading" [AStr (r_cache_name self)] ;;;
  let* (res, output) :=
    container_run_command (r_container self)
      (prepare_cache_dir_cmd remote_cache_directory remote_cache_parent_directory) in
  if negb (Z.eqb res 0) then
    let* decoded := bytes_decode output in
    logger_error "Remote command failed: %s" [AStr decoded] ;;;
    raise (Exception ("Error uploading cache: " +:+ r_cache_name self))
  else
    let* f := open_rb cache_file in
    let* success := container_put_archive (r_container self) remote_cache_parent_directory f in
    if negb success then
      raise (Exception ("Error uploading cache: " +:+ r_cache_name self))
    else
      logger_info "Cache '%s': Uploaded %s in %.3fs"
        [AStr (r_cache_name self); ASize cache_archive_size; AElapsed].

Definition restore_cache_script (target_dir temp_dir : string) : list string :=
  [ "if [ -e " +:+ quoted target_dir +:+ " ]; then rm -rf " +:+ quoted target_dir +:+ "; fi";
    "mkdir -p " +:+ PyStr.dq +:+ "$(dirname " +:+ quoted target_dir +:+ ")" +:+ PyStr.dq;
    "mv " +:+ quoted temp_dir +:+ " " +:+ quoted target_dir ].

Definition CacheRestore__restore_cache (self : CacheRestore) : M S unit :=
  let temp_dir := get_remote_temp_directory (r_cache_name self) in
  let* cache := dict_getitem (r_cache_definitions self) (r_cache_name self) in
  let target_dir := sanitize_remote_path (path cache) in
  logger_info "Cache '%s': Restoring" [AStr (r_cache_name self)] ;;;
  let* (exit_code, output) :=
    container_run_command (r_container self)
      (PyStr.join PyStr.nl (restore_cache_script target_dir temp_dir)) in
  if negb (Z.eqb exit_code 0) then
    let* decoded := bytes_decode output in
    raise (Exception ("Error restoring cache: " +:+ r_cache_name self +:+ ": " +:+ decoded))
  else
    logger_info "Cache '%s': Restored in %.3fs" [AStr (r_cache_name self); AElapsed].

Definition CacheRestore_restore (self : CacheRestore) : M S unit :=
  let* cache_file := CacheRestore__get_local_cache_file self in
  if py_not cache_file then
    logger_info "Cache '%s': Not found: Skipping" [AStr (r_cache_name self)]
  else
    match cache_file with
    | Some f =>
        CacheRestore__upload_cache self f ;;;
        CacheRestore__restore_cache self
    | None => ret tt
    end.

Definition DockerCacheRestore__restore_image (img_path : string) : M S unit :=
  logger_debug ("Restoring docker image archive '" +:+ img_path +:+ "'") ;;;
  let* f := open_rb img_path in
  emit (ImagesLoad f).

Definition DockerCacheRestore_restore (self : CacheRestore) : M S unit :=
  let cache_dir := PyStr.path_join (local_cache_directory config) "docker" in
  let* found := os_path_exists cache_dir in
  let* missing :=
    (if negb found then ret true
     else let* entries := os_listdir cache_dir in
          ret (match entries with [] => true | _ => false end)) in
  if (missing : bool) then
    logger_info "Cache '%s': Not found: Skipping" [AStr (r_cache_name self)]
  else
    logger_info "Cache '%s': Restoring" [AStr (r_cache_name self)] ;;;
    let* images := os_listdir cache_dir in
    for_each (fun img => DockerCacheRestore__restore_image (PyStr.path_join cache_dir img))
             images ;;;
    logger_info "Cache '%s': Restored %d image%s in %.3fs"
      [AStr (r_cache_name self); AInt (length images); AStr (plural (length images)); AElapsed].

Definition NullCacheRestore_restore (self : CacheRestore) : M S unit :=
  logger_info "Cache '%s': Ignoring" [AStr (r_cache_name self)].

(** [cu.restore()]: the method of the instance's class. *)
Definition restore (cu : CacheRestore) : M S unit :=
  match r_class cu with
  | CacheRestore_class => CacheRestore_restore cu
  | DockerCacheRestore_class => DockerCacheRestore_restore cu
  | NullCacheRestore_class => NullCacheRestore_restore cu
  end.

Definition CacheRestoreFactory_get (container : ContainerRunner S) (cache_name : string)
    (cache_definitions : gmap string Cache) : CacheRestore :=
  let cls := if String.eqb cache_name "docker" then NullCacheRestore_class
             else CacheRestore_class in
  {| r_class := cls; r_container := container; r_cache_name := cache_name;
     r_cache_definitions := cache_definitions |}.

(** ** [CacheSave], [DockerCacheSave], [NullCacheSave] *)

Inductive save_class : Type :=
| CacheSave_class
| DockerCacheSave_class
| NullCacheSave_class.

(** An instance, as for [CacheRestore], with the prefix [s_]. *)
Record CacheSave : Type := {
  s_class : save_class;
  s_container : ContainerRunner S;
  s_cache_name : string;
  s_cache_definitions : gmap string Cache
}.

Definition prepare_cache_cmd (remote_dir target_dir : string) : string :=
  "if [ -e " +:+ quoted remote_dir +:+ " ]; then mv " +:+ quoted remote_dir +:+ " "
    +:+ quoted target_dir +:+ "; fi".

Definition CacheSave__prepare (self : CacheSave) : M S string :=
  let* cache := dict_getitem (s_cache_definitions self) (s_cache_name self) in
  let remote_dir := sanitize_remote_path (path cache) in
  let target_dir := get_remote_temp_directory (s_cache_name self) in
  logger_info "Cache '%s': Preparing" [AStr (s_cache_name self)] ;;;
  let* (exit_code, output) :=
    container_run_command (s_container self) (prepare_cache_cmd remote_dir target_dir) in
  if negb (Z.eqb exit_code 0) then
    let* decoded := bytes_decode output in
    raise (Exception ("Error preparing cache: " +:+ s_cache_name self +:+ ": " +:+ decoded))
  else
    logger_info "Cache '%s': Prepared in %.3fs" [AStr (s_cache_name self); AElapsed] ;;;
    ret target_dir.

(** The [try:] suite of [_download]: its value is [size] and what the writer
    of the temporary file holds when the suite ends. *)
Definition CacheSave__download_try (self : CacheSave) (src tmp : string)
  : M S (nat * bytes) :=
  logger_debug ("Downloading cache folder '" +:+ src +:+ "' to '" +:+ tmp +:+ "'") ;;;
  let* data := container_get_archive (s_container self) src in
  write_stream tmp data.

(** The [else:] suite of both [with] blocks, up to the end of the block:
    the rename, then the close of the file, which by then is at [dst], or
    still at [tmp] when the rename raised. *)
Definition move_and_close (tmp dst : string) (pending : bytes) : M S unit :=
  logger_debug ("Moving temp cache archive " +:+ tmp +:+ " to " +:+ dst) ;;;
  let* moved := attempt (os_rename tmp dst) in
  match moved with
  | inl _ => f_close (Some (dst, pending))
  | inr e => f_close (Some (tmp, pending)) ;;; raise e
  end.

(** In the [except] suite [return] leaves the [with] block, and in the
    [else] suite its end does: either way the file is closed there, after
    the unlink or the rename. *)
Definition CacheSave__download (self : CacheSave) (src dst : string) : M S unit :=
  let* found := container_path_exists (s_container self) src in
  if negb found then
    logger_info "Cache '%s': Not found" [AStr (s_cache_name self)]
  else
    logger_info "Cache '%s': Downloading" [AStr (s_cache_name self)] ;;;
    let* tmp := NamedTemporaryFile (local_cache_directory config) in
    let* outcome := attempt (CacheSave__download_try self src tmp) in
    match outcome with
    | inr e =>
        finally
          (logger_error ("Error getting cache from container: " +:+ s_cache_name self
                           +:+ ": " +:+ exn_str e) [] ;;;
           os_unlink tmp)
          (f_close None)
    | inl (size, pending) =>
        move_and_close tmp dst pending ;;;
        logger_info "Cache '%s': Downloaded %s in %.3fs"
          [AStr (s_cache_name self); ASize size; AElapsed]
    end.

Definition CacheSave_save (self : CacheSave) : M S unit :=
  let* remote_cache_directory := CacheSave__prepare self in
  let local_cache_archive_path := get_local_cache_archive_path (s_cache_name self) in
  CacheSave__download self remote_cache_directory local_cache_archive_path.

(** The [try:] suite of [_save_image]. *)
Definition DockerCacheSave__save_image_try (image : Image) (tmp : string)
  : M S (nat * bytes) :=
  logger_debug ("Saving docker image '" +:+ image_repr image +:+ "' to '" +:+ tmp +:+ "'") ;;;
  emit (ImageSave (short_id image)) ;;;
  write_stream tmp (image_save image).

Definition DockerCacheSave__save_image (image : Image) (dst : string) : M S unit :=
  let* tmp := NamedTemporaryFile (local_cache_directory config) in
  let* outcome := attempt (DockerCacheSave__save_image_try image tmp) in
  match outcome with
  | inr e =>
      finally
        (logger_error ("Error saving image: " +:+ image_repr image +:+ ": "
                         +:+ exn_str e) [] ;;;
         os_unlink tmp)
        (f_close None)
  | inl (_, pending) => move_and_close tmp dst pending
  end.

(** [slugify(img.tags[0]) if img.tags else img.short_id.split(":")[1]];
    [None] when the index is out of range. *)
Definition docker_image_name (img : Image) : option string :=
  match tags img with
  | tag :: _ => Some (slugify tag)
  | [] =>
      match PyStr.split_colon (short_id img) with
      | _ :: field :: _ => Some field
      | _ => None
      end
  end.

Definition DockerCacheSave_save (self : CacheSave) : M S unit :=
  let cache_dir := PyStr.path_join (local_cache_directory config) "docker" in
  let* found := os_path_exists cache_dir in
  (if negb found then os_makedirs cache_dir else ret tt) ;;;
  logger_info "Cache '%s': Saving" [AStr (s_cache_name self)] ;;;
  let* images := (emit ImagesList ;;; ret (images_list client)) in
  for_each (fun img =>
              let* name := match docker_image_name img with
                           | Some n => ret n
                           | None => raise (IndexError "list index out of range")
                           end in
              let dst := PyStr.path_join cache_dir (name +:+ ".tar") in
              DockerCacheSave__save_image img dst)
           images ;;;
  logger_info "Cache '%s': Saved %d image%s in %.3fs"
    [AStr (s_cache_name self); AInt (length images); AStr (plural (length images)); AElapsed].

Definition NullCacheSave_save (self : CacheSave) : M S unit :=
  logger_info "Cache '%s': Ignoring" [AStr (s_cache_name self)].

(** [cd.save()]: the method of the instance's class. *)
Definition save (cd : CacheSave) : M S unit :=
  match s_class cd with
  | CacheSave_class => CacheSave_save cd
  | DockerCacheSave_class => DockerCacheSave_save cd
  | NullCacheSave_class => NullCacheSave_save cd
  end.

Definition CacheSaveFactory_get (container : ContainerRunner S) (cache_name : string)
    (cache_definitions : gmap string Cache) : CacheSave :=
  let cls := if String.eqb cache_name "docker" then NullCacheSave_class
             else CacheSave_class in
  {| s_class := cls; s_container := container; s_cache_name := cache_name;
     s_cache_definitions := cache_definitions |}.

(** ** [CacheManager] *)

(** The attributes [_container], [_cache_definitions] and
    [_ignored_caches], with the prefix [m_]. *)
Record CacheManager : Type := {
  m_container : ContainerRunner S;
  m_cache_definitions : gmap string Cache;
  m_ignored_caches : gset string
}.

(** [CacheManager.__init__] *)
Definition CacheManager_init (container : ContainerRunner S)
    (cache_definitions : gmap string Cache) : CacheManager :=
  {| m_container := container; m_cache_definitions := cache_definitions;
     m_ignored_caches := {["docker"]} |}.

Definition CacheManager_upload (self : CacheManager) (cache_names : list string) : M S unit :=
  for_each (fun name =>
              let cu := CacheRestoreFactory_get (m_container self) name
                          (m_cache_definitions self) in
              restore cu)
           cache_names.

Definition CacheManager_download (self : CacheManager) (cache_names : list string) : M S unit :=
  for_each (fun name =>
              let cd := CacheSaveFactory_get (m_container self) name
                          (m_cache_definitions self) in
              save cd)
           cache_names.

End Model.

Arguments CacheRestore S : clear implicits.
Arguments CacheSave S : clear implicits.
Arguments CacheManager S : clear implicits.

(** ** The specification model ([pipeline_runner.models])

    [models.py] is not part of the sources at hand; [tests/test_parse.py]
    exercises it. The definitions of this module follow the written
    specification of the model and the literals the tests fix. *)

Module Models.

(** Modelled from the spec: the loosely typed document tree that
    [parse_obj] receives (scalars, ordered sequences, mappings), absent from
    the sources. *)
Inductive doc : Type :=
| DNull
| DInt (z : Z)
| DStr (s : string)
| DSeq (items : list doc)
| DMap (entries : list (string * doc)).

(** Modelled from the spec: the error kind of the specification model
    ([SpecificationError], kind [SchemaError]), absent from the sources. *)
Inductive SpecificationError : Type :=
| SchemaError (msg : string).

Definition parsed (A : Type) : Type := (A + SpecificationError)%type.

Definition ok {A : Type} (a : A) : parsed A := inl a.
Definition schema_error {A : Type} (msg : string) : parsed A := inr (SchemaError msg).

Definition pbind {A B : Type} (m : parsed A) (k : A -> parsed B) : parsed B :=
  match m with
  | inl a => k a
  | inr e => inr e
  end.

Notation "'let+' x ':=' m 'in' k" := (pbind m (fun x => k))
  (at level 10, x pattern, m at level 100, k at level 200).

Fixpoint parse_all {A B : Type} (f : A -> parsed B) (l : list A) : parsed (list B) :=
  match l with
  | [] => ok []
  | x :: rest =>
      let+ y := f x in
      let+ ys := parse_all f rest in
      ok (y :: ys)
  end.

(** [m.get(key)] on a decoded mapping. *)
Fixpoint lookup_key (key : string) (m : list (string * doc)) : option doc :=
  match m with
  | [] => None
  | (k, v) :: rest => if String.eqb k key then Some v else lookup_key key rest
  end.

Definition as_str (d : doc) : parsed string :=
  match d with
  | DStr s => ok s
  | _ => schema_error "str type expected"
  end.

Definition opt_str (key : string) (m : list (string * doc)) : parsed (option string) :=
  match lookup_key key m with
  | None | Some DNull => ok None
  | Some (DStr s) => ok (Some s)
  | Some _ => schema_error "str type expected"
  end.

Definition opt_int (key : string) (m : list (string * doc)) : parsed (option Z) :=
  match lookup_key key m with
  | None | Some DNull => ok None
  | Some (DInt z) => ok (Some z)
  | Some _ => schema_error "value is not a valid integer"
  end.

(** A collection-valued field: absent parses to the empty sequence. *)
Definition str_list (key : string) (m : list (string * doc)) : parsed (list string) :=
  match lookup_key key m with
  | None => ok []
  | Some (DSeq l) => parse_all as_str l
  | Some _ => schema_error "value is not a valid list"
  end.

Definition str_map (d : doc) : parsed (list (string * string)) :=
  match d with
  | DMap m => parse_all (fun kv => let+ v := as_str (snd kv) in ok (fst kv, v)) m
  | _ => schema_error "value is not a valid dict"
  end.

(** Modelled from the spec: [AwsCredentials] ([access-key], [secret-key]),
    absent from the sources. *)
Record AwsCredentials : Type := {
  access_key_id : string;
  secret_access_key : string
}.

(** Modelled from the spec: [Image] ([name], optional [username],
    [password], [email], [run-as-user] and [aws]), absent from the sources. *)
Record Image : Type := {
  name : string;
  username : option string;
  password : option string;
  email : option string;
  run_as_user : option Z;
  aws : option AwsCredentials
}.

(** Modelled from the spec: the AWS rule of [Image] (an [oidc-role] key is
    rejected, an [access-key]/[secret-key] pair is accepted), absent from the
    sources; the message is the one [test_parse_image_with_aws_oidc_role]
    expects. *)
Definition parse_aws (d : doc) : parsed AwsCredentials :=
  match d with
  | DMap m =>
      match lookup_key "oidc-role" m with
      | Some _ => schema_error "aws oidc-role not supported"
      | None =>
          match lookup_key "access-key" m, lookup_key "secret-key" m with
          | Some a, Some s =>
              let+ a' := as_str a in
              let+ s' := as_str s in
              ok {| access_key_id := a'; secret_access_key := s' |}
          | _, _ => schema_error "field required"
          end
      end
  | _ => schema_error "value is not a valid dict"
  end.

(** Modelled from the spec: [Image.parse_obj], absent from the sources. A
    bare string is an image given by its name, as the tests write
    [image="postgres:13"]. *)
Definition Image_parse_obj (d : doc) : parsed Image :=
  match d with
  | DStr s => ok {| name := s; username := None; password := None; email := None;
                    run_as_user := None; aws := None |}
  | DMap m =>
      match lookup_key "name" m with
      | Some n =>
          let+ n' := as_str n in
          let+ u := opt_str "username" m in
          let+ p := opt_str "password" m in
          let+ e := opt_str "email" m in
          let+ r := opt_int "run-as-user" m in
          let+ a := match lookup_key "aws" m with
                    | None | Some DNull => ok None
                    | Some d' => let+ c := parse_aws d' in ok (Some c)
                    end in
          ok {| name := n'; username := u; password := p; email := e;
                run_as_user := r; aws := a |}
      | None => schema_error "field required"
      end
  | _ => schema_error "value is not a valid dict"
  end.

(** *** Environment expansion *)

(** Characters of a variable name: letters, digits and the underscore. *)
Definition is_name_char (c : ascii) : bool :=
  let n := nat_of_ascii c in
  ((65 <=? n) && (n <=? 90) || (97 <=? n) && (n <=? 122)
   || (48 <=? n) && (n <=? 57) || (n =? 95))%nat.

(** Where the scan of a string leaf stands: in plain text, after a [$]
    with the name read so far, or after [${] with the name read so far. *)
Inductive scan_state : Type :=
| InText
| InName (acc : string)
| InBraces (acc : string).

(** What a [$NAME] token becomes: the mapping's value, or the token itself
    when the name is unresolved (a lone [$] stays a [$]). *)
Definition resolve_name (vars : gmap string string) (acc : string) : string :=
  match vars !! acc with
  | Some v => v
  | None => "$" +:+ acc
  end.

Definition resolve_braces (vars : gmap string string) (acc : string) : string :=
  match vars !! acc with
  | Some v => v
  | None => "${" +:+ acc +:+ "}"
  end.

Fixpoint expand_from (vars : gmap string string) (st : scan_state) (s : string) : string :=
  match s with
  | EmptyString =>
      match st with
      | InText => EmptyString
      | InName acc => resolve_name vars acc
      | InBraces acc => "${" +:+ acc
      end
  | String c rest =>
      match st with
      | InText =>
          if Ascii.eqb c "$"%char then expand_from vars (InName EmptyString) rest
          else String c (expand_from vars InText rest)
      | InName acc =>
          if is_name_char c then expand_from vars (InName (acc +:+ String c EmptyString)) rest
          else if (String.eqb acc EmptyString && Ascii.eqb c "{"%char)%bool
               then expand_from vars (InBraces EmptyString) rest
          else if Ascii.eqb c "$"%char
               then resolve_name vars acc +:+ expand_from vars (InName EmptyString) rest
          else resolve_name vars acc +:+ String c (expand_from vars InText rest)
      | InBraces acc =>
          if Ascii.eqb c "}"%char then resolve_braces vars acc +:+ expand_from vars InText rest
          else expand_from vars (InBraces (acc +:+ String c EmptyString)) rest
      end
  end.

(** Modelled from the spec: the environment expander on a string leaf
    (every [$NAME] and [${NAME}] token replaced by the mapping's value,
    unresolved names left as they are), absent from the sources. *)
Definition expand_string (vars : gmap string string) (s : string) : string :=
  expand_from vars InText s.

Definition AwsCredentials_expand_env_vars (vars : gmap string string) (c : AwsCredentials)
  : AwsCredentials :=
  {| access_key_id := expand_string vars (access_key_id c);
     secret_access_key := expand_string vars (secret_access_key c) |}.

(** Modelled from the spec: [Image.expand_env_vars] (every string field
    expanded, [name] passed through unexpanded), absent from the sources. *)
Definition Image_expand_env_vars (vars : gmap string string) (img : Image) : Image :=
  {| name := name img;
     username := expand_string vars <$> username img;
     password := expand_string vars <$> password img;
     email := expand_string vars <$> email img;
     run_as_user := run_as_user img;
     aws := AwsCredentials_expand_env_vars vars <$> aws img |}.

(** *** Pipelines *)

(** Modelled from the spec: [Variable] ([name], optional [default]), absent
    from the sources ([Variable] is reserved, hence the longer name). *)
Record PipelineVariable : Type := {
  var_name : string;
  var_default : option string
}.

(** Modelled from the spec: [Pipe] (a pipe identifier and its variables)
    and the script item union (a literal command or a pipe invocation),
    absent from the sources. *)
Record Pipe : Type := {
  pipe : string;
  pipe_variables : list (string * string)
}.

Inductive ScriptItem : Type :=
| Command (cmd : string)
| PipeCall (p : Pipe).

Inductive StepSize : Type := Simple | Double.
Inductive Trigger : Type := Automatic | Manual.

(** Modelled from the spec: [Step], absent from the sources (the clone
    override is left out: no rule of the model reads it). *)
Record Step : Type := {
  step_name : option string;
  script : list ScriptItem;
  after_script : list ScriptItem;
  image : option Image;
  caches : list string;
  services : list string;
  artifacts : list string;
  size : StepSize;
  deployment : option string;
  trigger : Trigger;
  max_time : option Z
}.

Record StepWrapper : Type := { step : Step }.

(** Modelled from the spec: the discriminated items of a [Pipeline]
    ([Variables], [StepWrapper], [ParallelStep]), absent from the sources. *)
Inductive PipelineItem : Type :=
| IsVariables (variables : list PipelineVariable)
| IsStepWrapper (w : StepWrapper)
| IsParallelStep (parallel : list StepWrapper).

Definition parse_variable (d : doc) : parsed PipelineVariable :=
  match d with
  | DMap m =>
      match lookup_key "name" m with
      | Some n =>
          let+ n' := as_str n in
          let+ dflt := opt_str "default" m in
          ok {| var_name := n'; var_default := dflt |}
      | None => schema_error "field required"
      end
  | _ => schema_error "value is not a valid dict"
  end.

Definition parse_script_item (d : doc) : parsed ScriptItem :=
  match d with
  | DStr s => ok (Command s)
  | DMap m =>
      match lookup_key "pipe" m with
      | Some p =>
          let+ p' := as_str p in
          let+ vars := match lookup_key "variables" m with
                       | None => ok []
                       | Some v => str_map v
                       end in
          ok (PipeCall {| pipe := p'; pipe_variables := vars |})
      | None => schema_error "field required"
      end
  | _ => schema_error "str type expected"
  end.

Definition script_list (key : string) (m : list (string * doc)) : parsed (list ScriptItem) :=
  match lookup_key key m with
  | None => ok []
  | Some (DSeq l) => parse_all parse_script_item l
  | Some _ => schema_error "value is not a valid list"
  end.

(** Modelled from the spec: the literal mapping of [size] and [trigger]
    (["2x"] and ["manual"] select the variants, absence the defaults, any
    other value is a schema error), absent from the sources. *)
Definition parse_size (m : list (string * doc)) : parsed StepSize :=
  match lookup_key "size" m with
  | None => ok Simple
  | Some (DStr s) => if String.eqb s "2x" then ok Double
                     else schema_error "value is not a valid enumeration member"
  | Some _ => schema_error "value is not a valid enumeration member"
  end.

Definition parse_trigger (m : list (string * doc)) : parsed Trigger :=
  match lookup_key "trigger" m with
  | None => ok Automatic
  | Some (DStr s) => if String.eqb s "manual" then ok Manual
                     else schema_error "value is not a valid enumeration member"
  | Some _ => schema_error "value is not a valid enumeration member"
  end.

(** Modelled from the spec: [Step.parse_obj] ([script] required, absent
    collections parsed to empty sequences), absent from the sources. *)
Definition Step_parse_obj (d : doc) : parsed Step :=
  match d with
  | DMap m =>
      match lookup_key "script" m with
      | Some (DSeq l) =>
          let+ nm := opt_str "name" m in
          let+ sc := parse_all parse_script_item l in
          let+ af := script_list "after-script" m in
          let+ im := match lookup_key "image" m with
                     | None | Some DNull => ok None
                     | Some d' => let+ i := Image_parse_obj d' in ok (Some i)
                     end in
          let+ ca := str_list "caches" m in
          let+ se := str_list "services" m in
          let+ ar := str_list "artifacts" m in
          let+ sz := parse_size m in
          let+ de := opt_str "deployment" m in
          let+ tr := parse_trigger m in
          let+ mt := opt_int "max-time" m in
          ok {| step_name := nm; script := sc; after_script := af; image := im;
                caches := ca; services := se; artifacts := ar; size := sz;
                deployment := de; trigger := tr; max_time := mt |}
      | Some _ => schema_error "value is not a valid list"
      | None => schema_error "field required"
      end
  | _ => schema_error "value is not a valid dict"
  end.

Definition parse_step_wrapper (d : doc) : parsed StepWrapper :=
  match d with
  | DMap m =>
      match lookup_key "step" m with
      | Some s => let+ st := Step_parse_obj s in ok {| step := st |}
      | None => schema_error "field required"
      end
  | _ => schema_error "value is not a valid dict"
  end.

(** Does a pipeline element carry the key [variables]? *)
Definition carries_variables (d : doc) : bool :=
  match d with
  | DMap m => bool_decide (is_Some (lookup_key "variables" m))
  | _ => false
  end.

(** Modelled from the spec: item discrimination (an element is classified by
    the one key it carries among [variables], [step] and [parallel]; exactly
    one must be present), absent from the sources. *)
Definition parse_item (d : doc) : parsed PipelineItem :=
  match d with
  | DMap m =>
      match lookup_key "variables" m, lookup_key "step" m, lookup_key "parallel" m with
      | Some (DSeq vs), None, None =>
          let+ vs' := parse_all parse_variable vs in ok (IsVariables vs')
      | None, Some _, None =>
          let+ w := parse_step_wrapper d in ok (IsStepWrapper w)
      | None, None, Some (DSeq ws) =>
          let+ ws' := parse_all parse_step_wrapper ws in ok (IsParallelStep ws')
      | _, _, _ => schema_error "value is not a valid pipeline element"
      end
  | _ => schema_error "value is not a valid dict"
  end.

Definition is_variables (e : PipelineItem) : bool :=
  match e with
  | IsVariables _ => true
  | _ => false
  end.

(** The message of the variables-first rule, as
    [test_variables_can_only_be_the_first_element_of_the_pipelines] reads it. *)
Definition variables_first_msg : string :=
  "'variables' can only be the first element of the list".

(** Modelled from the spec: the variables-first validator (an element
    carrying [variables] is valid only at index 0 of its pipeline), absent
    from the sources. The elements are visited with their indices. *)
Fixpoint validate_from (i : nat) (items : list PipelineItem) : parsed unit :=
  match items with
  | [] => ok tt
  | e :: rest =>
      if (is_variables e && negb (Nat.eqb i 0))%bool then schema_error variables_first_msg
      else validate_from (Datatypes.S i) rest
  end.

(** Modelled from the spec: [Pipeline.parse_obj] (the ordered items, then
    the validator), absent from the sources. *)
Definition Pipeline_parse_obj (d : doc) : parsed (list PipelineItem) :=
  match d with
  | DSeq elements =>
      let+ items := parse_all parse_item elements in
      let+ _ := validate_from 0 items in
      ok items
  | _ => schema_error "value is not a valid list"
  end.

(** A variable name: made of name characters only. *)
Fixpoint all_name_chars (s : string) : bool :=
  match s with
  | EmptyString => true
  | String c rest => is_name_char c && all_name_chars rest
  end.

End Models.

(** ** Vocabulary of the statements

    Names for the commands, paths and event sequences of a run, and for the
    effect of an export on the local files; the statements below are written
    with them. *)

Section Vocabulary.

Context {S : Type}.
Context (config : Config) {los : LocalOS}.
Context (slugify : string -> string).

(** The name of the temporary file that [_download] creates from [w]. *)
Definition download_tmp (self : CacheSave S) (src : string) (w : World S) : string :=
  mktemp (trace w ++ [PathExists src;
                      Log INFO "Cache '%s': Downloading" [AStr (s_cache_name self)]])
         (local_cache_directory config) (fs w).

(** The staging-directory command of the upload phase and the directory the
    archive is uploaded into. *)
Definition upload_cmd (cache_name : string) : string :=
  prepare_cache_dir_cmd (get_remote_temp_directory config cache_name)
    (PyStr.dirname (get_remote_temp_directory config cache_name)).

Definition upload_dir (cache_name : string) : string :=
  PyStr.dirname (get_remote_temp_directory config cache_name).

(** The placement command of the restore phase. *)
Definition restore_cmd (cache : Cache) (cache_name : string) : string :=
  PyStr.join PyStr.nl
    (restore_cache_script (sanitize_remote_path (path cache))
       (get_remote_temp_directory config cache_name)).

(** The directory of the image archives. *)
Definition docker_cache_dir : string :=
  PyStr.path_join (local_cache_directory config) "docker".

(** The archive path of an image, when its name can be computed. *)
Definition image_target (img : Image) : option string :=
  (fun n => PyStr.path_join docker_cache_dir (n +:+ ".tar")) <$> docker_image_name slugify img.

(** Does the event hand bytes to the writer of the temporary file [p] or
    put bytes into the file at [p]? *)
Definition writes_to (p : string) (ev : event) : bool :=
  match ev with
  | FileWrite q _ | Flush q _ => String.eqb p q
  | _ => false
  end.

(** The events of [_download] up to the loop over the stream, and those of
    [_save_image]. *)
Definition download_start (self : CacheSave S) (src tmp : string) : list event :=
  [PathExists src;
   Log INFO "Cache '%s': Downloading" [AStr (s_cache_name self)];
   TmpCreate tmp;
   Log DEBUG ("Downloading cache folder '" +:+ src +:+ "' to '" +:+ tmp +:+ "'") [];
   GetArchive src].

Definition save_image_start (img : Image) (tmp : string) : list event :=
  [TmpCreate tmp;
   Log DEBUG ("Saving docker image '" +:+ image_repr img +:+ "' to '" +:+ tmp +:+ "'") [];
   ImageSave (short_id img)].

(** The log record before the rename. *)
Definition moving (tmp dst : string) : event :=
  Log DEBUG ("Moving temp cache archive " +:+ tmp +:+ " to " +:+ dst) [].

(** What the close of the file at [p] records when the writer holds
    [pending]. *)
Definition flush_events (p : string) (pending : bytes) : list event :=
  match pending with
  | [] => []
  | _ :: _ => [Flush p pending]
  end.

(** [os.rename] can put a regular file at [dst]: no directory is there and
    the directory of [dst] is. *)
Definition writable (m : gmap string node) (dst : string) : Prop :=
  m !! dst ≠ Some Dir ∧ parent_error m dst = None.

(** What a remote command that exited with a non-zero code makes the module
    raise: the [Exception] with the message built from the decoded output,
    or the [UnicodeDecodeError] of [output.decode()]. *)
Definition command_error (message : string -> string) (output : string) : exn :=
  match PyStr.decode_error 0 output with
  | None => Exception (message output)
  | Some (start, stop, reason) => UnicodeDecodeError "utf-8" output start stop reason
  end.

(** What exporting [img] to [dst] does to the local files, on a disk that
    takes every write: the streamed bytes land at [dst] when the stream ends
    without an exception, and nothing changes otherwise. *)
Definition export_fs (img : Image) (dst : string) (m : gmap string node) : gmap string node :=
  match snd (image_save img) with
  | None => <[dst := File (concat (fst (image_save img)))]> m
  | Some _ => m
  end.

Definition export_all (images : list Image) (m : gmap string node) : gmap string node :=
  foldl (fun m' img => match image_target img with
                       | Some dst => export_fs img dst m'
                       | None => m'
                       end) m images.

(** The body of the loop of [DockerCacheSave.save]. *)
Definition save_image_body (img : Image) : M S unit :=
  let* name := match docker_image_name slugify img with
               | Some n => ret n
               | None => raise (IndexError "list index out of range")
               end in
  DockerCacheSave__save_image config img
    (PyStr.path_join docker_cache_dir (name +:+ ".tar")).

(** The local files once [save] has made sure the docker directory exists. *)
Definition with_docker_dir (m : gmap string node) : gmap string node :=
  match m !! docker_cache_dir with
  | Some _ => m
  | None => <[docker_cache_dir := Dir]> m
  end.

End Vocabulary.

(** ** Vocabulary of the further properties *)

(** The events a restore may produce: log records, commands, uploads into
    the container and image loads. *)
Definition is_restore_event (ev : event) : bool :=
  match ev with
  | Log _ _ _ | RunCommand _ | PutArchive _ _ | ImagesLoad _ => true
  | _ => false
  end.

(** A computation that leaves the local files as they are and produces
    events of the kind [P] only. *)
Definition quiet {S A : Type} (P : event -> bool) (m : M S A) : Prop :=
  forall (w w' : World S) (r : result A),
    m w = (r, w') ->
    fs w' = fs w ∧ ∃ evs, trace w' = trace w ++ evs ∧ Forall (fun ev => P ev = true) evs.

(** The entries of the directory [dir] in the local files [m], as
    [os.listdir] returns them. *)
Definition listing (dir : string) (m : gmap string node) : list string :=
  omap (entry_of dir) (map fst (map_to_list m)).

(** The bytes of the regular file at [p]. *)
Definition file_bytes (m : gmap string node) (p : string) : bytes :=
  match m !! p with
  | Some (File c) => c
  | _ => []
  end.

(** The one line that [upload] logs for a cache it has nothing to do for. *)
Definition upload_idle_event (cache_name : string) : event :=
  Log INFO (if String.eqb cache_name "docker" then "Cache '%s': Ignoring"
            else "Cache '%s': Not found: Skipping") [AStr cache_name].

Section Observations.

Context {S : Type}.
Context (config : Config).

(** The world in which [_download] starts once [_prepare] has succeeded. *)
Definition prepared (self : CacheSave S) (cache : Cache) (s1 : S) (w : World S) : World S :=
  {| container_state := s1; fs := fs w;
     trace := trace w ++
       [Log INFO "Cache '%s': Preparing" [AStr (s_cache_name self)];
        RunCommand (prepare_cache_cmd (sanitize_remote_path (path cache))
                      (get_remote_temp_directory config (s_cache_name self)));
        Log INFO "Cache '%s': Prepared in %.3fs" [AStr (s_cache_name self); AElapsed]] |}.

(** The events of [_restore_image] on the entry [e]. *)
Definition restore_image_events (m : gmap string node) (e : string) : list event :=
  let img_path := PyStr.path_join (docker_cache_dir config) e in
  [Log DEBUG ("Restoring docker image archive '" +:+ img_path +:+ "'") [];
   ImagesLoad (file_bytes m img_path)].

End Observations.

(** ** Concrete collaborators and worlds *)

(** A [tempfile] that names its files [tmp___..._]: longer than every
    existing path, hence new. *)
Definition longest_key (m : gmap string node) : nat :=
  foldr (fun kv acc => Nat.max (String.length (fst kv)) acc) 0 (map_to_list m).

Fixpoint underscores (n : nat) : string :=
  match n with
  | 0 => EmptyString
  | Datatypes.S n' => String "_"%char (underscores n')
  end.

Definition simple_mktemp (t : list event) (dir : string) (m : gmap string node) : string :=
  (PyStr.path_join dir "tmp" +:+ underscores (longest_key m)) +:+ "_".

(** A writer with a buffer of [size] bytes: it keeps what it holds while
    that fits, and puts all of it into the file otherwise. *)
Definition holds_back (size : nat) (t : list event) (held : bytes) : nat :=
  if (length held <=? size)%nat then 0 else length held.

(** The error of a full disk. *)
Definition ENOSPC : exn := ExternalError "OSError" "[Errno 28] No space left on device".

Definition cfg0 : Config :=
  {| local_cache_directory := "/cache"; caches_dir := "/caches" |}.

Definition pip_cache : Cache := {| name := "pip"; path := "~/.cache/pip" |}.

Definition defs0 : gmap string Cache :=
  {[ "pip" := pip_cache;
     "npm" := {| name := "npm"; path := "node_modules" |} ]}.

(** A container that gives the same answers whatever it is asked. *)
Definition scripted (code : Z) (out : string) (uploaded staged : bool) (data : stream)
  : ContainerRunner unit :=
  {| run_command := fun _ s => ((code, out), s);
     put_archive := fun _ _ s => (uploaded, s);
     path_exists := fun _ s => (staged, s);
     get_archive := fun _ s => (data, s) |}.

(** A container whose commands fail with exit code 1 and output "boom". *)
Definition failing : ContainerRunner unit := scripted 1 "boom" true false ([], None).


(** A container whose commands succeed and whose staging path is absent. *)
Definition nothing_staged : ContainerRunner unit :=
  scripted 0 EmptyString true false ([], None).

(** A container whose staging-directory command succeeds and whose placement
    command fails. *)
Definition placement_fails : ContainerRunner unit :=
  {| run_command := fun cmd s =>
       if PyStr.startswith "[ -d" cmd then ((0%Z, EmptyString), s)
       else ((2%Z, "mv: cannot move"), s);
     put_archive := fun _ _ s => (true, s);
     path_exists := fun _ s => (true, s);
     get_archive := fun _ s => (([], None), s) |}.

Definition world0 (m : gmap string node) : World unit :=
  {| container_state := tt; fs := m; trace := [] |}.

(** Local files with the archive of an earlier run. *)
Definition fs_pip : gmap string node :=
  {[ "/cache" := Dir; "/cache/pip.tar" := File [x6f; x6c; x64] ]}.

(** The local cache directory, empty. *)
Definition fs_cache : gmap string node := {[ "/cache" := Dir ]}.

Definition pip_restore (c : ContainerRunner unit) : CacheRestore unit :=
  CacheRestoreFactory_get c "pip" defs0.

Definition pip_save (c : ContainerRunner unit) : CacheSave unit :=
  CacheSaveFactory_get c "pip" defs0.

(** A slug: letters and digits kept, every other character a dash. *)
Fixpoint dash_slug (s : string) : string :=
  match s with
  | EmptyString => EmptyString
  | String c rest =>
      String (if Models.is_name_char c then c else "-"%char) (dash_slug rest)
  end.

(** Two images: the export of the first breaks after one chunk, the second
    has no tag and exports two chunks. *)
Definition image_alpine : Image :=
  {| tags := ["alpine:3.18"]; short_id := "sha256:aaaa";
     image_repr := "<Image: 'alpine:3.18'>";
     image_save := ([[x61]], Some (ExternalError "APIError" "connection reset")) |}.

Definition image_untagged : Image :=
  {| tags := []; short_id := "sha256:bbbb";
     image_repr := "<Image: ''>";
     image_save := ([[x62]; [x63]], None) |}.

Definition docker0 : DockerClient := {| images_list := [] |}.

Definition docker2 : DockerClient := {| images_list := [image_alpine; image_untagged] |}.

(** A container whose commands succeed and that streams a two-chunk archive. *)
Definition healthy : ContainerRunner unit :=
  scripted 0 EmptyString true true ([[x61; x62]; [x63]], None).

(** A container whose commands succeed and that refuses every upload. *)
Definition refuses_upload : ContainerRunner unit :=
  scripted 0 EmptyString false true ([], None).

(** Local files with a directory where the archive of "pip" belongs. *)
Definition fs_pip_dir : gmap string node :=
  {[ "/cache" := Dir; "/cache/pip.tar" := Dir ]}.

(** Local files with one image archive in the docker directory. *)
Definition fs_docker : gmap string node :=
  {[ "/cache" := Dir; "/cache/docker" := Dir;
     "/cache/docker/alpine.tar" := File [x61; x62] ]}.

(** An image without a tag whose short id has no colon. *)
Definition image_bare : Image :=
  {| tags := []; short_id := "cccc";
     image_repr := "<Image: ''>";
     image_save := ([[x64]], None) |}.

Definition docker3 : DockerClient :=
  {| images_list := [image_untagged; image_bare; image_alpine] |}.

(** Two images whose first tags have the same slug. *)
Definition image_twin_a : Image :=
  {| tags := ["my/app:1"]; short_id := "sha256:dddd";
     image_repr := "<Image: 'my/app:1'>";
     image_save := ([[x65]], None) |}.

Definition image_twin_b : Image :=
  {| tags := ["my-app:1"; "my-app:latest"]; short_id := "sha256:eeee";
     image_repr := "<Image: 'my-app:1', 'my-app:latest'>";
     image_save := ([[x66]; [x67]], None) |}.

Definition docker_twins : DockerClient := {| images_list := [image_twin_a; image_twin_b] |}.

(** An image whose target is taken by a directory, followed by another. *)
Definition docker_blocked : DockerClient :=
  {| images_list := [image_untagged; image_twin_a] |}.

Definition fs_blocked : gmap string node :=
  {[ "/cache" := Dir; "/cache/docker" := Dir; "/cache/docker/bbbb.tar" := Dir ]}.

(** The documents and values of [tests/test_parse.py]. *)

Module TestData.
Import Models.

Definition step1_doc : doc :=
  DMap [("step", DMap [("name", DStr "Step 1");
                       ("script", DSeq [DStr "cat /etc/os-release"; DStr "exit 0"])])].

Definition variables_doc : doc :=
  DMap [("variables", DSeq [DMap [("name", DStr "foo")]; DMap [("name", DStr "bar")]])].

Definition step1 : PipelineItem :=
  IsStepWrapper
    {| step := {| step_name := Some "Step 1";
                  script := [Command "cat /etc/os-release"; Command "exit 0"];
                  after_script := []; image := None; caches := []; services := [];
                  artifacts := []; size := Simple; deployment := None;
                  trigger := Automatic; max_time := None |} |}.

Definition foo_bar : PipelineItem :=
  IsVariables [ {| var_name := "foo"; var_default := None |};
                {| var_name := "bar"; var_default := None |} ].

Definition image_doc : doc :=
  DMap [("name", DStr "${IMAGE_NAME}");
        ("username", DStr "$REPO_USERNAME");
        ("password", DStr "$REPO_PASSWORD");
        ("email", DStr "$REPO_EMAIL");
        ("aws", DMap [("access-key", DStr "$AWS_ACCESS_KEY_ID");
                      ("secret-key", DStr "$AWS_SECRET_ACCESS_KEY")])].

Definition env_vars : gmap string string :=
  {[ "IMAGE_NAME" := "alpine:latest";
     "REPO_USERNAME" := "my-username";
     "REPO_PASSWORD" := "my-password";
     "REPO_EMAIL" := "my-email";
     "AWS_ACCESS_KEY_ID" := "access-key-id";
     "AWS_SECRET_ACCESS_KEY" := "secret-access-key" ]}.

Definition image_unexpanded : Image :=
  {| name := "${IMAGE_NAME}";
     username := Some "$REPO_USERNAME";
     password := Some "$REPO_PASSWORD";
     email := Some "$REPO_EMAIL";
     run_as_user := None;
     aws := Some {| access_key_id := "$AWS_ACCESS_KEY_ID";
                    secret_access_key := "$AWS_SECRET_ACCESS_KEY" |} |}.

Definition image_expected : Image :=
  {| name := "${IMAGE_NAME}";
     username := Some "my-username";
     password := Some "my-password";
     email := Some "my-email";
     run_as_user := None;
     aws := Some {| access_key_id := "access-key-id";
                    secret_access_key := "secret-access-key" |} |}.

End TestData.

(** * Properties *)

(** ** Strings and paths *)

Example dirname_nested : PyStr.dirname "/caches/pip" = "/caches".
Proof. reflexivity. Qed.

Example dirname_root : PyStr.dirname "/pip" = "/".
Proof. reflexivity. Qed.

Example dirname_relative : PyStr.dirname "pip" = "".
Proof. reflexivity. Qed.

Example dirname_double_slash : PyStr.dirname "/a//b" = "/a".
Proof. reflexivity. Qed.

Example path_join_plain : PyStr.path_join "/cache" "pip.tar" = "/cache/pip.tar".
Proof. reflexivity. Qed.

Example path_join_absolute : PyStr.path_join "/cache" "/etc/x.tar" = "/etc/x.tar".
Proof. reflexivity. Qed.

Example split_colon_id : PyStr.split_colon "sha256:0123abcd" = ["sha256"; "0123abcd"].
Proof. reflexivity. Qed.

Lemma append_cons (c : ascii) (s t : string) : String c s +:+ t = String c (s +:+ t).
Proof. reflexivity. Qed.

Lemma append_assoc (s t u : string) : (s +:+ t) +:+ u = s +:+ t +:+ u.
Proof. induction s as [|c s IH]; [reflexivity|]. rewrite !append_cons. by rewrite IH. Qed.

Lemma startswith_refl (p : string) : PyStr.startswith p p = true.
Proof. induction p as [|c p IH]; simpl; [done|]. by rewrite Ascii.eqb_refl. Qed.

Lemma endswith_refl (p : string) : PyStr.endswith p p = true.
Proof. destruct p; simpl; [done|]. by rewrite Ascii.eqb_refl, String.eqb_refl. Qed.

Lemma endswith_app_l (p x s : string) :
  PyStr.endswith p s = true -> PyStr.endswith p (x +:+ s) = true.
Proof.
  intros H. induction x as [|c x IH]; [done|].
  rewrite append_cons. simpl. rewrite IH. apply orb_true_r.
Qed.

Lemma endswith_path_join (p a b : string) :
  PyStr.endswith p b = true -> PyStr.endswith p (PyStr.path_join a b) = true.
Proof.
  intros H. unfold PyStr.path_join.
  destruct (PyStr.startswith "/" b); [done|].
  destruct (_ || _); by repeat apply endswith_app_l.
Qed.

Lemma contains_refl (p : string) : PyStr.contains p p = true.
Proof. destruct p; simpl; [done|]. by rewrite Ascii.eqb_refl, startswith_refl. Qed.

Lemma contains_app_l (p x s : string) :
  PyStr.contains p s = true -> PyStr.contains p (x +:+ s) = true.
Proof.
  intros H. induction x as [|c x IH]; [done|].
  rewrite append_cons. simpl. rewrite IH. by destruct (PyStr.startswith _ _).
Qed.

(** ** The generic strategies *)

(** Unfolds the monad and the primitive actions, so that a run computes. *)
Ltac unfold_m :=
  cbv beta iota zeta delta
    [bind ret raise attempt emit logger_info logger_debug logger_error call
     container_run_command container_put_archive container_path_exists
     container_get_archive dict_getitem].

Lemma take_then_drop {A : Type} (n : nat) (l : list A) :
  take n l ++ drop (length (take n l)) l = l.
Proof.
  rewrite length_take. destruct (Nat.min_spec n (length l)) as [[_ ->]|[Hle ->]].
  - apply take_drop.
  - rewrite take_ge, drop_all by lia. apply app_nil_r.
Qed.

Section Download.

Context {S : Type}.
Context (config : Config) {los : LocalOS}.

(** *** The write loop and the two ways out of the [with] block *)

(** The loop changes the temporary file only, whatever the platform does;
    on a disk that takes every write it runs to its end, and the file and the
    writer together hold what they held and the chunks. *)
Lemma write_chunks_run (tmp : string) (chunks : list bytes) :
  forall (size : nat) (pending c : bytes) (w : World S),
    fs w !! tmp = Some (File c) ->
    ∃ (r : result (nat * bytes)) (c' : bytes) (evs : list event),
      write_chunks tmp chunks size pending w =
        (r, {| container_state := container_state w;
               fs := <[tmp := File c']> (fs w);
               trace := trace w ++ evs |})
      ∧ Forall (fun ev => writes_to tmp ev = true) evs
      ∧ (reliable_disk ->
         ∃ pending', r = Ok (size + length (concat chunks), pending')
                     ∧ c' ++ pending' = c ++ pending ++ concat chunks).
Proof.
  induction chunks as [|chunk rest IH]; intros size pending c w Hc.
  - exists (Ok (size, pending)), c, []. simpl. unfold ret.
    rewrite insert_id, app_nil_r by done. split; [by destruct w|]. split; [done|].
    intros _. exists pending. by rewrite Nat.add_0_r, !app_nil_r.
  - cbn [write_chunks]. unfold bind, f_write.
    set (held := pending ++ chunk).
    set (now := take (written_through (trace w) held) held).
    assert (Hsplit : now ++ drop (length now) held = held) by apply take_then_drop.
    assert (Hself : writes_to tmp (FileWrite tmp chunk) = true)
      by (simpl; apply String.eqb_refl).
    destruct now as [|b now'] eqn:Hnow.
    + edestruct (IH (size + length chunk) held c
                   {| container_state := container_state w; fs := fs w;
                      trace := trace w ++ [FileWrite tmp chunk] |})
        as (r & c' & evs & Hrun & Hevs & Hrel); [exact Hc|].
      exists r, c', (FileWrite tmp chunk :: evs). rewrite Hrun. cbn [fs trace container_state].
      rewrite <- app_assoc. split; [done|]. split; [by constructor|].
      intros Hok. destruct (Hrel Hok) as (pending' & -> & Heq). exists pending'.
      split.
      * f_equal. f_equal. cbn [concat]. rewrite length_app. lia.
      * rewrite Heq. unfold held. cbn [concat]. by rewrite <- !app_assoc.
    + destruct (disk_error (trace w)) as [e|] eqn:Hdisk.
      * exists (Raise e), c, [FileWrite tmp chunk]. rewrite insert_id by done.
        split; [done|]. split; [by repeat constructor|].
        intros Hok. rewrite Hok in Hdisk. discriminate.
      * edestruct (IH (size + length chunk) (drop (length (b :: now')) held) (c ++ b :: now')
                     {| container_state := container_state w;
                        fs := alter (append_chunk (b :: now')) tmp (fs w);
                        trace := (trace w ++ [FileWrite tmp chunk])
                                   ++ [Flush tmp (b :: now')] |})
          as (r & c' & evs & Hrun & Hevs & Hrel).
        { cbn [fs]. by rewrite lookup_alter_eq, Hc. }
        exists r, c', (FileWrite tmp chunk :: Flush tmp (b :: now') :: evs).
        cbn [fs trace container_state]. rewrite Hrun. cbn [fs trace container_state].
        assert (Hfs : <[tmp := File c']> (alter (append_chunk (b :: now')) tmp (fs w))
                      = <[tmp := File c']> (fs w)).
        { apply map_eq. intros k. destruct (decide (k = tmp)) as [->|Hne].
          - by rewrite !lookup_insert_eq.
          - by rewrite !lookup_insert_ne, lookup_alter_ne. }
        rewrite Hfs, <- !app_assoc. split; [done|]. split.
        { constructor; [done|]. constructor; [|done]. simpl. apply String.eqb_refl. }
        intros Hok. destruct (Hrel Hok) as (pending' & -> & Heq). exists pending'.
        split.
        -- f_equal. f_equal. cbn [concat]. rewrite length_app. lia.
        -- assert (Hre : (c ++ b :: now') ++ drop (length (b :: now')) held ++ concat rest
                         = c ++ ((b :: now') ++ drop (length (b :: now')) held)
                             ++ concat rest)
             by (by rewrite <- !app_assoc).
           rewrite Heq, Hre, Hsplit. unfold held. cbn [concat]. by rewrite <- !app_assoc.
Qed.

Lemma write_stream_run (tmp : string) (data : stream) (c : bytes) (w : World S) :
  fs w !! tmp = Some (File c) ->
  ∃ (r : result (nat * bytes)) (c' : bytes) (evs : list event),
    write_stream tmp data w =
      (r, {| container_state := container_state w;
             fs := <[tmp := File c']> (fs w);
             trace := trace w ++ evs |})
    ∧ Forall (fun ev => writes_to tmp ev = true) evs
    ∧ (reliable_disk ->
       ∃ pending, c' ++ pending = c ++ concat (fst data)
                  ∧ r = match snd data with
                        | None => Ok (length (concat (fst data)), pending)
                        | Some e => Raise e
                        end).
Proof.
  intros Hc. unfold write_stream, bind.
  destruct (write_chunks_run tmp (fst data) 0 [] c w Hc) as (r & c' & evs & Hrun & Hevs & Hrel).
  rewrite Hrun. destruct r as [[size pending]|e].
  - exists (match snd data with None => Ok (size, pending) | Some e => Raise e end), c', evs.
    split; [by destruct (snd data)|]. split; [done|].
    intros Hok. destruct (Hrel Hok) as (pending' & [= -> ->] & Heq).
    exists pending'. split; [done|]. by destruct (snd data).
  - exists (Raise e), c', evs. split; [done|]. split; [done|].
    intros Hok. by destruct (Hrel Hok) as (? & ? & _).
Qed.

(** The [except] suite and the close that follows it: the temporary file is
    gone, and the outcome is that of the close. *)
Lemma unlink_and_close (tmp msg : string) (c : bytes) (w : World S) :
  fs w !! tmp = Some (File c) ->
  let t := trace w ++ [Log ERROR msg []; Unlink tmp] in
  finally (logger_error msg [] ;;; os_unlink tmp) (f_close None) w =
    (match disk_error t with
     | None => Ok tt
     | Some e => Raise e
     end,
     {| container_state := container_state w; fs := delete tmp (fs w); trace := t |}).
Proof.
  intros Hc t. unfold finally, os_unlink, f_close. unfold_m. cbn [fs trace container_state].
  rewrite Hc. cbn [fs trace container_state]. rewrite <- app_assoc.
  change ([Log ERROR msg []] ++ [Unlink tmp]) with [Log ERROR msg []; Unlink tmp].
  fold t. by destruct (disk_error t).
Qed.

(** The close of a file that is at [p]. *)
Lemma close_linked (p : string) (pending c : bytes) (w : World S) :
  fs w !! p = Some (File c) ->
  disk_error (trace w) = None ->
  f_close (Some (p, pending)) w =
    (Ok tt, {| container_state := container_state w;
               fs := <[p := File (c ++ pending)]> (fs w);
               trace := trace w ++ flush_events p pending |}).
Proof.
  intros Hc Hd. unfold f_close. rewrite Hd. destruct pending as [|b pending]; simpl.
  - rewrite !app_nil_r, insert_id by done. by destruct w.
  - f_equal. f_equal. apply map_eq. intros k. destruct (decide (k = p)) as [->|Hne].
    + by rewrite lookup_alter_eq, lookup_insert_eq, Hc.
    + by rewrite lookup_alter_ne, lookup_insert_ne.
Qed.

(** The [else] suite on a disk that takes every write: the file is renamed
    and then completed at the target, or the rename raises and the file is
    completed where it was. *)
Lemma move_and_close_run (tmp dst : string) (pending c : bytes) (w : World S) :
  reliable_disk ->
  fs w !! tmp = Some (File c) ->
  move_and_close tmp dst pending w =
    match fs w !! dst, parent_error (fs w) dst with
    | Some Dir, _ =>
        (Raise (IsADirectoryError dst),
         {| container_state := container_state w;
            fs := <[tmp := File (c ++ pending)]> (fs w);
            trace := trace w ++ moving tmp dst :: flush_events tmp pending |})
    | _, Some e =>
        (Raise e,
         {| container_state := container_state w;
            fs := <[tmp := File (c ++ pending)]> (fs w);
            trace := trace w ++ moving tmp dst :: flush_events tmp pending |})
    | _, None =>
        (Ok tt,
         {| container_state := container_state w;
            fs := <[dst := File (c ++ pending)]> (delete tmp (fs w));
            trace := trace w ++ moving tmp dst :: Rename tmp dst :: flush_events dst pending |})
    end.
Proof.
  intros Hok Hc. unfold move_and_close, os_rename, moving. unfold_m.
  cbn [fs trace container_state]. rewrite Hc.
  destruct (fs w !! dst) as [[cd|]|] eqn:Hdst;
    destruct (parent_error (fs w) dst) as [e|] eqn:Hpar; cbn [fs trace container_state].
  all: first
    [ rewrite (close_linked tmp pending c) by (try apply Hok; exact Hc);
      cbn [fs trace container_state]; by rewrite <- app_assoc
    | rewrite (close_linked dst pending c)
        by (try apply Hok; cbn [fs]; apply lookup_insert_eq);
      cbn [fs trace container_state]; by rewrite insert_insert_eq, <- !app_assoc ].
Qed.

(** Whatever the platform does, an [else] suite that returns has put a
    regular file at the target and removed the temporary file. *)
Lemma move_and_close_frame (tmp dst : string) (pending c : bytes) (w w' : World S) :
  fs w !! tmp = Some (File c) ->
  move_and_close tmp dst pending w = (Ok tt, w') ->
  container_state w' = container_state w
  ∧ ∃ c', fs w' = <[dst := File c']> (delete tmp (fs w)).
Proof.
  intros Hc. unfold move_and_close, os_rename, f_close. unfold_m.
  cbn [fs trace container_state]. rewrite Hc.
  destruct (fs w !! dst) as [[cd|]|] eqn:Hdst;
    destruct (parent_error (fs w) dst) as [e|]; cbn [fs trace container_state];
    repeat match goal with
           | |- context [disk_error ?t] => destruct (disk_error t)
           end;
    try done.
  all: destruct pending as [|b pending]; intros [= <-]; cbn [fs container_state];
    (split; [done|]); eexists;
    rewrite ?insert_insert_eq; try reflexivity.
  all: apply map_eq; intros k; destruct (decide (k = dst)) as [->|Hk];
    [by rewrite lookup_alter_eq, !lookup_insert_eq
    |by rewrite lookup_alter_ne, !lookup_insert_ne].
Qed.

(** *** Directories *)

Lemma directory_error_present (m : gmap string node) (d p : string) :
  is_directory m d = true -> directory_error m d p = None.
Proof. intros Hd. unfold directory_error. by rewrite Hd. Qed.

Lemma directory_error_absent (m : gmap string node) (d p : string) :
  is_directory m d = false -> is_Some (directory_error m d p).
Proof. intros Hd. unfold directory_error. rewrite Hd. by destruct (m !! d). Qed.

Lemma parent_error_present (m : gmap string node) (p : string) :
  parent_error m p = None -> is_directory m (PyStr.dirname p) = true.
Proof.
  unfold parent_error, directory_error.
  destruct (is_directory m (PyStr.dirname p)); [done|]. by destruct (m !! _).
Qed.

(** A directory stays one when an entry is put elsewhere, or when a
    directory is put anywhere. *)
Lemma is_directory_insert (m : gmap string node) (d p : string) (n : node) :
  m !! p ≠ Some Dir ∨ n = Dir ->
  is_directory m d = true -> is_directory (<[p := n]> m) d = true.
Proof.
  unfold is_directory. intros Hp. destruct (PyStr.drop_slashes d); [done|].
  destruct (decide (p = d)) as [->|Hne].
  - rewrite lookup_insert_eq. destruct (m !! d) as [[c|]|] eqn:Hd; try done.
    destruct Hp as [Hp| ->]; done.
  - by rewrite lookup_insert_ne.
Qed.

Lemma is_directory_delete (m : gmap string node) (d p : string) :
  m !! p ≠ Some Dir ->
  is_directory m d = true -> is_directory (delete p m) d = true.
Proof.
  unfold is_directory. intros Hp. destruct (PyStr.drop_slashes d); [done|].
  destruct (decide (p = d)) as [->|Hne].
  - by destruct (m !! d) as [[c|]|].
  - by rewrite lookup_delete_ne.
Qed.

(** [os.makedirs] where the directory of the path is there: the path alone is
    made. *)
Lemma makedirs_simple (fuel : nat) (m : gmap string node) (p : string) :
  m !! p = None -> parent_error m p = None -> makedirs fuel m p = inr (<[p := Dir]> m).
Proof.
  intros Hp Hpar. pose proof (parent_error_present _ _ Hpar) as Hd.
  assert (Hmk : mkdir m p = inr (<[p := Dir]> m)) by (unfold mkdir; by rewrite Hp, Hpar).
  destruct fuel as [|n]; simpl; [done|]. by rewrite Hd.
Qed.

(** The recursion of [os.makedirs] ends before the fuel does: the directory
    of a path is shorter than the path, or is the root or the current
    directory, where the recursion stops. *)
Lemma rev_app_length (s acc : string) :
  String.length (String.rev_app s acc) = String.length s + String.length acc.
Proof.
  revert acc. induction s as [|c s IH]; intros acc; simpl; [done|].
  rewrite IH. simpl. lia.
Qed.

Lemma rev_app_slashes (s acc : string) :
  PyStr.drop_slashes s = EmptyString -> PyStr.drop_slashes acc = EmptyString ->
  PyStr.drop_slashes (String.rev_app s acc) = EmptyString.
Proof.
  revert acc. induction s as [|c s IH]; intros acc Hs Hacc; simpl in *; [done|].
  destruct (Ascii.eqb c "/") eqn:Hc; [|done]. apply IH; [done|]. simpl. by rewrite Hc.
Qed.

Lemma from_first_slash_length (s : string) :
  String.length (PyStr.from_first_slash s) <= String.length s.
Proof.
  induction s as [|c s IH]; simpl; [done|]. destruct (Ascii.eqb c "/"); simpl; lia.
Qed.

Lemma drop_slashes_length (s : string) :
  String.length (PyStr.drop_slashes s) <= String.length s.
Proof.
  induction s as [|c s IH]; simpl; [done|]. destruct (Ascii.eqb c "/"); simpl; lia.
Qed.

Lemma from_first_slash_head (s : string) :
  PyStr.from_first_slash s = EmptyString
  ∨ ∃ t, PyStr.from_first_slash s = String "/" t.
Proof.
  induction s as [|c s IH]; simpl; [by left|].
  destruct (Ascii.eqb_spec c "/") as [->|]; [right; eauto|done].
Qed.

Lemma dirname_shorter (p : string) :
  PyStr.drop_slashes (PyStr.dirname p) ≠ EmptyString ->
  String.length (PyStr.dirname p) < String.length p.
Proof.
  unfold PyStr.dirname, String.rev.
  pose proof (from_first_slash_length (String.rev_app p EmptyString)) as Hlen.
  rewrite rev_app_length in Hlen. simpl in Hlen.
  destruct (from_first_slash_head (String.rev_app p EmptyString)) as [->|[t Heq]].
  - simpl. done.
  - rewrite Heq in *. simpl in *. pose proof (drop_slashes_length t) as Ht.
    destruct (PyStr.drop_slashes t) as [|c stripped] eqn:Hd.
    + intros Hne. exfalso. apply Hne. apply rev_app_slashes; [|done]. simpl. exact Hd.
    + intros _. rewrite rev_app_length. simpl in *. lia.
Qed.

Lemma makedirs_more (n : nat) :
  forall (m : gmap string node) (p : string),
    String.length p <= n -> makedirs (Datatypes.S n) m p = makedirs n m p.
Proof.
  induction n as [|k IH]; intros m p Hlen.
  - destruct p; [|simpl in Hlen; lia]. reflexivity.
  - change (makedirs (Datatypes.S (Datatypes.S k)) m p)
      with (if (is_directory m (PyStr.dirname p)
                || bool_decide (is_Some (m !! PyStr.dirname p)))%bool
            then mkdir m p
            else match makedirs (Datatypes.S k) m (PyStr.dirname p) with
                 | inr m' => mkdir m' p
                 | inl e => inl e
                 end).
    change (makedirs (Datatypes.S k) m p)
      with (if (is_directory m (PyStr.dirname p)
                || bool_decide (is_Some (m !! PyStr.dirname p)))%bool
            then mkdir m p
            else match makedirs k m (PyStr.dirname p) with
                 | inr m' => mkdir m' p
                 | inl e => inl e
                 end).
    destruct (is_directory m (PyStr.dirname p)) eqn:Hd; [done|].
    destruct (bool_decide _); [done|]. cbn [orb].
    rewrite IH; [done|].
    assert (Hs : String.length (PyStr.dirname p) < String.length p); [|lia].
    apply dirname_shorter. unfold is_directory in Hd.
    by destruct (PyStr.drop_slashes (PyStr.dirname p)).
Qed.

Lemma makedirs_fuel (fuel : nat) (m : gmap string node) (p : string) :
  String.length p <= fuel -> makedirs fuel m p = makedirs (String.length p) m p.
Proof.
  induction fuel as [|n IH]; intros Hlen.
  - by replace (String.length p) with 0 by lia.
  - destruct (decide (String.length p = Datatypes.S n)) as [->|Hne]; [done|].
    rewrite makedirs_more by lia. apply IH. lia.
Qed.

(** [os.makedirs] adds entries and changes none. *)
Lemma mkdir_subseteq (m m' : gmap string node) (p : string) :
  mkdir m p = inr m' -> m ⊆ m'.
Proof.
  unfold mkdir. destruct (m !! p) eqn:Hp; [done|].
  destruct (parent_error m p); [done|]. intros [= <-]. by apply insert_subseteq.
Qed.

Lemma makedirs_subseteq (fuel : nat) (m m' : gmap string node) (p : string) :
  makedirs fuel m p = inr m' -> m ⊆ m'.
Proof.
  revert m m' p. induction fuel as [|n IH]; intros m m' p; simpl; [apply mkdir_subseteq|].
  destruct (_ || _)%bool; [apply mkdir_subseteq|].
  destruct (makedirs n m (PyStr.dirname p)) as [e|m1] eqn:H1; [done|].
  intros H2. etrans; [by eapply IH | by eapply mkdir_subseteq].
Qed.

(** *** [_download] *)

Lemma download_not_found (self : CacheSave S) (src dst : string) (w : World S) (s2 : S) :
  path_exists (s_container self) src (container_state w) = (false, s2) ->
  CacheSave__download config self src dst w =
    (Ok tt, {| container_state := s2; fs := fs w;
               trace := trace w ++
                 [PathExists src;
                  Log INFO "Cache '%s': Not found" [AStr (s_cache_name self)]] |}).
Proof.
  intros Hp. unfold CacheSave__download. unfold_m. simpl. rewrite Hp. simpl.
  by rewrite <- app_assoc.
Qed.

(** When the staging path exists, [_download] creates the temporary file and
    runs the [try] suite, which changes that file only; what follows is the
    [except] suite or the [else] suite, each with the close of the file. On a
    disk that takes every write the stream decides which, and the file and
    its writer together hold the chunks. *)
Lemma download_found (self : CacheSave S) (src dst : string) (w : World S) (s2 s3 : S)
    (data : stream) :
  is_directory (fs w) (local_cache_directory config) = true ->
  path_exists (s_container self) src (container_state w) = (true, s2) ->
  get_archive (s_container self) src s2 = (data, s3) ->
  let tmp := download_tmp config self src w in
  ∃ (outcome : (nat * bytes) + exn) (c : bytes) (wevs : list event),
    let w2 := {| container_state := s3; fs := <[tmp := File c]> (fs w);
                 trace := trace w ++ download_start self src tmp ++ wevs |} in
    CacheSave__download config self src dst w =
      match outcome with
      | inr e =>
          finally
            (logger_error ("Error getting cache from container: " +:+ s_cache_name self
                             +:+ ": " +:+ exn_str e) [] ;;;
             os_unlink tmp)
            (f_close None) w2
      | inl (size, pending) =>
          (move_and_close tmp dst pending ;;;
           logger_info "Cache '%s': Downloaded %s in %.3fs"
             [AStr (s_cache_name self); ASize size; AElapsed]) w2
      end
    ∧ Forall (fun ev => writes_to tmp ev = true) wevs
    ∧ (reliable_disk ->
       ∃ pending, c ++ pending = concat (fst data)
                  ∧ outcome = match snd data with
                              | None => inl (length (concat (fst data)), pending)
                              | Some e => inr e
                              end).
Proof.
  intros Hdir Hp Hg tmp. unfold download_tmp in tmp.
  unfold CacheSave__download, CacheSave__download_try, NamedTemporaryFile.
  unfold_m. cbn [fs trace container_state]. rewrite Hp. cbn [fs trace container_state negb].
  rewrite (directory_error_present _ _ _ Hdir). cbn [fs trace container_state].
  rewrite <- !app_assoc. cbn [app]. fold tmp. rewrite Hg. cbn [fs trace container_state].
  edestruct (write_stream_run tmp data []
               {| container_state := s3; fs := <[tmp := File []]> (fs w);
                  trace := (((trace w ++ [PathExists src;
                                          Log INFO "Cache '%s': Downloading"
                                            [AStr (s_cache_name self)]])
                               ++ [TmpCreate tmp])
                              ++ [Log DEBUG ("Downloading cache folder '" +:+ src +:+ "' to '"
                                               +:+ tmp +:+ "'") []])
                             ++ [GetArchive src] |})
    as (r & c & wevs & Hrun & Hwevs & Hrel); [apply lookup_insert_eq|].
  rewrite <- !app_assoc in Hrun. cbn [app] in Hrun. rewrite <- ?app_assoc. cbn [app].
  rewrite Hrun. cbn [fs trace container_state]. rewrite insert_insert_eq.
  exists (match r with Ok a => inl a | Raise e => inr e end), c, wevs.
  unfold download_start. rewrite <- !app_assoc. cbn [app].
  split; [by destruct r as [[size pending]|e]|]. split; [done|].
  intros Hok. destruct (Hrel Hok) as (pending & Heq & ->). exists pending.
  split; [done|]. by destruct (snd data).
Qed.

(** Without the local cache directory no temporary file can be created:
    [_download] raises, having changed nothing. *)
Lemma download_no_directory (self : CacheSave S) (src dst : string) (w : World S) (s2 : S) :
  is_directory (fs w) (local_cache_directory config) = false ->
  path_exists (s_container self) src (container_state w) = (true, s2) ->
  ∃ e, CacheSave__download config self src dst w =
         (Raise e, {| container_state := s2; fs := fs w;
                      trace := trace w ++
                        [PathExists src;
                         Log INFO "Cache '%s': Downloading" [AStr (s_cache_name self)]] |}).
Proof.
  intros Hdir Hp.
  unfold CacheSave__download, NamedTemporaryFile.
  unfold_m. cbn [fs trace container_state]. rewrite Hp. cbn [fs trace container_state negb].
  destruct (directory_error_absent (fs w) (local_cache_directory config)
              (mktemp ((trace w ++ [PathExists src]) ++
                         [Log INFO "Cache '%s': Downloading" [AStr (s_cache_name self)]])
                 (local_cache_directory config) (fs w)) Hdir) as [e He].
  rewrite He. exists e. by rewrite <- !app_assoc.
Qed.

Lemma parent_error_insert (m : gmap string node) (p dst : string) (n : node) :
  m !! p = None -> parent_error m dst = None -> parent_error (<[p := n]> m) dst = None.
Proof.
  intros Hp Hpar. apply parent_error_present in Hpar.
  apply directory_error_present, is_directory_insert; [|done].
  left. by rewrite Hp.
Qed.

Lemma writable_insert (m : gmap string node) (p dst : string) (c : bytes) :
  m !! p = None -> writable m dst -> writable (<[p := File c]> m) dst.
Proof.
  intros Hp [Hd Hpar]. split; [|by apply parent_error_insert].
  destruct (decide (p = dst)) as [->|Hne].
  - by rewrite lookup_insert_eq.
  - by rewrite lookup_insert_ne.
Qed.


(** On a disk that takes every write, a stream that ends normally is renamed
    onto a target that can take it; the target holds the chunks once the
    file is closed. *)
Lemma download_complete (self : CacheSave S) (src dst : string) (w : World S)
    (s2 s3 : S) (chunks : list bytes) :
  reliable_disk ->
  is_directory (fs w) (local_cache_directory config) = true ->
  path_exists (s_container self) src (container_state w) = (true, s2) ->
  get_archive (s_container self) src s2 = ((chunks, None), s3) ->
  writable (fs w) dst ->
  let tmp := download_tmp config self src w in
  ∃ wevs pending,
    CacheSave__download config self src dst w =
      (Ok tt, {| container_state := s3;
                 fs := <[dst := File (concat chunks)]> (fs w);
                 trace := trace w ++ download_start self src tmp ++ wevs ++
                   moving tmp dst :: Rename tmp dst :: flush_events dst pending ++
                   [Log INFO "Cache '%s': Downloaded %s in %.3fs"
                      [AStr (s_cache_name self); ASize (length (concat chunks));
                       AElapsed]] |})
    ∧ Forall (fun ev => writes_to tmp ev = true) wevs.
Proof.
  intros Hok Hdir Hp Hg Hw tmp.
  destruct (download_found self src dst w s2 s3 _ Hdir Hp Hg)
    as (outcome & c & wevs & Hrun & Hwevs & Hrel).
  destruct (Hrel Hok) as (pending & Heq & ->). cbn [snd fst] in *. fold tmp in Hrun.
  exists wevs, pending. split; [|done]. rewrite Hrun. unfold bind at 1.
  rewrite (move_and_close_run tmp dst pending c) by (done || apply lookup_insert_eq).
  cbn [fs trace container_state].
  assert (Hfresh : fs w !! tmp = None) by apply mktemp_fresh.
  destruct (writable_insert (fs w) tmp dst c Hfresh Hw) as [Hd ->].
  rewrite delete_insert_eq, delete_id, Heq by done.
  destruct (<[tmp := File c]> (fs w) !! dst) as [[cd|]|]; try done;
    unfold_m; cbn [fs trace container_state]; rewrite <- !app_assoc; reflexivity.
Qed.

(** On a disk that takes every write, a target that is a directory makes the
    rename raise; the temporary file stays, complete once it is closed. *)
Lemma download_onto_directory (self : CacheSave S) (src dst : string) (w : World S)
    (s2 s3 : S) (chunks : list bytes) :
  reliable_disk ->
  is_directory (fs w) (local_cache_directory config) = true ->
  path_exists (s_container self) src (container_state w) = (true, s2) ->
  get_archive (s_container self) src s2 = ((chunks, None), s3) ->
  fs w !! dst = Some Dir ->
  let tmp := download_tmp config self src w in
  ∃ wevs pending,
    CacheSave__download config self src dst w =
      (Raise (IsADirectoryError dst),
       {| container_state := s3;
          fs := <[tmp := File (concat chunks)]> (fs w);
          trace := trace w ++ download_start self src tmp ++ wevs ++
            moving tmp dst :: flush_events tmp pending |})
    ∧ Forall (fun ev => writes_to tmp ev = true) wevs.
Proof.
  intros Hok Hdir Hp Hg Hd tmp.
  assert (Hfresh : fs w !! tmp = None) by apply mktemp_fresh.
  assert (Hne : tmp ≠ dst) by congruence.
  destruct (download_found self src dst w s2 s3 _ Hdir Hp Hg)
    as (outcome & c & wevs & Hrun & Hwevs & Hrel).
  destruct (Hrel Hok) as (pending & Heq & ->). cbn [snd fst] in *. fold tmp in Hrun.
  exists wevs, pending. split; [|done]. rewrite Hrun. unfold bind at 1.
  rewrite (move_and_close_run tmp dst pending c) by (done || apply lookup_insert_eq).
  cbn [fs trace container_state]. rewrite lookup_insert_ne, Hd by done.
  by rewrite insert_insert_eq, Heq, <- !app_assoc.
Qed.

(** Whatever the platform does, a [_download] that returns has changed no
    path but the target. *)
Lemma download_frame (self : CacheSave S) (src dst : string) (w w' : World S) :
  download_tmp config self src w ≠ dst ->
  CacheSave__download config self src dst w = (Ok tt, w') ->
  forall p : string, p ≠ dst -> fs w' !! p = fs w !! p.
Proof.
  intros Hne Hrun p Hp.
  destruct (path_exists (s_container self) src (container_state w)) as [[|] s2] eqn:Hpe.
  2:{ rewrite (download_not_found self src dst w s2 Hpe) in Hrun. by injection Hrun as <-. }
  destruct (is_directory (fs w) (local_cache_directory config)) eqn:Hdir.
  2:{ destruct (download_no_directory self src dst w s2 Hdir Hpe) as [e He].
      by rewrite He in Hrun. }
  destruct (get_archive (s_container self) src s2) as [data s3] eqn:Hg.
  destruct (download_found self src dst w s2 s3 data Hdir Hpe Hg)
    as (outcome & c & wevs & Heq & _ & _).
  set (tmp := download_tmp config self src w) in *.
  assert (Hfresh : fs w !! tmp = None) by apply mktemp_fresh.
  rewrite Heq in Hrun. destruct outcome as [[size pending]|e].
  - unfold bind at 1 in Hrun.
    destruct (move_and_close tmp dst pending _) as [[[]|e] w3] eqn:Hmove; [|done].
    apply (move_and_close_frame tmp dst pending c) in Hmove as [_ [c' Hfs]];
      [|apply lookup_insert_eq].
    cbn [fs] in Hfs. unfold_m. injection Hrun as <-. cbn [fs].
    rewrite Hfs, delete_insert_eq, delete_id by done. by rewrite lookup_insert_ne.
  - rewrite (unlink_and_close tmp _ c) in Hrun by apply lookup_insert_eq.
    cbn [fs trace container_state] in Hrun.
    injection Hrun as _ <-. cbn [fs]. by rewrite delete_insert_eq, delete_id.
Qed.

End Download.

Section Phases.

Context {S : Type}.
Context (config : Config) {los : LocalOS}.

(** *** [_prepare] *)

Lemma archive_path_suffix (cache_name : string) :
  PyStr.endswith ".tar" (get_local_cache_archive_path config cache_name) = true.
Proof.
  unfold get_local_cache_archive_path.
  apply endswith_path_join, endswith_app_l, endswith_refl.
Qed.

Lemma mktemp_not_archive (t : list event) (dir : string) (m : gmap string node)
    (cache_name : string) :
  mktemp t dir m ≠ get_local_cache_archive_path config cache_name.
Proof.
  intros Heq. pose proof (mktemp_no_suffix t dir m) as Hn.
  rewrite Heq, archive_path_suffix in Hn. discriminate.
Qed.

Lemma prepare_ok (self : CacheSave S) (w : World S) (cache : Cache) (out : string) (s1 : S) :
  let cmd := prepare_cache_cmd (sanitize_remote_path (path cache))
               (get_remote_temp_directory config (s_cache_name self)) in
  s_cache_definitions self !! s_cache_name self = Some cache ->
  run_command (s_container self) cmd (container_state w) = ((0%Z, out), s1) ->
  CacheSave__prepare config self w =
    (Ok (get_remote_temp_directory config (s_cache_name self)),
     {| container_state := s1; fs := fs w;
        trace := trace w ++
          [Log INFO "Cache '%s': Preparing" [AStr (s_cache_name self)];
           RunCommand cmd;
           Log INFO "Cache '%s': Prepared in %.3fs" [AStr (s_cache_name self); AElapsed]] |}).
Proof.
  intros cmd Hd Hr. unfold CacheSave__prepare. unfold_m. rewrite Hd. simpl.
  fold cmd. rewrite Hr. simpl. by rewrite <- !app_assoc.
Qed.

(** Decoding the output of a failed command and raising the [Exception]
    built from it. *)
Lemma decode_and_raise {A : Type} (message : string -> string) (out : string) (w : World S) :
  (let* decoded := bytes_decode out in raise (A:=A) (Exception (message decoded))) w
  = (Raise (command_error message out), w).
Proof.
  unfold bytes_decode, command_error. unfold_m.
  by destruct (PyStr.decode_error 0 out) as [[[start stop] reason]|].
Qed.

Lemma command_error_decoded (message : string -> string) (out : string) :
  PyStr.decode_error 0 out = None -> command_error message out = Exception (message out).
Proof. unfold command_error. by intros ->. Qed.

Lemma command_error_undecoded (message : string -> string) (out : string) :
  PyStr.decode_error 0 out ≠ None ->
  ∃ start stop reason, command_error message out = UnicodeDecodeError "utf-8" out start stop reason.
Proof.
  unfold command_error. destruct (PyStr.decode_error 0 out) as [[[start stop] reason]|];
    [eauto|done].
Qed.


Lemma prepare_undefined (self : CacheSave S) (w : World S) :
  s_cache_definitions self !! s_cache_name self = None ->
  CacheSave__prepare config self w = (Raise (KeyError (s_cache_name self)), w).
Proof. intros Hd. unfold CacheSave__prepare. unfold_m. by rewrite Hd. Qed.

(** [_prepare] leaves the local file system alone. *)
Lemma prepare_frame (self : CacheSave S) (w w1 : World S) (r : result string) :
  CacheSave__prepare config self w = (r, w1) ->
  fs w1 = fs w ∧
  ∃ evs, trace w1 = trace w ++ evs ∧ Forall (fun ev => is_local_write ev = false) evs.
Proof.
  unfold CacheSave__prepare, bytes_decode. unfold_m.
  destruct (s_cache_definitions self !! s_cache_name self) as [cache|]; simpl.
  - destruct (run_command _ _ _) as [[code out] s1]. simpl.
    destruct (negb (code =? 0)%Z); simpl;
      [destruct (PyStr.decode_error 0 out) as [[[start stop] reason]|]|];
      intros [= <- <-]; simpl;
      (split; [done|]); rewrite <- ?app_assoc; eexists; (split; [reflexivity|]);
      repeat constructor.
  - intros [= <- <-]. split; [done|]. exists []. by rewrite app_nil_r.
Qed.

(** *** The phases of the generic restore *)

Lemma upload_ok (self : CacheRestore S) (f : string) (w : World S) (c0 : bytes)
    (out : string) (s1 s2 : S) :
  fs w !! f = Some (File c0) ->
  run_command (r_container self) (upload_cmd config (r_cache_name self)) (container_state w)
    = ((0%Z, out), s1) ->
  put_archive (r_container self) (upload_dir config (r_cache_name self)) c0 s1 = (true, s2) ->
  CacheRestore__upload_cache config self f w =
    (Ok tt, {| container_state := s2; fs := fs w;
               trace := trace w ++
                 [Log INFO "Cache '%s': Uploading" [AStr (r_cache_name self)];
                  RunCommand (upload_cmd config (r_cache_name self));
                  PutArchive (upload_dir config (r_cache_name self)) c0;
                  Log INFO "Cache '%s': Uploaded %s in %.3fs"
                    [AStr (r_cache_name self); ASize (length c0); AElapsed]] |}).
Proof.
  intros Hf Hr Hp. unfold CacheRestore__upload_cache, os_path_getsize, open_rb.
  unfold_m. rewrite Hf. simpl. fold (upload_cmd config (r_cache_name self)).
  rewrite Hr. simpl. rewrite Hf. simpl. fold (upload_dir config (r_cache_name self)).
  rewrite Hp. simpl. by rewrite <- !app_assoc.
Qed.

Lemma upload_command_failed (self : CacheRestore S) (f : string) (w : World S) (c0 : bytes)
    (code : Z) (out : string) (s1 : S) :
  fs w !! f = Some (File c0) ->
  run_command (r_container self) (upload_cmd config (r_cache_name self)) (container_state w)
    = ((code, out), s1) ->
  code ≠ 0%Z ->
  CacheRestore__upload_cache config self f w =
    match PyStr.decode_error 0 out with
    | None =>
        (Raise (Exception ("Error uploading cache: " +:+ r_cache_name self)),
         {| container_state := s1; fs := fs w;
            trace := trace w ++
              [Log INFO "Cache '%s': Uploading" [AStr (r_cache_name self)];
               RunCommand (upload_cmd config (r_cache_name self));
               Log ERROR "Remote command failed: %s" [AStr out]] |})
    | Some (start, stop, reason) =>
        (Raise (UnicodeDecodeError "utf-8" out start stop reason),
         {| container_state := s1; fs := fs w;
            trace := trace w ++
              [Log INFO "Cache '%s': Uploading" [AStr (r_cache_name self)];
               RunCommand (upload_cmd config (r_cache_name self))] |})
    end.
Proof.
  intros Hf Hr Hc. unfold CacheRestore__upload_cache, os_path_getsize, open_rb, bytes_decode.
  unfold_m. rewrite Hf. simpl. fold (upload_cmd config (r_cache_name self)).
  rewrite Hr. simpl. destruct (Z.eqb_spec code 0) as [->|_]; [done|]. simpl.
  destruct (PyStr.decode_error 0 out) as [[[start stop] reason]|]; simpl;
    by rewrite <- !app_assoc.
Qed.

Lemma upload_put_failed (self : CacheRestore S) (f : string) (w : World S) (c0 : bytes)
    (out : string) (s1 s2 : S) :
  fs w !! f = Some (File c0) ->
  run_command (r_container self) (upload_cmd config (r_cache_name self)) (container_state w)
    = ((0%Z, out), s1) ->
  put_archive (r_container self) (upload_dir config (r_cache_name self)) c0 s1 = (false, s2) ->
  CacheRestore__upload_cache config self f w =
    (Raise (Exception ("Error uploading cache: " +:+ r_cache_name self)),
     {| container_state := s2; fs := fs w;
        trace := trace w ++
          [Log INFO "Cache '%s': Uploading" [AStr (r_cache_name self)];
           RunCommand (upload_cmd config (r_cache_name self));
           PutArchive (upload_dir config (r_cache_name self)) c0] |}).
Proof.
  intros Hf Hr Hp. unfold CacheRestore__upload_cache, os_path_getsize, open_rb.
  unfold_m. rewrite Hf. simpl. fold (upload_cmd config (r_cache_name self)).
  rewrite Hr. simpl. rewrite Hf. simpl. fold (upload_dir config (r_cache_name self)).
  rewrite Hp. simpl. by rewrite <- !app_assoc.
Qed.

(** [restore] reaches its two phases exactly when the local archive exists. *)
Lemma restore_with_archive (self : CacheRestore S) (w : World S) (n : node) :
  fs w !! get_local_cache_archive_path config (r_cache_name self) = Some n ->
  CacheRestore_restore config self w =
    (CacheRestore__upload_cache config self
       (get_local_cache_archive_path config (r_cache_name self)) ;;;
     CacheRestore__restore_cache config self) w.
Proof.
  intros Hf. unfold CacheRestore_restore, CacheRestore__get_local_cache_file, os_path_exists.
  unfold bind at 1 2. rewrite Hf. simpl.
  destruct (get_local_cache_archive_path config (r_cache_name self)) eqn:E; [|done].
  pose proof (archive_path_suffix (r_cache_name self)) as Hs. rewrite E in Hs.
  discriminate.
Qed.

Lemma restore_cache_failed (self : CacheRestore S) (w : World S) (cache : Cache)
    (code : Z) (out : string) (s1 : S) :
  r_cache_definitions self !! r_cache_name self = Some cache ->
  run_command (r_container self) (restore_cmd config cache (r_cache_name self)) (container_state w)
    = ((code, out), s1) ->
  code ≠ 0%Z ->
  CacheRestore__restore_cache config self w =
    (Raise (command_error
              (fun decoded => "Error restoring cache: " +:+ r_cache_name self +:+ ": "
                                +:+ decoded) out),
     {| container_state := s1; fs := fs w;
        trace := trace w ++
          [Log INFO "Cache '%s': Restoring" [AStr (r_cache_name self)];
           RunCommand (restore_cmd config cache (r_cache_name self))] |}).
Proof.
  intros Hd Hr Hc. unfold CacheRestore__restore_cache.
  unfold bind at 1, dict_getitem. rewrite Hd. unfold ret.
  unfold bind at 1, logger_info, emit. unfold bind at 1, container_run_command, call.
  cbn [fs trace container_state]. unfold restore_cmd in Hr. rewrite Hr.
  destruct (Z.eqb_spec code 0) as [->|_]; [done|]. cbn [negb].
  rewrite (decode_and_raise
             (fun decoded => "Error restoring cache: " +:+ r_cache_name self +:+ ": "
                               +:+ decoded)).
  unfold restore_cmd. by rewrite <- !app_assoc.
Qed.

Lemma restore_cache_undefined (self : CacheRestore S) (w : World S) :
  r_cache_definitions self !! r_cache_name self = None ->
  CacheRestore__restore_cache config self w = (Raise (KeyError (r_cache_name self)), w).
Proof. intros Hd. unfold CacheRestore__restore_cache. unfold_m. by rewrite Hd. Qed.

(** C4. Generic restore of a cache whose local archive
    [<local cache directory>/<name>.tar] does not exist returns normally,
    records the single log line "Not found: Skipping", and performs no call
    on the container: the container state, the local files and the rest of
    the trace are as before. *)
Theorem restore_without_local_archive (self : CacheRestore S) (w : World S) :
  fs w !! get_local_cache_archive_path config (r_cache_name self) = None ->
  let evs := [Log INFO "Cache '%s': Not found: Skipping" [AStr (r_cache_name self)]] in
  CacheRestore_restore config self w =
    (Ok tt, {| container_state := container_state w; fs := fs w; trace := trace w ++ evs |})
  ∧ Forall (fun ev => is_remote_call ev = false) evs.
Proof.
  intros Hf evs. split; [|by repeat constructor].
  unfold CacheRestore_restore, CacheRestore__get_local_cache_file, os_path_exists.
  unfold_m. by rewrite Hf.
Qed.

(** C5. Generic save of a cache whose definition exists, whose remote
    rename-to-staging command exits with 0 and whose staging path is then
    absent from the container returns normally after the "Not found" log
    line: the local file system is unchanged and no event of the run is a
    local write (no temporary file is created, the archive path is not
    touched). *)
Theorem save_nothing_staged (self : CacheSave S) (w : World S) (cache : Cache)
    (out : string) (s1 s2 : S) :
  let staging := get_remote_temp_directory config (s_cache_name self) in
  let cmd := prepare_cache_cmd (sanitize_remote_path (path cache)) staging in
  s_cache_definitions self !! s_cache_name self = Some cache ->
  run_command (s_container self) cmd (container_state w) = ((0%Z, out), s1) ->
  path_exists (s_container self) staging s1 = (false, s2) ->
  let evs :=
    [Log INFO "Cache '%s': Preparing" [AStr (s_cache_name self)];
     RunCommand cmd;
     Log INFO "Cache '%s': Prepared in %.3fs" [AStr (s_cache_name self); AElapsed];
     PathExists staging;
     Log INFO "Cache '%s': Not found" [AStr (s_cache_name self)]] in
  CacheSave_save config self w =
    (Ok tt, {| container_state := s2; fs := fs w; trace := trace w ++ evs |})
  ∧ Forall (fun ev => is_local_write ev = false) evs.
Proof.
  intros staging cmd Hd Hr Hp evs. split; [|by repeat constructor].
  unfold CacheSave_save. unfold bind at 1.
  rewrite (prepare_ok self w cache out s1 Hd Hr).
  erewrite download_not_found by exact Hp. simpl. by rewrite <- !app_assoc.
Qed.

(** C6, as the code has it. With the local archive in place, a non-zero
    exit code of either remote command makes [restore] raise, which is fatal
    for the name. Staging-directory command of the upload phase: the
    captured output is decoded and written to the error log ("Remote command
    failed: %s"), and the raised [Exception("Error uploading cache: <name>")]
    names the cache only. Placement command of the restore phase: the raised
    [Exception] has the decoded output at the end of its message. In both
    phases an output that is not well-formed UTF-8 makes [output.decode()]
    raise [UnicodeDecodeError] instead, before anything is logged or built. *)
Theorem restore_remote_command_failures (self : CacheRestore S) (w : World S) (c0 : bytes) :
  let cache_name := r_cache_name self in
  let archive := get_local_cache_archive_path config cache_name in
  fs w !! archive = Some (File c0) ->
  (forall (code : Z) (out : string) (s1 : S),
      run_command (r_container self) (upload_cmd config cache_name) (container_state w)
        = ((code, out), s1) ->
      code ≠ 0%Z ->
      CacheRestore_restore config self w =
        match PyStr.decode_error 0 out with
        | None =>
            (Raise (Exception ("Error uploading cache: " +:+ cache_name)),
             {| container_state := s1; fs := fs w;
                trace := trace w ++
                  [Log INFO "Cache '%s': Uploading" [AStr cache_name];
                   RunCommand (upload_cmd config cache_name);
                   Log ERROR "Remote command failed: %s" [AStr out]] |})
        | Some (start, stop, reason) =>
            (Raise (UnicodeDecodeError "utf-8" out start stop reason),
             {| container_state := s1; fs := fs w;
                trace := trace w ++
                  [Log INFO "Cache '%s': Uploading" [AStr cache_name];
                   RunCommand (upload_cmd config cache_name)] |})
        end)
  ∧ (forall (w1 : World S) (cache : Cache) (code : Z) (out : string) (s2 : S),
        CacheRestore__upload_cache config self archive w = (Ok tt, w1) ->
        r_cache_definitions self !! cache_name = Some cache ->
        run_command (r_container self) (restore_cmd config cache cache_name) (container_state w1)
          = ((code, out), s2) ->
        code ≠ 0%Z ->
        let msg := "Error restoring cache: " +:+ cache_name +:+ ": " +:+ out in
        CacheRestore_restore config self w =
          (Raise match PyStr.decode_error 0 out with
                 | None => Exception msg
                 | Some (start, stop, reason) =>
                     UnicodeDecodeError "utf-8" out start stop reason
                 end,
           {| container_state := s2; fs := fs w1;
              trace := trace w1 ++
                [Log INFO "Cache '%s': Restoring" [AStr cache_name];
                 RunCommand (restore_cmd config cache cache_name)] |})
        ∧ PyStr.contains out msg = true).
Proof.
  intros cache_name archive Hf. split.
  - intros code out s1 Hrun Hcode.
    rewrite (restore_with_archive self w _ Hf). unfold bind at 1.
    fold cache_name. fold archive.
    rewrite (upload_command_failed self archive w c0 code out s1 Hf Hrun Hcode).
    by destruct (PyStr.decode_error 0 out) as [[[start stop] reason]|].
  - intros w1 cache code out s2 Hup Hd Hrun Hcode msg. split.
    + rewrite (restore_with_archive self w _ Hf). unfold bind at 1.
      fold cache_name archive. rewrite Hup.
      by rewrite (restore_cache_failed self w1 cache code out s2 Hd Hrun Hcode).
    + subst msg. rewrite <- !append_assoc. apply contains_app_l, contains_refl.
Qed.

(** *** The manager's loops *)

Lemma for_each_stops {A : Type} (body : A -> M S unit) (pre : list A) (x : A)
    (post : list A) :
  forall (w w1 w2 : World S) (e : exn),
    for_each body pre w = (Ok tt, w1) ->
    body x w1 = (Raise e, w2) ->
    for_each body (pre ++ x :: post) w = (Raise e, w2).
Proof.
  induction pre as [|y pre IH]; intros w w1 w2 e Hpre Hx; simpl in *.
  - injection Hpre as <-. unfold bind. by rewrite Hx.
  - unfold bind in *. destruct (body y w) as [[[]|e'] w'] eqn:Hy; [|done].
    by apply (IH w' w1 w2 e).
Qed.


End Phases.

(** ** The factories, the manager and the docker image cache *)

Section ManagerProperties.

Context {S : Type}.
Context (config : Config) {los : LocalOS} (client : DockerClient).
Context (slugify : string -> string).

Lemma factory_restore_generic (container : ContainerRunner S) (defs : gmap string Cache)
    (cache_name : string) :
  cache_name ≠ "docker" ->
  restore config (CacheRestoreFactory_get container cache_name defs) =
  CacheRestore_restore config (CacheRestoreFactory_get container cache_name defs)
  ∧ r_class (CacheRestoreFactory_get container cache_name defs) = CacheRestore_class.
Proof.
  intros Hne%String.eqb_neq. unfold restore, CacheRestoreFactory_get. simpl.
  by rewrite Hne.
Qed.

Lemma factory_save_generic (container : ContainerRunner S) (defs : gmap string Cache)
    (cache_name : string) :
  cache_name ≠ "docker" ->
  save config client slugify (CacheSaveFactory_get container cache_name defs) =
  CacheSave_save config (CacheSaveFactory_get container cache_name defs)
  ∧ s_class (CacheSaveFactory_get container cache_name defs) = CacheSave_class.
Proof.
  intros Hne%String.eqb_neq. unfold save, CacheSaveFactory_get. simpl.
  by rewrite Hne.
Qed.

(** C10. For a cache name other than "docker" that [Definitions.caches]
    does not define: the save strategy the factory selects raises
    [KeyError] at once, in an unchanged world (no log line, no remote
    command); the restore strategy, when the local archive exists and its
    upload succeeds, raises [KeyError] after the four events of the upload
    phase, [put_archive] included; a [KeyError] out of that restore is always
    preceded by the [put_archive] call of the run; and the error is not the
    plain [Exception] that failed transfers raise. *)
Theorem undefined_cache_raises_key_error (container : ContainerRunner S)
    (defs : gmap string Cache) (cache_name : string) :
  cache_name ≠ "docker" ->
  defs !! cache_name = None ->
  let archive := get_local_cache_archive_path config cache_name in
  (forall w : World S,
      save config client slugify (CacheSaveFactory_get container cache_name defs) w
      = (Raise (KeyError cache_name), w))
  ∧ (forall (w : World S) (c0 : bytes) (out : string) (s1 s2 : S),
        fs w !! archive = Some (File c0) ->
        run_command container (upload_cmd config cache_name) (container_state w)
          = ((0%Z, out), s1) ->
        put_archive container (upload_dir config cache_name) c0 s1 = (true, s2) ->
        restore config (CacheRestoreFactory_get container cache_name defs) w
        = (Raise (KeyError cache_name),
           {| container_state := s2; fs := fs w;
              trace := trace w ++
                [Log INFO "Cache '%s': Uploading" [AStr cache_name];
                 RunCommand (upload_cmd config cache_name);
                 PutArchive (upload_dir config cache_name) c0;
                 Log INFO "Cache '%s': Uploaded %s in %.3fs"
                   [AStr cache_name; ASize (length c0); AElapsed]] |}))
  ∧ (forall (w w' : World S) (c0 : bytes) (k : string),
        fs w !! archive = Some (File c0) ->
        restore config (CacheRestoreFactory_get container cache_name defs) w
        = (Raise (KeyError k), w') ->
        k = cache_name
        ∧ ∃ evs, trace w' = trace w ++ evs
                 ∧ PutArchive (upload_dir config cache_name) c0 ∈ evs)
  ∧ (forall msg : string, KeyError cache_name ≠ Exception msg).
Proof.
  intros Hne Hd archive.
  destruct (factory_restore_generic container defs cache_name Hne) as [Hr _].
  destruct (factory_save_generic container defs cache_name Hne) as [Hs _].
  set (cu := CacheRestoreFactory_get container cache_name defs) in *.
  split; [|split; [|split]].
  - intros w. rewrite Hs. unfold CacheSave_save. unfold bind at 1.
    rewrite prepare_undefined; done.
  - intros w c0 out s1 s2 Hf Hrun Hput. rewrite Hr.
    rewrite (restore_with_archive config cu w _ Hf). unfold bind at 1.
    change (r_cache_name cu) with cache_name. fold archive.
    rewrite (upload_ok config cu archive w c0 out s1 s2 Hf Hrun Hput).
    by rewrite restore_cache_undefined.
  - intros w w' c0 k Hf. rewrite Hr, (restore_with_archive config cu w _ Hf). unfold bind at 1.
    change (r_cache_name cu) with cache_name. fold archive.
    destruct (run_command container (upload_cmd config cache_name) (container_state w))
      as [[code out] s1] eqn:Hrun.
    destruct (Z.eq_dec code 0%Z) as [->|Hcode].
    2:{ rewrite (upload_command_failed config cu archive w c0 code out s1 Hf Hrun Hcode).
        by destruct (PyStr.decode_error 0 out) as [[[start stop] reason]|]. }
    destruct (put_archive container (upload_dir config cache_name) c0 s1) as [[|] s2] eqn:Hput.
    2:{ by rewrite (upload_put_failed config cu archive w c0 out s1 s2 Hf Hrun Hput). }
    rewrite (upload_ok config cu archive w c0 out s1 s2 Hf Hrun Hput).
    rewrite restore_cache_undefined by done. intros [= <- <-]. split; [done|].
    eexists. split; [reflexivity|]. set_solver.
  - discriminate.
Qed.

(** C2. The two factories choose the class from the cache name alone:
    "docker" gives the no-op class and every other name the generic class,
    whatever the container and the definitions; neither factory ever gives
    the docker class. The no-op strategy records the "Ignoring" log line and
    nothing else (no call on the container, no change of the local files).
    The manager's [_ignored_caches] set plays no part: [upload] and
    [download] behave the same for every value of it. *)
Theorem strategy_resolution (container : ContainerRunner S) (defs : gmap string Cache)
    (cache_name : string) :
  r_class (CacheRestoreFactory_get container cache_name defs)
    = (if decide (cache_name = "docker") then NullCacheRestore_class else CacheRestore_class)
  ∧ s_class (CacheSaveFactory_get container cache_name defs)
    = (if decide (cache_name = "docker") then NullCacheSave_class else CacheSave_class)
  ∧ r_class (CacheRestoreFactory_get container cache_name defs) ≠ DockerCacheRestore_class
  ∧ s_class (CacheSaveFactory_get container cache_name defs) ≠ DockerCacheSave_class
  ∧ (forall (container' : ContainerRunner S) (defs' : gmap string Cache),
        r_class (CacheRestoreFactory_get container' cache_name defs')
          = r_class (CacheRestoreFactory_get container cache_name defs)
        ∧ s_class (CacheSaveFactory_get container' cache_name defs')
          = s_class (CacheSaveFactory_get container cache_name defs))
  ∧ (forall w : World S,
        restore config (CacheRestoreFactory_get container "docker" defs) w
        = (Ok tt, {| container_state := container_state w; fs := fs w;
                     trace := trace w ++ [Log INFO "Cache '%s': Ignoring" [AStr "docker"]] |}))
  ∧ (forall w : World S,
        save config client slugify (CacheSaveFactory_get container "docker" defs) w
        = (Ok tt, {| container_state := container_state w; fs := fs w;
                     trace := trace w ++ [Log INFO "Cache '%s': Ignoring" [AStr "docker"]] |}))
  ∧ (forall (ignored : gset string) (names : list string) (w : World S),
        let mgr := {| m_container := container; m_cache_definitions := defs;
                      m_ignored_caches := ignored |} in
        CacheManager_upload config mgr names w
          = CacheManager_upload config (CacheManager_init container defs) names w
        ∧ CacheManager_download config client slugify mgr names w
          = CacheManager_download config client slugify (CacheManager_init container defs)
              names w).
Proof.
  unfold CacheRestoreFactory_get, CacheSaveFactory_get. cbn [r_class s_class].
  destruct (String.eqb_spec cache_name "docker") as [->|Hne];
    destruct (decide _) as [Hd|Hd]; try congruence; repeat split; done.
Qed.


(** *** The docker image cache *)

(** [_save_image] creates the temporary file and runs the [try] suite, which
    changes that file only; what follows is the [except] suite or the
    [else] suite, each with the close of the file. *)
Lemma save_image_found (img : Image) (dst : string) (w : World S) :
  is_directory (fs w) (local_cache_directory config) = true ->
  let tmp := mktemp (trace w) (local_cache_directory config) (fs w) in
  ∃ (outcome : (nat * bytes) + exn) (c : bytes) (wevs : list event),
    let w2 := {| container_state := container_state w; fs := <[tmp := File c]> (fs w);
                 trace := trace w ++ save_image_start img tmp ++ wevs |} in
    DockerCacheSave__save_image config img dst w =
      match outcome with
      | inr e =>
          finally
            (logger_error ("Error saving image: " +:+ image_repr img +:+ ": "
                             +:+ exn_str e) [] ;;;
             os_unlink tmp)
            (f_close None) w2
      | inl (_, pending) => move_and_close tmp dst pending w2
      end
    ∧ Forall (fun ev => writes_to tmp ev = true) wevs
    ∧ (reliable_disk ->
       ∃ pending, c ++ pending = concat (fst (image_save img))
                  ∧ outcome = match snd (image_save img) with
                              | None => inl (length (concat (fst (image_save img))), pending)
                              | Some e => inr e
                              end).
Proof.
  intros Hdir tmp.
  unfold DockerCacheSave__save_image, DockerCacheSave__save_image_try, NamedTemporaryFile.
  unfold_m. cbn [fs trace container_state]. fold tmp.
  rewrite (directory_error_present _ _ _ Hdir). cbn [fs trace container_state].
  edestruct (write_stream_run tmp (image_save img) []
               {| container_state := container_state w; fs := <[tmp := File []]> (fs w);
                  trace := ((trace w ++ [TmpCreate tmp])
                              ++ [Log DEBUG ("Saving docker image '" +:+ image_repr img
                                               +:+ "' to '" +:+ tmp +:+ "'") []])
                             ++ [ImageSave (short_id img)] |})
    as (r & c & wevs & Hrun & Hwevs & Hrel); [apply lookup_insert_eq|].
  rewrite Hrun. cbn [fs trace container_state]. rewrite insert_insert_eq.
  exists (match r with Ok a => inl a | Raise e => inr e end), c, wevs.
  unfold save_image_start. rewrite <- !app_assoc. cbn [app].
  split; [by destruct r as [[size pending]|e]|]. split; [done|].
  intros Hok. destruct (Hrel Hok) as (pending & Heq & ->). exists pending.
  split; [done|]. by destruct (snd (image_save img)).
Qed.

(** One export on a disk that takes every write, to a target that can take
    the file. *)
Lemma save_image_run (img : Image) (dst : string) (w : World S) :
  reliable_disk ->
  is_directory (fs w) (local_cache_directory config) = true ->
  writable (fs w) dst ->
  let tmp := mktemp (trace w) (local_cache_directory config) (fs w) in
  ∃ wevs pending,
    DockerCacheSave__save_image config img dst w =
      (Ok tt, {| container_state := container_state w;
                 fs := export_fs img dst (fs w);
                 trace := trace w ++ save_image_start img tmp ++ wevs ++
                   match snd (image_save img) with
                   | Some e =>
                       [Log ERROR ("Error saving image: " +:+ image_repr img +:+ ": "
                                     +:+ exn_str e) [];
                        Unlink tmp]
                   | None => moving tmp dst :: Rename tmp dst :: flush_events dst pending
                   end |})
    ∧ Forall (fun ev => writes_to tmp ev = true) wevs.
Proof.
  intros Hok Hdir Hw tmp.
  assert (Hfresh : fs w !! tmp = None) by apply mktemp_fresh.
  destruct (save_image_found img dst w Hdir) as (outcome & c & wevs & Hrun & Hwevs & Hrel).
  destruct (Hrel Hok) as (pending & Heq & ->). fold tmp in Hrun.
  exists wevs, pending. split; [|done]. rewrite Hrun. unfold export_fs.
  destruct (snd (image_save img)) as [e|].
  - rewrite (unlink_and_close tmp _ c) by apply lookup_insert_eq.
    cbn [fs trace container_state]. rewrite Hok.
    rewrite delete_insert_eq, delete_id by done. by rewrite <- !app_assoc.
  - rewrite (move_and_close_run tmp dst pending c) by (done || apply lookup_insert_eq).
    cbn [fs trace container_state].
    destruct (writable_insert (fs w) tmp dst c Hfresh Hw) as [Hd ->].
    rewrite delete_insert_eq, delete_id, Heq by done.
    destruct (<[tmp := File c]> (fs w) !! dst) as [[cd|]|]; try done;
      by rewrite <- !app_assoc.
Qed.

(** One export on a disk that takes every write, to a target that is a
    directory. *)
Lemma save_image_onto_directory (img : Image) (dst : string) (w : World S) :
  reliable_disk ->
  is_directory (fs w) (local_cache_directory config) = true ->
  fs w !! dst = Some Dir ->
  let tmp := mktemp (trace w) (local_cache_directory config) (fs w) in
  ∃ wevs pending,
    DockerCacheSave__save_image config img dst w =
      match snd (image_save img) with
      | Some e =>
          (Ok tt, {| container_state := container_state w; fs := fs w;
                     trace := trace w ++ save_image_start img tmp ++ wevs ++
                       [Log ERROR ("Error saving image: " +:+ image_repr img +:+ ": "
                                     +:+ exn_str e) [];
                        Unlink tmp] |})
      | None =>
          (Raise (IsADirectoryError dst),
           {| container_state := container_state w;
              fs := <[tmp := File (concat (fst (image_save img)))]> (fs w);
              trace := trace w ++ save_image_start img tmp ++ wevs ++
                moving tmp dst :: flush_events tmp pending |})
      end
    ∧ Forall (fun ev => writes_to tmp ev = true) wevs.
Proof.
  intros Hok Hdir Hd tmp.
  assert (Hfresh : fs w !! tmp = None) by apply mktemp_fresh.
  assert (Hne : tmp ≠ dst) by congruence.
  destruct (save_image_found img dst w Hdir) as (outcome & c & wevs & Hrun & Hwevs & Hrel).
  destruct (Hrel Hok) as (pending & Heq & ->). fold tmp in Hrun.
  exists wevs, pending. split; [|done]. rewrite Hrun.
  destruct (snd (image_save img)) as [e|].
  - rewrite (unlink_and_close tmp _ c) by apply lookup_insert_eq.
    cbn [fs trace container_state]. rewrite Hok.
    rewrite delete_insert_eq, delete_id by done. by rewrite <- !app_assoc.
  - rewrite (move_and_close_run tmp dst pending c) by (done || apply lookup_insert_eq).
    cbn [fs trace container_state]. rewrite lookup_insert_ne, Hd by done.
    by rewrite insert_insert_eq, Heq, <- !app_assoc.
Qed.

Lemma export_fs_not_dir (img : Image) (dst p : string) (m : gmap string node) :
  m !! p ≠ Some Dir -> export_fs img dst m !! p ≠ Some Dir.
Proof.
  intros Hp. unfold export_fs. destruct (snd (image_save img)); [done|].
  destruct (decide (dst = p)) as [->|Hne].
  - by rewrite lookup_insert_eq.
  - by rewrite lookup_insert_ne.
Qed.

(** An export leaves every other writable target writable. *)
Lemma export_fs_writable (img : Image) (dst p : string) (m : gmap string node) :
  writable m dst -> writable m p -> writable (export_fs img dst m) p.
Proof.
  intros [Hd _] [Hp Hpar]. split; [by apply export_fs_not_dir|].
  unfold export_fs. destruct (snd (image_save img)); [done|].
  apply directory_error_present, is_directory_insert; [by left|].
  by apply parent_error_present.
Qed.

(** An export leaves the directories in place. *)
Lemma export_fs_is_directory (img : Image) (dst d : string) (m : gmap string node) :
  writable m dst -> is_directory m d = true -> is_directory (export_fs img dst m) d = true.
Proof.
  intros [Hd _] Hdir. unfold export_fs. destruct (snd (image_save img)); [done|].
  apply is_directory_insert; [by left|done].
Qed.

Lemma with_docker_dir_is_directory (d : string) (m : gmap string node) :
  is_directory m d = true -> is_directory (with_docker_dir config m) d = true.
Proof.
  intros Hdir. unfold with_docker_dir. destruct (m !! docker_cache_dir config); [done|].
  apply is_directory_insert; [by right|done].
Qed.

Lemma export_all_is_directory (images : list Image) (d : string) :
  forall m : gmap string node,
    Forall (fun img => ∃ dst, image_target config slugify img = Some dst ∧ writable m dst)
           images ->
    is_directory m d = true ->
    is_directory (export_all config slugify images m) d = true.
Proof.
  induction images as [|img rest IH]; intros m Hall Hdir; [done|].
  apply Forall_cons in Hall as [(dst & Ht & Hw) Hrest].
  unfold export_all. cbn [foldl]. rewrite Ht. apply IH.
  - eapply Forall_impl; [exact Hrest|]. intros img' (dst' & Ht' & Hw').
    exists dst'. split; [done|]. by apply export_fs_writable.
  - by apply export_fs_is_directory.
Qed.

Lemma save_images_run (images : list Image) :
  reliable_disk ->
  forall w : World S,
    is_directory (fs w) (local_cache_directory config) = true ->
    Forall (fun img => ∃ dst, image_target config slugify img = Some dst
                              ∧ writable (fs w) dst) images ->
    ∃ evs, for_each (save_image_body config slugify) images w =
             (Ok tt, {| container_state := container_state w;
                        fs := export_all config slugify images (fs w);
                        trace := trace w ++ evs |}).
Proof.
  intros Hok. induction images as [|img rest IH]; intros w Hdir Hall.
  - exists []. simpl. unfold ret. rewrite app_nil_r. by destruct w.
  - apply Forall_cons in Hall as [(dst & Ht & Hd) Hrest].
    simpl. unfold bind at 1. unfold save_image_body at 1.
    unfold image_target in Ht.
    destruct (docker_image_name slugify img) as [n|] eqn:Hn; [|done].
    injection Ht as <-. unfold bind at 1. unfold ret at 1.
    destruct (save_image_run img _ w Hok Hdir Hd) as (wevs & pending & -> & _).
    match goal with
    | |- context [for_each _ rest ?w1] => destruct (IH w1) as [evs Hevs]
    end.
    { cbn [fs]. by apply export_fs_is_directory. }
    { eapply Forall_impl; [exact Hrest|]. intros img' (dst' & Ht' & Hd').
      exists dst'. split; [done|]. cbn [fs]. by apply export_fs_writable. }
    rewrite Hevs. cbn [fs trace container_state]. eexists. unfold image_target. rewrite Hn.
    cbn [fmap option_fmap option_map]. rewrite <- app_assoc. reflexivity.
Qed.

(** The docker save up to the image [img] of the list, on a disk that takes
    every write: the images before it have been exported, and an exception
    of [img] is the outcome of [save]. *)
Lemma docker_save_upto (self : CacheSave S) (w : World S) (pre post : list Image)
    (img : Image) :
  reliable_disk ->
  is_directory (fs w) (local_cache_directory config) = true ->
  parent_error (fs w) (docker_cache_dir config) = None ->
  images_list client = pre ++ img :: post ->
  Forall (fun i => ∃ dst, image_target config slugify i = Some dst
                          ∧ writable (with_docker_dir config (fs w)) dst) pre ->
  ∃ w1 evs,
    w1 = {| container_state := container_state w;
            fs := export_all config slugify pre (with_docker_dir config (fs w));
            trace := trace w ++ evs |}
    ∧ is_directory (fs w1) (local_cache_directory config) = true
    ∧ forall (e : exn) (w2 : World S),
        save_image_body config slugify img w1 = (Raise e, w2) ->
        DockerCacheSave_save config client slugify self w = (Raise e, w2).
Proof.
  intros Hok Hdir Hpar Himgs Hpre.
  assert (Hdir1 : is_directory (export_all config slugify pre (with_docker_dir config (fs w)))
                    (local_cache_directory config) = true).
  { apply export_all_is_directory; [exact Hpre|]. by apply with_docker_dir_is_directory. }
  apply (with_docker_dir_is_directory (local_cache_directory config)) in Hdir.
  unfold DockerCacheSave_save, os_path_exists, os_makedirs.
  fold (docker_cache_dir config). fold (save_image_body (S:=S) config slugify).
  unfold with_docker_dir in *. rewrite Himgs.
  unfold bind at 1. cbn [fs].
  destruct (fs w !! docker_cache_dir config) as [n|] eqn:Hdd.
  - rewrite bool_decide_true by eauto. unfold_m. cbv beta iota delta [negb].
    cbn [fs trace container_state].
    edestruct (save_images_run pre Hok
                 {| container_state := container_state w; fs := fs w;
                    trace := (trace w ++ [Log INFO "Cache '%s': Saving"
                                            [AStr (s_cache_name self)]]) ++ [ImagesList] |})
      as [evs Hevs]; [exact Hdir|exact Hpre|].
    cbn [fs trace container_state] in Hevs.
    exists {| container_state := container_state w;
              fs := export_all config slugify pre (fs w);
              trace := trace w ++ [Log INFO "Cache '%s': Saving" [AStr (s_cache_name self)];
                                   ImagesList] ++ evs |}.
    eexists. split; [reflexivity|]. split; [exact Hdir1|]. intros e w2 Hbody.
    erewrite for_each_stops; [reflexivity| |exact Hbody].
    rewrite Hevs. by rewrite <- !app_assoc.
  - rewrite bool_decide_false by (intros [? ?]; congruence). unfold_m.
    cbv beta iota delta [negb]. rewrite (makedirs_simple _ _ _ Hdd Hpar).
    cbn [fs trace container_state].
    edestruct (save_images_run pre Hok
                 {| container_state := container_state w;
                    fs := <[docker_cache_dir config := Dir]> (fs w);
                    trace := ((trace w ++ [MakeDirs (docker_cache_dir config)])
                                ++ [Log INFO "Cache '%s': Saving"
                                      [AStr (s_cache_name self)]]) ++ [ImagesList] |})
      as [evs Hevs]; [exact Hdir|exact Hpre|].
    cbn [fs trace container_state] in Hevs.
    exists {| container_state := container_state w;
              fs := export_all config slugify pre (<[docker_cache_dir config := Dir]> (fs w));
              trace := trace w ++ [MakeDirs (docker_cache_dir config);
                                   Log INFO "Cache '%s': Saving" [AStr (s_cache_name self)];
                                   ImagesList] ++ evs |}.
    eexists. split; [reflexivity|]. split; [exact Hdir1|]. intros e w2 Hbody.
    erewrite for_each_stops; [reflexivity| |exact Hbody].
    rewrite Hevs. by rewrite <- !app_assoc.
Qed.

(** The docker save over a list all of whose images can be exported. *)
Lemma docker_save_run (self : CacheSave S) (w : World S) :
  reliable_disk ->
  is_directory (fs w) (local_cache_directory config) = true ->
  parent_error (fs w) (docker_cache_dir config) = None ->
  Forall (fun img => ∃ dst, image_target config slugify img = Some dst
                            ∧ writable (with_docker_dir config (fs w)) dst)
         (images_list client) ->
  ∃ evs, DockerCacheSave_save config client slugify self w =
           (Ok tt, {| container_state := container_state w;
                      fs := export_all config slugify (images_list client)
                              (with_docker_dir config (fs w));
                      trace := trace w ++ evs |}).
Proof.
  intros Hok Hdir Hpar Hall.
  apply (with_docker_dir_is_directory (local_cache_directory config)) in Hdir.
  unfold DockerCacheSave_save, os_path_exists, os_makedirs.
  fold (docker_cache_dir config). fold (save_image_body (S:=S) config slugify).
  unfold with_docker_dir in *.
  unfold bind at 1. cbn [fs].
  destruct (fs w !! (docker_cache_dir config)) as [n|] eqn:Hdd.
  - rewrite bool_decide_true by eauto. unfold_m. simpl.
    edestruct (save_images_run (images_list client) Hok
                 {| container_state := container_state w; fs := fs w;
                    trace := (trace w ++ [Log INFO "Cache '%s': Saving"
                                            [AStr (s_cache_name self)]]) ++ [ImagesList] |})
      as [evs Hevs]; [exact Hdir|exact Hall|].
    rewrite Hevs. simpl. eexists. rewrite <- !app_assoc. reflexivity.
  - rewrite bool_decide_false by (intros [? ?]; congruence). unfold_m.
    cbv beta iota delta [negb]. rewrite (makedirs_simple _ _ _ Hdd Hpar).
    cbn [container_state fs trace].
    edestruct (save_images_run (images_list client) Hok
                 {| container_state := container_state w;
                    fs := <[(docker_cache_dir config) := Dir]> (fs w);
                    trace := ((trace w ++ [MakeDirs (docker_cache_dir config)])
                                ++ [Log INFO "Cache '%s': Saving"
                                      [AStr (s_cache_name self)]]) ++ [ImagesList] |})
      as [evs Hevs]; [exact Hdir|exact Hall|].
    rewrite Hevs. simpl. eexists. rewrite <- !app_assoc. reflexivity.
Qed.

Lemma save_image_body_unnamed (img : Image) (w : World S) :
  docker_image_name slugify img = None ->
  save_image_body config slugify img w = (Raise (IndexError "list index out of range"), w).
Proof. intros Hn. unfold save_image_body. unfold_m. by rewrite Hn. Qed.

Lemma save_image_body_named (img : Image) (dst : string) (w : World S) :
  image_target config slugify img = Some dst ->
  save_image_body config slugify img w = DockerCacheSave__save_image config img dst w.
Proof.
  unfold image_target, save_image_body. unfold_m.
  destruct (docker_image_name slugify img) as [n|]; [|done]. by intros [= <-].
Qed.

(** C9, as the code has it, on a disk that takes every write and with the
    local cache directory in place (the temporary files and the docker
    directory are made in it). The docker save goes through the image list
    in order. The archive of an image is [<docker directory>/<name>.tar],
    the name being the slug of its first tag when it has tags and the second
    colon-separated field of its short id otherwise; images whose names
    coincide share that file, the later export replacing the earlier. One
    export goes through a new temporary file: when the stream raises, the
    error is logged, the file is unlinked, the target is left as it was and
    [_save_image] returns; when the stream ends normally the file is renamed
    onto the target, which then holds the streamed bytes. So, when every
    image has a name and a target that can take the file, [save] returns
    after having exported every image. Only the streaming is guarded: an
    image without a name raises [IndexError], a rename onto a directory
    raises [IsADirectoryError], and either ends [save] before the remaining
    images. *)
Theorem docker_save_exports_each_image (self : CacheSave S) (w : World S) :
  reliable_disk ->
  is_directory (fs w) (local_cache_directory config) = true ->
  parent_error (fs w) (docker_cache_dir config) = None ->
  (Forall (fun img => ∃ dst, image_target config slugify img = Some dst
                             ∧ writable (with_docker_dir config (fs w)) dst)
          (images_list client) ->
   ∃ evs, DockerCacheSave_save config client slugify self w =
            (Ok tt, {| container_state := container_state w;
                       fs := export_all config slugify (images_list client)
                               (with_docker_dir config (fs w));
                       trace := trace w ++ evs |}))
  ∧ (forall (img : Image) (dst : string) (w0 : World S),
        is_directory (fs w0) (local_cache_directory config) = true ->
        writable (fs w0) dst ->
        let tmp := mktemp (trace w0) (local_cache_directory config) (fs w0) in
        ∃ wevs pending,
          DockerCacheSave__save_image config img dst w0 =
            (Ok tt, {| container_state := container_state w0;
                       fs := export_fs img dst (fs w0);
                       trace := trace w0 ++ save_image_start img tmp ++ wevs ++
                         match snd (image_save img) with
                         | Some e =>
                             [Log ERROR ("Error saving image: " +:+ image_repr img +:+ ": "
                                           +:+ exn_str e) [];
                              Unlink tmp]
                         | None =>
                             moving tmp dst :: Rename tmp dst :: flush_events dst pending
                         end |})
          ∧ Forall (fun ev => writes_to tmp ev = true) wevs
          ∧ fs w0 !! tmp = None)
  ∧ (forall (img : Image) (tag : string) (rest : list string),
        tags img = tag :: rest ->
        image_target config slugify img
        = Some (PyStr.path_join (docker_cache_dir config) (slugify tag +:+ ".tar")))
  ∧ (forall (img : Image) (algo field : string) (rest : list string),
        tags img = [] ->
        PyStr.split_colon (short_id img) = algo :: field :: rest ->
        image_target config slugify img
        = Some (PyStr.path_join (docker_cache_dir config) (field +:+ ".tar")))
  ∧ (forall (img1 img2 : Image) (dst : string) (m : gmap string node),
        image_target config slugify img1 = Some dst ->
        image_target config slugify img2 = Some dst ->
        snd (image_save img2) = None ->
        export_all config slugify [img1; img2] m
        = <[dst := File (concat (fst (image_save img2)))]> m)
  ∧ (forall (pre post : list Image) (img : Image),
        images_list client = pre ++ img :: post ->
        Forall (fun i => ∃ dst, image_target config slugify i = Some dst
                                ∧ writable (with_docker_dir config (fs w)) dst) pre ->
        let m := export_all config slugify pre (with_docker_dir config (fs w)) in
        (docker_image_name slugify img = None ->
         ∃ evs, DockerCacheSave_save config client slugify self w =
                  (Raise (IndexError "list index out of range"),
                   {| container_state := container_state w; fs := m;
                      trace := trace w ++ evs |}))
        ∧ (forall dst : string,
              image_target config slugify img = Some dst ->
              m !! dst = Some Dir ->
              snd (image_save img) = None ->
              ∃ w', DockerCacheSave_save config client slugify self w =
                      (Raise (IsADirectoryError dst), w')
                    ∧ forall p : string, is_Some (m !! p) -> fs w' !! p = m !! p)).
Proof.
  intros Hok Hdir Hpar. split; [|split; [|split; [|split; [|split]]]].
  - by apply docker_save_run.
  - intros img dst w0 Hdir0 Hw tmp.
    destruct (save_image_run img dst w0 Hok Hdir0 Hw) as (wevs & pending & Hrun & Hwevs).
    exists wevs, pending. split; [exact Hrun|]. split; [exact Hwevs|]. apply mktemp_fresh.
  - intros img tag rest Ht. unfold image_target, docker_image_name. by rewrite Ht.
  - intros img algo field rest Ht Hs. unfold image_target, docker_image_name.
    by rewrite Ht, Hs.
  - intros img1 img2 dst m H1 H2 Hs. unfold export_all. cbn [foldl]. rewrite H1, H2.
    unfold export_fs. rewrite Hs. destruct (snd (image_save img1)); [done|].
    apply insert_insert_eq.
  - intros pre post img Himgs Hpre m.
    destruct (docker_save_upto self w pre post img Hok Hdir Hpar Himgs Hpre)
      as (w1 & evs & Hw1 & Hdir1 & Hstop).
    assert (Hm : fs w1 = m) by (by rewrite Hw1).
    split.
    + intros Hn. exists evs.
      rewrite (Hstop _ w1 (save_image_body_unnamed img w1 Hn)). by rewrite Hw1.
    + intros dst Ht Hd Hs. rewrite <- Hm in Hd.
      destruct (save_image_onto_directory img dst w1 Hok Hdir1 Hd)
        as (wevs & pending & Hrun & _).
      rewrite Hs in Hrun. eexists. split.
      * apply Hstop. rewrite (save_image_body_named img dst w1 Ht). exact Hrun.
      * intros p [n Hp]. cbn [fs]. rewrite Hm. rewrite lookup_insert_ne; [done|].
        intros <-. pose proof (mktemp_fresh (trace w1) (local_cache_directory config) (fs w1))
          as Hfresh. rewrite Hm in Hfresh. congruence.
Qed.

End ManagerProperties.

(** ** The specification model *)

Module ModelsProperties.
Import Models.

Lemma append_nil_r (s : string) : s +:+ EmptyString = s.
Proof. induction s as [|c s IH]; [reflexivity|]. by rewrite append_cons, IH. Qed.

Lemma expand_in_name (vars : gmap string string) (n : string) :
  forall acc : string,
    all_name_chars n = true ->
    expand_from vars (InName acc) n = resolve_name vars (acc +:+ n).
Proof.
  induction n as [|c n IH]; intros acc Hn; simpl.
  - by rewrite append_nil_r.
  - simpl in Hn. apply andb_true_iff in Hn as [Hc Hn]. rewrite Hc.
    rewrite IH by done. by rewrite append_assoc.
Qed.

Lemma name_char_not_brace (c : ascii) :
  is_name_char c = true -> Ascii.eqb c "}"%char = false.
Proof.
  intros Hc. destruct (Ascii.eqb_spec c "}"%char) as [->|]; [|done].
  by vm_compute in Hc.
Qed.

Lemma expand_in_braces (vars : gmap string string) (n rest : string) :
  forall acc : string,
    all_name_chars n = true ->
    expand_from vars (InBraces acc) (n +:+ String "}"%char rest)
    = resolve_braces vars (acc +:+ n) +:+ expand_from vars InText rest.
Proof.
  induction n as [|c n IH]; intros acc Hn.
  - simpl. by rewrite append_nil_r.
  - simpl in Hn. apply andb_true_iff in Hn as [Hc Hn].
    rewrite append_cons. simpl. rewrite (name_char_not_brace c Hc).
    rewrite IH by done. by rewrite append_assoc.
Qed.

(** C8. Expansion returns the image with its [name] as it was, whatever the
    mapping and whatever tokens the name holds, while [username],
    [password], [email] and the two AWS keys are the expansions of the
    fields they come from; and expansion does substitute: a field that is
    the token [$n] or [${n}] of a name [n] bound to [v] expands to [v]. *)
Theorem expansion_spares_image_name (vars : gmap string string) (img : Image) :
  name (Image_expand_env_vars vars img) = name img
  ∧ username (Image_expand_env_vars vars img) = expand_string vars <$> username img
  ∧ password (Image_expand_env_vars vars img) = expand_string vars <$> password img
  ∧ email (Image_expand_env_vars vars img) = expand_string vars <$> email img
  ∧ access_key_id <$> aws (Image_expand_env_vars vars img)
    = (fun c => expand_string vars (access_key_id c)) <$> aws img
  ∧ secret_access_key <$> aws (Image_expand_env_vars vars img)
    = (fun c => expand_string vars (secret_access_key c)) <$> aws img
  ∧ (forall n v : string,
        all_name_chars n = true ->
        vars !! n = Some v ->
        expand_string vars ("$" +:+ n) = v
        ∧ expand_string vars ("${" +:+ n +:+ "}") = v).
Proof.
  do 6 (split; [by (simpl; destruct (aws img))|]).
  intros n v Hn Hv. unfold expand_string. split.
  - change ("$" +:+ n) with (String "$"%char n). simpl.
    rewrite expand_in_name by done.
    unfold resolve_name. change (EmptyString +:+ n) with n. by rewrite Hv.
  - change ("${" +:+ n +:+ "}") with (String "$"%char (String "{"%char (n +:+ "}"))).
    simpl. rewrite expand_in_braces by done.
    unfold resolve_braces. change (EmptyString +:+ n) with n. rewrite Hv.
    simpl. by rewrite append_nil_r.
Qed.

Lemma parse_all_inv {A B : Type} (f : A -> parsed B) (l : list A) :
  forall ys : list B,
    parse_all f l = inl ys ->
    length ys = length l
    ∧ forall (j : nat) (x : A) (y : B), l !! j = Some x -> ys !! j = Some y -> f x = inl y.
Proof.
  induction l as [|x l IH]; intros ys Hys; simpl in Hys.
  - injection Hys as <-. split; [done|]. intros j ? ? Hx. done.
  - unfold pbind in Hys. destruct (f x) as [y|] eqn:Hx; [|done].
    destruct (parse_all f l) as [ys'|] eqn:Hl; [|done].
    injection Hys as <-. destruct (IH ys' eq_refl) as [Hlen Hat].
    split; [simpl; by rewrite Hlen|].
    intros [|j] x0 y0 H1 H2; simpl in *.
    + congruence.
    + eauto.
Qed.

Lemma parse_item_variables (d : doc) (e : PipelineItem) :
  parse_item d = inl e -> is_variables e = carries_variables d.
Proof.
  unfold parse_item, carries_variables. destruct d as [| | |?|m]; try done.
  destruct (lookup_key "variables" m) as [v|] eqn:Hv.
  - rewrite bool_decide_true by eauto.
    destruct v; try done.
    destruct (lookup_key "step" m); [done|].
    destruct (lookup_key "parallel" m); [done|].
    unfold pbind. destruct (parse_all _ _); [|done]. by intros [= <-].
  - rewrite bool_decide_false by (intros [? ?]; done).
    destruct (lookup_key "step" m) eqn:Hs.
    + destruct (lookup_key "parallel" m); [done|].
      unfold pbind. destruct (parse_step_wrapper _); [|done]. by intros [= <-].
    + destruct (lookup_key "parallel" m) as [p|]; [|done].
      destruct p; try done.
      unfold pbind. destruct (parse_all _ _); [|done]. by intros [= <-].
Qed.

Lemma validate_from_ok (items : list PipelineItem) :
  forall i : nat,
    (forall (j : nat) (e : PipelineItem),
        items !! j = Some e -> is_variables e = true -> i + j = 0) ->
    validate_from i items = ok tt.
Proof.
  induction items as [|e items IH]; intros i H; simpl; [done|].
  destruct (is_variables e) eqn:He; simpl.
  - pose proof (H 0 e eq_refl He) as H0. assert (i = 0) as -> by lia. simpl.
    apply IH. intros j e' Hj He'. specialize (H (Datatypes.S j) e' Hj He'). lia.
  - apply IH. intros j e' Hj He'. specialize (H (Datatypes.S j) e' Hj He'). lia.
Qed.

Lemma validate_from_error (items : list PipelineItem) :
  forall (i j : nat) (e : PipelineItem),
    items !! j = Some e -> is_variables e = true -> i + j ≠ 0 ->
    validate_from i items = schema_error variables_first_msg.
Proof.
  induction items as [|e0 items IH]; intros i j e Hj He Hne; [done|].
  simpl. destruct j as [|j]; simpl in Hj.
  - injection Hj as ->. rewrite He. simpl.
    destruct i; [lia|]. done.
  - destruct (is_variables e0 && negb (Nat.eqb i 0)); [done|].
    apply (IH (Datatypes.S i) j e Hj He). lia.
Qed.

(** C7. For a sequence of elements that parse one by one to [items]: when
    no element other than the first carries [variables], the pipeline parses
    to exactly [items], in order; when an element at an index other than 0
    carries [variables], parsing yields the schema error of the
    variables-first rule and no pipeline. The message of that error contains
    "variables" and "first element". *)
Theorem variables_first_rule (elements : list doc) (items : list PipelineItem) :
  parse_all parse_item elements = inl items ->
  ((forall (i : nat) (d : doc),
       elements !! i = Some d -> carries_variables d = true -> i = 0) ->
   Pipeline_parse_obj (DSeq elements) = inl items)
  ∧ (forall (i : nat) (d : doc),
        elements !! i = Some d -> carries_variables d = true -> i ≠ 0 ->
        Pipeline_parse_obj (DSeq elements) = inr (SchemaError variables_first_msg))
  ∧ PyStr.contains "variables" variables_first_msg = true
  ∧ PyStr.contains "first element" variables_first_msg = true.
Proof.
  intros Hp. destruct (parse_all_inv parse_item elements items Hp) as [Hlen Hat].
  split; [|split; [|split; reflexivity]].
  - intros Hfirst. unfold Pipeline_parse_obj. rewrite Hp. unfold pbind at 1.
    rewrite validate_from_ok; [done|].
    intros j e Hj He. simpl.
    destruct (elements !! j) as [d|] eqn:Hd.
    + apply (Hfirst j d Hd). rewrite <- (parse_item_variables d e); [done|].
      by apply (Hat j).
    + apply lookup_ge_None in Hd. apply lookup_lt_Some in Hj. lia.
  - intros i d Hd Hc Hi. unfold Pipeline_parse_obj. rewrite Hp. unfold pbind at 1.
    destruct (items !! i) as [e|] eqn:He.
    + rewrite (validate_from_error items 0 i e He); [done| |lia].
      rewrite (parse_item_variables d e); [done|]. by apply (Hat i).
    + apply lookup_ge_None in He. apply lookup_lt_Some in Hd. lia.
Qed.

End ModelsProperties.

(** ** Further properties of the cache module *)

(** *** Paths *)

Lemma sanitize_cases (p : string) :
  (∃ rest, p = String "~"%char rest ∧ sanitize_remote_path p = "$HOME" +:+ rest)
  ∨ (PyStr.startswith "~" p = false ∧ sanitize_remote_path p = p).
Proof.
  destruct p as [|[[] [] [] [] [] [] [] []] rest];
    first [ right; split; reflexivity | left; eexists; split; reflexivity ].
Qed.

(** X1. [sanitize_remote_path] never returns a path that starts with a
    tilde, and sanitising twice is the same as sanitising once: a path
    without a leading tilde is returned as it is, and in [~rest] the leading
    tilde alone is replaced by [$HOME] (later tildes stay). *)
Theorem sanitize_remote_path_idempotent (p : string) :
  PyStr.startswith "~" (sanitize_remote_path p) = false
  ∧ sanitize_remote_path (sanitize_remote_path p) = sanitize_remote_path p
  ∧ (PyStr.startswith "~" p = false -> sanitize_remote_path p = p)
  ∧ (forall rest : string,
        p = String "~"%char rest -> sanitize_remote_path p = "$HOME" +:+ rest).
Proof.
  destruct (sanitize_cases p) as [(rest & -> & Hs)|[Hn Hs]].
  - rewrite Hs. repeat split; try reflexivity.
    + discriminate.
    + by intros rest' [= ->].
  - rewrite Hs, Hs. repeat split; try done. intros rest ->. discriminate.
Qed.

Lemma append_nil_inv (x s : string) : x +:+ s = s -> x = EmptyString.
Proof.
  assert (Hlen : forall a b : string,
             String.length (a +:+ b) = String.length a + String.length b).
  { induction a as [|c a IH]; intros b; [done|]. rewrite append_cons. simpl. by rewrite IH. }
  intros H. apply (f_equal String.length) in H.
  rewrite Hlen in H. destruct x; [done|]. simpl in H. lia.
Qed.

Lemma append_cancel_r (s : string) :
  forall x y : string, x +:+ s = y +:+ s -> x = y.
Proof.
  induction x as [|c x IH]; intros y H.
  - symmetry. apply (append_nil_inv y s). by rewrite <- H.
  - destruct y as [|d y].
    + apply append_nil_inv in H. discriminate.
    + rewrite !append_cons in H. injection H as -> H. f_equal. by apply IH.
Qed.

Lemma startswith_slash_app (n t : string) :
  n ≠ EmptyString -> PyStr.startswith "/" (n +:+ t) = PyStr.startswith "/" n.
Proof. destruct n as [|c n]; [done|]. intros _. reflexivity. Qed.

Section Paths.
Context (config : Config).

Lemma archive_path_relative (n : string) :
  PyStr.startswith "/" n = false ->
  ∃ pre, (forall m, PyStr.startswith "/" m = false ->
                    get_local_cache_archive_path config m = pre +:+ m +:+ ".tar")
         ∧ get_local_cache_archive_path config n = pre +:+ n +:+ ".tar".
Proof.
  intros Hn. unfold get_local_cache_archive_path, PyStr.path_join.
  assert (Hrel : forall m, PyStr.startswith "/" m = false ->
                           PyStr.startswith "/" (m +:+ ".tar") = false).
  { intros [|c m] Hm; [reflexivity|]. by rewrite startswith_slash_app. }
  destruct (_ || _).
  - exists (local_cache_directory config). split.
    + intros m Hm. by rewrite (Hrel m Hm).
    + by rewrite (Hrel n Hn).
  - exists (local_cache_directory config +:+ "/"). split.
    + intros m Hm. by rewrite (Hrel m Hm), append_assoc.
    + by rewrite (Hrel n Hn), append_assoc.
Qed.

(** X2. For cache names that do not start with a slash, the local archive
    path and the remote staging directory determine the name: two such
    caches never share an archive or a staging directory. *)
Theorem cache_paths_injective (n1 n2 : string) :
  PyStr.startswith "/" n1 = false ->
  PyStr.startswith "/" n2 = false ->
  (get_local_cache_archive_path config n1 = get_local_cache_archive_path config n2 -> n1 = n2)
  ∧ (get_remote_temp_directory config n1 = get_remote_temp_directory config n2 -> n1 = n2).
Proof.
  intros H1 H2. split.
  - destruct (archive_path_relative n1 H1) as (pre & Hpre & _).
    rewrite (Hpre n1 H1), (Hpre n2 H2). intros H.
    apply String.app_inj in H. by apply append_cancel_r in H.
  - unfold get_remote_temp_directory, PyStr.path_join. rewrite H1, H2.
    destruct (_ || _); intros H.
    + by apply String.app_inj in H.
    + by do 2 apply String.app_inj in H.
Qed.

(** X3. A cache name that starts with a slash escapes both roots:
    [os.path.join] drops the local cache directory and the remote caches
    directory, the archive path is the name followed by [.tar] and the
    staging directory is the name itself. *)
Theorem absolute_cache_name_escapes (n : string) :
  PyStr.startswith "/" n = true ->
  get_local_cache_archive_path config n = n +:+ ".tar"
  ∧ get_remote_temp_directory config n = n.
Proof.
  intros Hn. unfold get_local_cache_archive_path, get_remote_temp_directory, PyStr.path_join.
  rewrite Hn. rewrite startswith_slash_app, Hn; [done|]. by destruct n.
Qed.

End Paths.

(** *** What a restore leaves alone *)

Section Quiet.
Context {S : Type}.
Context (config : Config) {los : LocalOS}.
Context (P : event -> bool).

Lemma quiet_ret {A : Type} (a : A) : quiet (S:=S) P (ret a).
Proof.
  intros w w' r [= <- <-]. split; [done|]. exists []. by rewrite app_nil_r.
Qed.

Lemma quiet_raise {A : Type} (e : exn) : quiet (S:=S) (A:=A) P (raise e).
Proof.
  intros w w' r [= <- <-]. split; [done|]. exists []. by rewrite app_nil_r.
Qed.

Lemma quiet_emit (e : event) : P e = true -> quiet (S:=S) P (emit e).
Proof.
  intros He w w' r [= <- <-]. split; [done|]. exists [e]. split; [done|]. by constructor.
Qed.

Lemma quiet_call {A : Type} (op : S -> A * S) (e : event) :
  P e = true -> quiet P (call op e).
Proof.
  intros He w w' r. unfold call. destruct (op (container_state w)) as [a s'].
  intros [= <- <-]. split; [done|]. exists [e]. split; [done|]. by constructor.
Qed.

Lemma quiet_bind {A B : Type} (m : M S A) (k : A -> M S B) :
  quiet P m -> (forall a, quiet P (k a)) -> quiet P (bind m k).
Proof.
  intros Hm Hk w w' r. unfold bind.
  destruct (m w) as [[a|e] w1] eqn:E.
  - intros Hrun. destruct (Hm w w1 _ E) as (Hfs1 & evs1 & Ht1 & Hall1).
    destruct (Hk a w1 w' r Hrun) as (Hfs2 & evs2 & Ht2 & Hall2).
    split; [congruence|]. exists (evs1 ++ evs2). split.
    + by rewrite Ht2, Ht1, app_assoc.
    + by apply Forall_app.
  - intros [= <- <-]. exact (Hm w w1 _ E).
Qed.

Lemma quiet_for_each {A : Type} (body : A -> M S unit) (l : list A) :
  (forall x, quiet P (body x)) -> quiet P (for_each body l).
Proof.
  intros Hb. induction l as [|x l IH]; simpl.
  - apply quiet_ret.
  - apply quiet_bind; [apply Hb|]. intros _. exact IH.
Qed.

Lemma quiet_pure {A : Type} (m : M S A) :
  (forall w, snd (m w) = w) -> quiet P m.
Proof.
  intros Hm w w' r Hrun. pose proof (Hm w) as Hw. rewrite Hrun in Hw. simpl in Hw.
  subst w'. split; [done|]. exists []. by rewrite app_nil_r.
Qed.

Lemma quiet_os_path_exists (p : string) : quiet (S:=S) P (os_path_exists p).
Proof. by apply quiet_pure. Qed.

Lemma quiet_os_path_getsize (p : string) : quiet (S:=S) P (os_path_getsize p).
Proof. apply quiet_pure. intros w. unfold os_path_getsize. by destruct (fs w !! p) as [[]|]. Qed.

Lemma quiet_open_rb (p : string) : quiet (S:=S) P (open_rb p).
Proof. apply quiet_pure. intros w. unfold open_rb. by destruct (fs w !! p) as [[]|]. Qed.

Lemma quiet_os_listdir (p : string) : quiet (S:=S) P (os_listdir p).
Proof. apply quiet_pure. intros w. unfold os_listdir. by destruct (fs w !! p) as [[]|]. Qed.

Lemma quiet_dict_getitem {V : Type} (d : gmap string V) (k : string) :
  quiet (S:=S) P (dict_getitem d k).
Proof. unfold dict_getitem. destruct (d !! k); [apply quiet_ret|apply quiet_raise]. Qed.

Lemma quiet_bytes_decode (output : string) : quiet (S:=S) P (bytes_decode output).
Proof.
  unfold bytes_decode.
  destruct (PyStr.decode_error 0 output) as [[[start stop] reason]|];
    [apply quiet_raise|apply quiet_ret].
Qed.

End Quiet.

Ltac quiet_step :=
  first
    [ apply quiet_bind; [|intros ?]
    | apply quiet_ret
    | apply quiet_raise
    | apply quiet_emit; reflexivity
    | apply quiet_call; reflexivity
    | apply quiet_os_path_exists
    | apply quiet_os_path_getsize
    | apply quiet_open_rb
    | apply quiet_os_listdir
    | apply quiet_dict_getitem
    | apply quiet_bytes_decode
    | apply quiet_for_each; intros ?
    | match goal with
      | |- quiet _ (if ?b then _ else _) => destruct b
      | |- quiet _ (match ?x with _ => _ end) => destruct x
      end ].

Section RestoreFrame.
Context {S : Type}.
Context (config : Config) {los : LocalOS}.

Lemma restore_quiet (cu : CacheRestore S) : quiet is_restore_event (restore config cu).
Proof.
  unfold restore, CacheRestore_restore, DockerCacheRestore_restore, NullCacheRestore_restore,
    CacheRestore__get_local_cache_file, CacheRestore__upload_cache,
    CacheRestore__restore_cache, DockerCacheRestore__restore_image,
    logger_info, logger_debug, logger_error,
    container_run_command, container_put_archive.
  destruct (r_class cu); repeat quiet_step.
Qed.

(** X4. Whatever its class, its container and the local files, and whether
    it returns or raises, [restore] leaves the local files as they were; all
    it adds to the record are log lines, commands and uploads on the
    container, and image loads. *)
Theorem restore_never_writes_locally (cu : CacheRestore S) (w : World S) :
  fs (snd (restore config cu w)) = fs w
  ∧ ∃ evs, trace (snd (restore config cu w)) = trace w ++ evs
           ∧ Forall (fun ev => is_restore_event ev = true) evs
           ∧ Forall (fun ev => is_local_write ev = false) evs.
Proof.
  destruct (restore config cu w) as [r w'] eqn:E.
  destruct (restore_quiet cu w w' r E) as (Hfs & evs & Ht & Hall).
  split; [done|]. exists evs. split; [done|]. split; [done|].
  eapply Forall_impl; [exact Hall|]. by intros [].
Qed.

End RestoreFrame.

(** *** The generic restore and save, end to end *)

Section Generic.
Context {S : Type}.
Context (config : Config) {los : LocalOS}.

Lemma restore_cache_ok (self : CacheRestore S) (w : World S) (cache : Cache)
    (out : string) (s1 : S) :
  r_cache_definitions self !! r_cache_name self = Some cache ->
  run_command (r_container self) (restore_cmd config cache (r_cache_name self))
    (container_state w) = ((0%Z, out), s1) ->
  CacheRestore__restore_cache config self w =
    (Ok tt,
     {| container_state := s1; fs := fs w;
        trace := trace w ++
          [Log INFO "Cache '%s': Restoring" [AStr (r_cache_name self)];
           RunCommand (restore_cmd config cache (r_cache_name self));
           Log INFO "Cache '%s': Restored in %.3fs" [AStr (r_cache_name self); AElapsed]] |}).
Proof.
  intros Hd Hr. unfold CacheRestore__restore_cache. unfold_m. rewrite Hd.
  unfold restore_cmd in *. simpl in *. rewrite Hr. simpl. by rewrite <- !app_assoc.
Qed.

(** X5. A generic restore that meets no failure: with the archive in
    place, the cache defined, both commands exiting with 0 and the upload
    accepted, [restore] returns after exactly seven actions (the staging
    command, the upload of the archive's bytes into the parent of the staging
    directory, the placement command, and the four log lines between them),
    and the local files are unchanged. *)
Theorem restore_complete (self : CacheRestore S) (w : World S) (c0 : bytes) (cache : Cache)
    (out1 out2 : string) (s1 s2 s3 : S) :
  let cache_name := r_cache_name self in
  fs w !! get_local_cache_archive_path config cache_name = Some (File c0) ->
  r_cache_definitions self !! cache_name = Some cache ->
  run_command (r_container self) (upload_cmd config cache_name) (container_state w)
    = ((0%Z, out1), s1) ->
  put_archive (r_container self) (upload_dir config cache_name) c0 s1 = (true, s2) ->
  run_command (r_container self) (restore_cmd config cache cache_name) s2
    = ((0%Z, out2), s3) ->
  CacheRestore_restore config self w =
    (Ok tt,
     {| container_state := s3; fs := fs w;
        trace := trace w ++
          [Log INFO "Cache '%s': Uploading" [AStr cache_name];
           RunCommand (upload_cmd config cache_name);
           PutArchive (upload_dir config cache_name) c0;
           Log INFO "Cache '%s': Uploaded %s in %.3fs"
             [AStr cache_name; ASize (length c0); AElapsed];
           Log INFO "Cache '%s': Restoring" [AStr cache_name];
           RunCommand (restore_cmd config cache cache_name);
           Log INFO "Cache '%s': Restored in %.3fs" [AStr cache_name; AElapsed]] |}).
Proof.
  intros cache_name Hf Hd Hr1 Hp Hr2.
  rewrite (restore_with_archive config self w _ Hf). unfold bind at 1.
  fold cache_name.
  rewrite (upload_ok config self _ w c0 out1 s1 s2 Hf Hr1 Hp).
  erewrite restore_cache_ok; [|exact Hd|exact Hr2]. simpl.
  by rewrite <- !app_assoc.
Qed.

(** X6. When [put_archive] answers false, [restore] raises
    [Exception("Error uploading cache: <name>")] right after the upload
    call: the placement command is never run. *)
Theorem restore_upload_refused (self : CacheRestore S) (w : World S) (c0 : bytes)
    (out : string) (s1 s2 : S) :
  let cache_name := r_cache_name self in
  fs w !! get_local_cache_archive_path config cache_name = Some (File c0) ->
  run_command (r_container self) (upload_cmd config cache_name) (container_state w)
    = ((0%Z, out), s1) ->
  put_archive (r_container self) (upload_dir config cache_name) c0 s1 = (false, s2) ->
  CacheRestore_restore config self w =
    (Raise (Exception ("Error uploading cache: " +:+ cache_name)),
     {| container_state := s2; fs := fs w;
        trace := trace w ++
          [Log INFO "Cache '%s': Uploading" [AStr cache_name];
           RunCommand (upload_cmd config cache_name);
           PutArchive (upload_dir config cache_name) c0] |}).
Proof.
  intros cache_name Hf Hr Hp.
  rewrite (restore_with_archive config self w _ Hf). unfold bind at 1.
  fold cache_name.
  by rewrite (upload_put_failed config self _ w c0 out s1 s2 Hf Hr Hp).
Qed.

(** X7. A directory at the archive path passes the existence test of
    [_get_local_cache_file], so the staging command is run in the container
    before the archive is opened; when it exits with 0, [restore] then
    raises [IsADirectoryError] for the archive path; it raises in every case,
    and nothing more is asked of the container. *)
Theorem restore_archive_is_directory (self : CacheRestore S) (w : World S)
    (code : Z) (out : string) (s1 : S) :
  let cache_name := r_cache_name self in
  let archive := get_local_cache_archive_path config cache_name in
  fs w !! archive = Some Dir ->
  run_command (r_container self) (upload_cmd config cache_name) (container_state w)
    = ((code, out), s1) ->
  ∃ (e : exn) (evs : list event),
    CacheRestore_restore config self w =
      (Raise e,
       {| container_state := s1; fs := fs w;
          trace := trace w ++
            [Log INFO "Cache '%s': Uploading" [AStr cache_name];
             RunCommand (upload_cmd config cache_name)] ++ evs |})
    ∧ (code = 0%Z -> e = IsADirectoryError archive ∧ evs = [])
    ∧ Forall (fun ev => is_remote_call ev = false) evs.
Proof.
  intros cache_name archive Hf Hr.
  rewrite (restore_with_archive config self w _ Hf). unfold bind at 1.
  fold cache_name. fold archive.
  unfold CacheRestore__upload_cache, os_path_getsize, open_rb. unfold_m.
  rewrite Hf. simpl. fold cache_name. fold (upload_cmd config cache_name).
  rewrite Hr. simpl. destruct (Z.eqb_spec code 0) as [->|Hne]; simpl.
  - rewrite Hf. eexists _, []. rewrite <- !app_assoc. simpl. repeat split; done.
  - unfold bytes_decode. destruct (PyStr.decode_error 0 out) as [[[start stop] reason]|].
    + eexists _, []. unfold raise. simpl. rewrite <- !app_assoc. simpl.
      repeat split; done.
    + eexists _, [_]. unfold ret. simpl. rewrite <- !app_assoc. simpl.
      split; [reflexivity|]. split; [done|]. by repeat constructor.
Qed.

End Generic.

Section GenericSave.
Context {S : Type}.
Context (config : Config) {los : LocalOS}.

Lemma save_after_prepare (self : CacheSave S) (w : World S) (cache : Cache)
    (out : string) (s1 : S) :
  s_cache_definitions self !! s_cache_name self = Some cache ->
  run_command (s_container self)
    (prepare_cache_cmd (sanitize_remote_path (path cache))
       (get_remote_temp_directory config (s_cache_name self)))
    (container_state w) = ((0%Z, out), s1) ->
  CacheSave_save config self w =
  CacheSave__download config self (get_remote_temp_directory config (s_cache_name self))
    (get_local_cache_archive_path config (s_cache_name self)) (prepared config self cache s1 w).
Proof.
  intros Hd Hr. unfold CacheSave_save. unfold bind at 1.
  by rewrite (prepare_ok config self w cache out s1 Hd Hr).
Qed.

(** X8. A generic save that meets no failure, on a disk that takes every
    write and with the local cache directory in place: the cache is defined,
    the prepare command exits with 0, the staging path exists, the stream
    ends normally and the archive path can take the file (no directory is
    there and its own directory exists).
    [save] returns, the local files are the former ones with the archive
    holding the concatenated chunks (no temporary file is left), and the last
    log line reports the number of bytes streamed. *)
Theorem save_complete (self : CacheSave S) (w : World S) (cache : Cache) (out : string)
    (s1 s2 s3 : S) (chunks : list bytes) :
  let cache_name := s_cache_name self in
  let staging := get_remote_temp_directory config cache_name in
  let dst := get_local_cache_archive_path config cache_name in
  reliable_disk ->
  is_directory (fs w) (local_cache_directory config) = true ->
  s_cache_definitions self !! cache_name = Some cache ->
  run_command (s_container self)
    (prepare_cache_cmd (sanitize_remote_path (path cache)) staging) (container_state w)
    = ((0%Z, out), s1) ->
  path_exists (s_container self) staging s1 = (true, s2) ->
  get_archive (s_container self) staging s2 = ((chunks, None), s3) ->
  writable (fs w) dst ->
  ∃ evs,
    CacheSave_save config self w =
      (Ok tt, {| container_state := s3;
                 fs := <[dst := File (concat chunks)]> (fs w);
                 trace := trace w ++ evs |})
    ∧ last evs = Some (Log INFO "Cache '%s': Downloaded %s in %.3fs"
                         [AStr cache_name; ASize (length (concat chunks)); AElapsed]).
Proof.
  intros cache_name staging dst Hok Hdir Hd Hr Hp Hg Hw.
  rewrite (save_after_prepare self w cache out s1 Hd Hr).
  destruct (download_complete config self staging dst (prepared config self cache s1 w)
              s2 s3 chunks Hok Hdir Hp Hg Hw) as (wevs & pending & Hrun & _).
  fold cache_name staging dst. rewrite Hrun.
  unfold prepared. cbn [container_state fs trace]. rewrite <- app_assoc.
  eexists. split; [reflexivity|].
  unfold download_start. destruct pending; rewrite !last_app; reflexivity.
Qed.

(** Whatever the platform does, a generic save that returns has changed no
    path but its archive. *)
Lemma save_frame (self : CacheSave S) (w w' : World S) :
  CacheSave_save config self w = (Ok tt, w') ->
  forall p : string,
    p ≠ get_local_cache_archive_path config (s_cache_name self) ->
    fs w' !! p = fs w !! p.
Proof.
  intros Hrun p Hp. unfold CacheSave_save in Hrun. unfold bind at 1 in Hrun.
  destruct (CacheSave__prepare config self w) as [[staging|e] w1] eqn:Hprep; [|done].
  destruct (prepare_frame config self w w1 _ Hprep) as [Hfs _].
  rewrite <- Hfs. eapply download_frame; [|exact Hrun|exact Hp].
  apply mktemp_not_archive.
Qed.

(** X9. A generic save that returns normally has changed no local path
    but the archive path of its cache. *)
Theorem save_changes_only_its_archive (self : CacheSave S) (w w' : World S) :
  CacheSave_save config self w = (Ok tt, w') ->
  forall p : string,
    p ≠ get_local_cache_archive_path config (s_cache_name self) ->
    fs w' !! p = fs w !! p.
Proof. apply save_frame. Qed.

(** X10. When the archive path is a directory, the download is streamed
    to its end and the rename raises [IsADirectoryError], which [save] does
    not handle: the exception leaves [save], and the temporary file, a path
    that did not exist before, stays in the local cache directory with the
    streamed bytes (on a disk that takes every write, the local cache
    directory being in place). *)
Theorem save_onto_directory_leaves_temp (self : CacheSave S) (w : World S) (cache : Cache)
    (out : string) (s1 s2 s3 : S) (chunks : list bytes) :
  let cache_name := s_cache_name self in
  let staging := get_remote_temp_directory config cache_name in
  let dst := get_local_cache_archive_path config cache_name in
  reliable_disk ->
  is_directory (fs w) (local_cache_directory config) = true ->
  s_cache_definitions self !! cache_name = Some cache ->
  run_command (s_container self)
    (prepare_cache_cmd (sanitize_remote_path (path cache)) staging) (container_state w)
    = ((0%Z, out), s1) ->
  path_exists (s_container self) staging s1 = (true, s2) ->
  get_archive (s_container self) staging s2 = ((chunks, None), s3) ->
  fs w !! dst = Some Dir ->
  ∃ (tmp : string) (w' : World S),
    CacheSave_save config self w = (Raise (IsADirectoryError dst), w')
    ∧ fs w !! tmp = None
    ∧ fs w' = <[tmp := File (concat chunks)]> (fs w).
Proof.
  intros cache_name staging dst Hok Hloc Hd Hr Hp Hg Hdir.
  rewrite (save_after_prepare self w cache out s1 Hd Hr).
  destruct (download_onto_directory config self staging dst (prepared config self cache s1 w)
              s2 s3 chunks Hok Hloc Hp Hg Hdir) as (wevs & pending & Hrun & _).
  fold cache_name staging dst. rewrite Hrun.
  eexists _, _. split; [reflexivity|]. split; [|reflexivity].
  apply mktemp_fresh.
Qed.

End GenericSave.

(** *** The docker image cache, restored *)

Lemma strip_prefix_app (p : string) :
  forall s e : string, strip_prefix p s = Some e -> s = p +:+ e.
Proof.
  induction p as [|a p IH]; intros s e H; simpl in H.
  - by injection H as ->.
  - destruct s as [|b s]; [done|].
    destruct (Ascii.eqb_spec a b) as [->|]; [|done].
    rewrite append_cons. f_equal. by apply IH.
Qed.

Lemma entry_of_key (dir k e : string) :
  entry_of dir k = Some e ->
  k = dir +:+ "/" +:+ e ∧ PyStr.startswith "/" e = false.
Proof.
  unfold entry_of. destruct (strip_prefix (dir +:+ "/") k) as [e'|] eqn:Hs; [|done].
  destruct (String.eqb e' EmptyString || PyStr.contains "/" e') eqn:Hb; [done|].
  intros [= <-]. apply strip_prefix_app in Hs. rewrite append_assoc in Hs.
  split; [done|]. apply orb_false_iff in Hb as [_ Hc].
  destruct e' as [|c e']; [done|].
  change (PyStr.contains "/" (String c e'))
    with (if PyStr.startswith "/" (String c e') then true else PyStr.contains "/" e') in Hc.
  by destruct (PyStr.startswith "/" (String c e')).
Qed.

Lemma endswith_slash_docker (x : string) : PyStr.endswith "/" (x +:+ "docker") = false.
Proof.
  induction x as [|c x IH]; [reflexivity|].
  rewrite append_cons.
  change (PyStr.endswith "/" (String c (x +:+ "docker")))
    with (String.eqb "/" (String c (x +:+ "docker")) || PyStr.endswith "/" (x +:+ "docker")).
  rewrite IH, orb_false_r. apply String.eqb_neq. intros H.
  destruct x; vm_compute in H; congruence.
Qed.

Section DockerRestore.
Context {S : Type}.
Context (config : Config) {los : LocalOS}.

Lemma docker_dir_join (e : string) :
  PyStr.startswith "/" e = false ->
  PyStr.path_join (docker_cache_dir config) e = docker_cache_dir config +:+ "/" +:+ e.
Proof.
  intros He. unfold PyStr.path_join at 1. rewrite He.
  assert (Hd : ∃ x, docker_cache_dir config = x +:+ "docker").
  { unfold docker_cache_dir, PyStr.path_join. simpl.
    destruct (_ || _); [by eexists|]. exists (local_cache_directory config +:+ "/").
    by rewrite append_assoc. }
  destruct Hd as [x Hx]. rewrite Hx, endswith_slash_docker, orb_false_r.
  destruct (String.eqb_spec (x +:+ "docker") EmptyString) as [H|_]; [|done].
  destruct x; discriminate.
Qed.

Lemma listing_is_key (m : gmap string node) (e : string) :
  e ∈ listing (docker_cache_dir config) m ->
  is_Some (m !! PyStr.path_join (docker_cache_dir config) e).
Proof.
  unfold listing. intros (k & Hk & He)%list_elem_of_omap.
  apply list_elem_of_fmap in Hk as ([k' n] & -> & Hkn). simpl in He.
  apply elem_of_map_to_list in Hkn.
  apply entry_of_key in He as [-> Hs]. rewrite docker_dir_join by done. eauto.
Qed.

(** X12. The docker restore with no docker directory, or with an empty
    one, logs "Not found: Skipping" and does nothing else. *)
Theorem docker_restore_nothing_cached (cu : CacheRestore S) (w : World S) :
  fs w !! docker_cache_dir config = None
  ∨ (fs w !! docker_cache_dir config = Some Dir
     ∧ listing (docker_cache_dir config) (fs w) = []) ->
  DockerCacheRestore_restore config cu w =
    (Ok tt, {| container_state := container_state w; fs := fs w;
               trace := trace w ++
                 [Log INFO "Cache '%s': Not found: Skipping" [AStr (r_cache_name cu)]] |}).
Proof.
  intros H. unfold DockerCacheRestore_restore, os_path_exists, os_listdir.
  fold (docker_cache_dir config). unfold_m.
  destruct H as [H|[H Hl]]; rewrite H.
  - by rewrite bool_decide_false by (intros [? ?]; done).
  - rewrite bool_decide_true by eauto. simpl. rewrite H.
    fold (listing (docker_cache_dir config) (fs w)). by rewrite Hl.
Qed.

Lemma restore_images_run (entries : list string) :
  forall w : World S,
    Forall (fun e => fs w !! PyStr.path_join (docker_cache_dir config) e ≠ Some Dir
                     ∧ is_Some (fs w !! PyStr.path_join (docker_cache_dir config) e))
           entries ->
    for_each (fun img => DockerCacheRestore__restore_image
                           (PyStr.path_join (docker_cache_dir config) img)) entries w
    = (Ok tt, {| container_state := container_state w; fs := fs w;
                 trace := trace w ++ flat_map (restore_image_events config (fs w)) entries |}).
Proof.
  induction entries as [|e rest IH]; intros w Hall.
  - simpl. unfold ret. rewrite app_nil_r. by destruct w.
  - apply Forall_cons in Hall as [[Hnd [n Hn]] Hrest]. simpl.
    unfold bind at 1. unfold DockerCacheRestore__restore_image, open_rb. unfold_m.
    cbn [fs trace container_state]. rewrite Hn.
    destruct n as [c|]; [|done]. cbn [fs trace container_state].
    rewrite IH by exact Hrest. cbn [fs trace container_state].
    unfold restore_image_events at 2, file_bytes. rewrite Hn.
    by rewrite <- !app_assoc.
Qed.

(** X13. The docker restore over a docker directory that is not empty and
    whose entries are regular files loads every entry, in the order of the
    listing, logging each path before it loads the file's bytes, and ends
    with the count of the entries; the local files and the container are
    untouched. *)
Theorem docker_restore_loads_every_archive (cu : CacheRestore S) (w : World S) :
  let dir := docker_cache_dir config in
  let entries := listing dir (fs w) in
  fs w !! dir = Some Dir ->
  entries ≠ [] ->
  Forall (fun e => fs w !! PyStr.path_join dir e ≠ Some Dir) entries ->
  DockerCacheRestore_restore config cu w =
    (Ok tt,
     {| container_state := container_state w; fs := fs w;
        trace := trace w ++
          [Log INFO "Cache '%s': Restoring" [AStr (r_cache_name cu)]]
          ++ flat_map (restore_image_events config (fs w)) entries
          ++ [Log INFO "Cache '%s': Restored %d image%s in %.3fs"
                [AStr (r_cache_name cu); AInt (length entries);
                 AStr (plural (length entries)); AElapsed]] |}).
Proof.
  intros dir entries Hdir Hne Hfiles.
  unfold DockerCacheRestore_restore, os_path_exists, os_listdir.
  fold (docker_cache_dir config). fold dir. unfold_m. rewrite Hdir.
  rewrite bool_decide_true by eauto. cbv beta iota delta [negb]. rewrite Hdir.
  fold (listing dir (fs w)). fold entries.
  destruct entries as [|e0 es] eqn:He; [done|]. rewrite <- He.
  cbn [fs trace container_state]. rewrite Hdir.
  fold (listing dir (fs w)). fold entries. rewrite He at 1. rewrite <- He.
  unfold dir at 1. rewrite restore_images_run.
  - cbn [fs trace container_state]. by rewrite <- !app_assoc.
  - cbn [fs]. apply Forall_forall. intros e Hin. rewrite <- He in Hfiles. split.
    + by apply (proj1 (Forall_forall _ _) Hfiles).
    + apply listing_is_key. exact Hin.
Qed.

End DockerRestore.

(** *** The manager and the docker save *)

Lemma split_colon_no_colon (s : string) :
  PyStr.contains ":" s = false -> PyStr.split_colon s = [s].
Proof.
  induction s as [|c s IH]; [reflexivity|]. intros H.
  change (PyStr.contains ":" (String c s))
    with (if PyStr.startswith ":" (String c s) then true else PyStr.contains ":" s) in H.
  change (PyStr.startswith ":" (String c s))
    with (if Ascii.eqb ":"%char c then true else false) in H.
  change (PyStr.split_colon (String c s))
    with (if Ascii.eqb c ":"%char then EmptyString :: PyStr.split_colon s
          else match PyStr.split_colon s with
               | [] => [String c EmptyString]
               | f :: fs => String c f :: fs
               end).
  rewrite Ascii.eqb_sym. destruct (Ascii.eqb ":"%char c); [done|].
  by rewrite IH.
Qed.

Section ManagerMore.
Context {S : Type}.
Context (config : Config) {los : LocalOS} (client : DockerClient).
Context (slugify : string -> string).

Lemma for_each_app {A : Type} (body : A -> M S unit) (l1 l2 : list A) (w : World S) :
  for_each body (l1 ++ l2) w = (for_each body l1 ;;; for_each body l2) w.
Proof.
  revert w. induction l1 as [|x l1 IH]; intros w; simpl.
  - reflexivity.
  - unfold bind. destruct (body x w) as [[[]|e] w1]; [|done].
    rewrite IH. reflexivity.
Qed.

(** X16. Both loops of the manager work name by name: running a list of
    names is running its first part and then, unless that raised, the
    rest, from the world the first part left. *)
Theorem manager_batches_compose (mgr : CacheManager S) (names1 names2 : list string)
    (w : World S) :
  CacheManager_upload config mgr (names1 ++ names2) w
  = (CacheManager_upload config mgr names1 ;;; CacheManager_upload config mgr names2) w
  ∧ CacheManager_download config client slugify mgr (names1 ++ names2) w
    = (CacheManager_download config client slugify mgr names1 ;;;
       CacheManager_download config client slugify mgr names2) w.
Proof. split; apply for_each_app. Qed.

(** X14. An image with no tag whose short id has no colon stops the docker
    save: [short_id.split(":")[1]] raises [IndexError], which leaves [save];
    the images before it have been exported (their targets can take the
    files, the local cache directory is in place and the disk takes every
    write), those after it are never looked at, and the final log line is
    not written. *)
Theorem docker_save_stops_at_unnamed_image (self : CacheSave S) (w : World S)
    (pre post : list Image) (img : Image) :
  reliable_disk ->
  is_directory (fs w) (local_cache_directory config) = true ->
  parent_error (fs w) (docker_cache_dir config) = None ->
  images_list client = pre ++ img :: post ->
  Forall (fun i => ∃ dst, image_target config slugify i = Some dst
                          ∧ writable (with_docker_dir config (fs w)) dst) pre ->
  tags img = [] ->
  PyStr.contains ":" (short_id img) = false ->
  ∃ evs,
    DockerCacheSave_save config client slugify self w =
      (Raise (IndexError "list index out of range"),
       {| container_state := container_state w;
          fs := export_all config slugify pre (with_docker_dir config (fs w));
          trace := trace w ++ evs |}).
Proof.
  intros Hok Hdir Hpar Himgs Hpre Htags Hid.
  assert (Hname : docker_image_name slugify img = None).
  { unfold docker_image_name. by rewrite Htags, split_colon_no_colon. }
  destruct (docker_save_upto config client slugify self w pre post img Hok Hdir Hpar
              Himgs Hpre) as (w1 & evs & Hw1 & _ & Hstop).
  exists evs.
  rewrite (Hstop _ w1 (save_image_body_unnamed config slugify img w1 Hname)).
  by rewrite Hw1.
Qed.

(** X17. [upload] over names none of which has a local archive ("docker"
    may be among them) returns normally, with one log line per name, in
    order ("Ignoring" for "docker", "Not found: Skipping" for the others);
    the container is never called, whatever the cache definitions hold. *)
Theorem upload_without_archives (mgr : CacheManager S) (names : list string) :
  forall w : World S,
    Forall (fun n => n = "docker" ∨ fs w !! get_local_cache_archive_path config n = None)
           names ->
    CacheManager_upload config mgr names w =
      (Ok tt, {| container_state := container_state w; fs := fs w;
                 trace := trace w ++ map upload_idle_event names |}).
Proof.
  induction names as [|n names IH]; intros w Hall.
  - simpl. unfold ret. rewrite app_nil_r. by destruct w.
  - apply Forall_cons in Hall as [Hn Hrest].
    unfold CacheManager_upload in *. simpl. unfold bind at 1.
    assert (Hone : restore config (CacheRestoreFactory_get (m_container mgr) n
                                     (m_cache_definitions mgr)) w
                   = (Ok tt, {| container_state := container_state w; fs := fs w;
                                trace := trace w ++ [upload_idle_event n] |})).
    { unfold restore, CacheRestoreFactory_get, upload_idle_event. cbn [r_class].
      destruct (String.eqb_spec n "docker") as [->|Hne]; [reflexivity|].
      destruct Hn as [->|Hn]; [done|].
      unfold CacheRestore_restore, CacheRestore__get_local_cache_file, os_path_exists.
      unfold_m. cbn [r_cache_name]. rewrite Hn.
      by rewrite bool_decide_false by (intros [? ?]; done). }
    rewrite Hone. rewrite IH by exact Hrest. cbn [fs trace container_state].
    by rewrite <- app_assoc.
Qed.

(** X18. A [download] that returns normally has changed no local path
    but the archive paths of the names it was given. *)
Theorem download_changes_only_archives (mgr : CacheManager S) (names : list string) :
  forall w w' : World S,
    CacheManager_download config client slugify mgr names w = (Ok tt, w') ->
    forall p : string,
      Forall (fun n => p ≠ get_local_cache_archive_path config n) names ->
      fs w' !! p = fs w !! p.
Proof.
  induction names as [|n names IH]; intros w w' Hrun p Hp.
  - injection Hrun as <-. reflexivity.
  - apply Forall_cons in Hp as [Hn Hrest].
    unfold CacheManager_download in *. simpl in Hrun. unfold bind at 1 in Hrun.
    destruct (save config client slugify
                (CacheSaveFactory_get (m_container mgr) n (m_cache_definitions mgr)) w)
      as [[[]|e] w1] eqn:Hsave; [|done].
    rewrite (IH w1 w' Hrun p Hrest).
    unfold save, CacheSaveFactory_get in Hsave. cbn [s_class] in Hsave.
    destruct (String.eqb n "docker").
    + unfold NullCacheSave_save, logger_info, emit in Hsave.
      injection Hsave as <-. reflexivity.
    + by apply (save_frame config _ w w1 Hsave p).
Qed.

(** X15. [_save_image] onto a target that is a directory, on a disk that
    takes every write and with the local cache directory in place: when the
    stream ends normally the rename raises
    [IsADirectoryError] and the temporary file, a new path, stays behind with
    the streamed bytes (it was neither renamed nor unlinked); when the
    stream breaks the temporary file is unlinked and [_save_image] returns
    normally, the local files being as before. *)
Theorem docker_save_image_onto_directory (img : Image) (dst : string) (w : World S) :
  reliable_disk ->
  is_directory (fs w) (local_cache_directory config) = true ->
  fs w !! dst = Some Dir ->
  let tmp := mktemp (trace w) (local_cache_directory config) (fs w) in
  fs w !! tmp = None
  ∧ match snd (image_save img) with
    | None =>
        ∃ evs, DockerCacheSave__save_image config img dst w =
                 (Raise (IsADirectoryError dst),
                  {| container_state := container_state w;
                     fs := <[tmp := File (concat (fst (image_save img)))]> (fs w);
                     trace := trace w ++ evs |})
               ∧ (Rename tmp dst ∉ evs) ∧ (Unlink tmp ∉ evs)
    | Some e =>
        ∃ evs, DockerCacheSave__save_image config img dst w =
                 (Ok tt, {| container_state := container_state w; fs := fs w;
                            trace := trace w ++ evs |})
               ∧ last evs = Some (Unlink tmp)
    end.
Proof.
  intros Hok Hdir Hd tmp.
  assert (Hfresh : fs w !! tmp = None) by apply mktemp_fresh.
  split; [exact Hfresh|].
  destruct (save_image_onto_directory config img dst w Hok Hdir Hd)
    as (wevs & pending & Hrun & Hwevs).
  fold tmp in Hrun. rewrite Hrun. destruct (snd (image_save img)) as [e|].
  - eexists. split; [reflexivity|]. rewrite !last_app. reflexivity.
  - eexists. split; [reflexivity|].
    assert (Hw : forall ev, ev ∈ wevs -> writes_to tmp ev = true)
      by (by apply Forall_forall).
    split; intros Hin; rewrite !elem_of_app in Hin; destruct Hin as [Hin|[Hin|Hin]].
    all: try (by apply Hw in Hin).
    all: try (unfold save_image_start in Hin;
              repeat (apply elem_of_cons in Hin as [Hin|Hin]; [discriminate|]);
              by apply elem_of_nil in Hin).
    all: apply elem_of_cons in Hin as [Hin|Hin]; [discriminate|];
      destruct pending; [by apply elem_of_nil in Hin|];
      apply list_elem_of_singleton in Hin; discriminate.
Qed.

(** X11. Save followed by restore of a cache other than "docker", through
    the strategies the factories give, on a disk that takes every write,
    with the local cache directory in place and an archive path that can
    take the file: the bytes that the save
    streamed out of the container are the bytes that the restore uploads,
    and the local files end as the former ones with the archive holding
    those bytes. *)
Theorem save_then_restore_round_trip (container : ContainerRunner S)
    (defs : gmap string Cache) (cache_name : string) (cache : Cache) (w : World S)
    (out0 out1 out2 : string) (s1 s2 s3 s4 s5 s6 : S) (chunks : list bytes) :
  let staging := get_remote_temp_directory config cache_name in
  let archive := get_local_cache_archive_path config cache_name in
  let cd := CacheSaveFactory_get container cache_name defs in
  let cu := CacheRestoreFactory_get container cache_name defs in
  reliable_disk ->
  is_directory (fs w) (local_cache_directory config) = true ->
  cache_name ≠ "docker" ->
  defs !! cache_name = Some cache ->
  writable (fs w) archive ->
  run_command container (prepare_cache_cmd (sanitize_remote_path (path cache)) staging)
    (container_state w) = ((0%Z, out0), s1) ->
  path_exists container staging s1 = (true, s2) ->
  get_archive container staging s2 = ((chunks, None), s3) ->
  run_command container (upload_cmd config cache_name) s3 = ((0%Z, out1), s4) ->
  put_archive container (upload_dir config cache_name) (concat chunks) s4 = (true, s5) ->
  run_command container (restore_cmd config cache cache_name) s5 = ((0%Z, out2), s6) ->
  ∃ (w1 w2 : World S) (evs : list event),
    save config client slugify cd w = (Ok tt, w1)
    ∧ restore config cu w1 = (Ok tt, w2)
    ∧ trace w2 = trace w1 ++ evs
    ∧ PutArchive (upload_dir config cache_name) (concat chunks) ∈ evs
    ∧ fs w2 = <[archive := File (concat chunks)]> (fs w).
Proof.
  intros staging archive cd cu Hok Hdir Hne Hd Hw Hr0 Hpe Hg Hr1 Hput Hr2.
  destruct (factory_save_generic config client slugify container defs cache_name Hne)
    as [Hs _].
  destruct (factory_restore_generic config container defs cache_name Hne) as [Hr _].
  fold cd in Hs. fold cu in Hr. rewrite Hs, Hr.
  rewrite (save_after_prepare config cd w cache out0 s1 Hd Hr0).
  destruct (download_complete config cd staging archive (prepared config cd cache s1 w)
              s2 s3 chunks Hok Hdir Hpe Hg Hw) as (wevs & pending & Hsave & _).
  change (s_cache_name cd) with cache_name. fold staging archive.
  rewrite Hsave. eexists _, _, _. split; [reflexivity|].
  match goal with |- CacheRestore_restore _ _ ?x = _ ∧ _ => set (w1 := x) end.
  assert (Hf : fs w1 !! archive = Some (File (concat chunks))) by apply lookup_insert_eq.
  rewrite (restore_with_archive config cu w1 _ Hf). unfold bind at 1.
  change (r_cache_name cu) with cache_name. fold archive.
  rewrite (upload_ok config cu archive w1 (concat chunks) out1 s4 s5 Hf Hr1 Hput).
  erewrite restore_cache_ok; [|exact Hd|exact Hr2].
  split; [reflexivity|]. cbn [trace fs]. split; [|split].
  - rewrite <- app_assoc. reflexivity.
  - set_solver.
  - reflexivity.
Qed.

End ManagerMore.

(** ** Concrete runs *)

Lemma string_length_app (a b : string) :
  String.length (a +:+ b) = String.length a + String.length b.
Proof. induction a as [|c a IH]; [done|]. rewrite append_cons. simpl. by rewrite IH. Qed.

Lemma underscores_length (n : nat) : String.length (underscores n) = n.
Proof. induction n as [|n IH]; simpl; [done|]. by rewrite IH. Qed.

Lemma longest_key_bound (m : gmap string node) (k : string) (v : node) :
  m !! k = Some v -> (String.length k <= longest_key m)%nat.
Proof.
  intros Hk%elem_of_map_to_list. unfold longest_key.
  induction (map_to_list m) as [|kv l IH]; [by apply elem_of_nil in Hk|].
  apply elem_of_cons in Hk as [<-|Hk]; simpl; [lia|].
  specialize (IH Hk). lia.
Qed.

Lemma simple_mktemp_fresh (t : list event) (dir : string) (m : gmap string node) :
  m !! simple_mktemp t dir m = None.
Proof.
  destruct (m !! simple_mktemp t dir m) as [v|] eqn:E; [|done].
  apply longest_key_bound in E. unfold simple_mktemp in E.
  rewrite !string_length_app, underscores_length in E. simpl in E. lia.
Qed.

Lemma endswith_tar_underscore (x : string) : PyStr.endswith ".tar" (x +:+ "_") = false.
Proof.
  induction x as [|c x IH]; [reflexivity|].
  rewrite append_cons.
  change (PyStr.endswith ".tar" (String c (x +:+ "_")))
    with (String.eqb ".tar" (String c (x +:+ "_")) || PyStr.endswith ".tar" (x +:+ "_")).
  rewrite IH, orb_false_r. apply String.eqb_neq. intros H.
  destruct x as [|c1 [|c2 [|c3 [|c4 x']]]]; vm_compute in H; congruence.
Qed.

Lemma simple_mktemp_no_suffix (t : list event) (dir : string) (m : gmap string node) :
  PyStr.endswith ".tar" (simple_mktemp t dir m) = false.
Proof. apply endswith_tar_underscore. Qed.

(** The local operating system of the concrete runs: a writer with a
    buffer of four bytes and a disk that takes every write. *)
#[export] Instance simple_os : LocalOS :=
  {| mktemp := simple_mktemp;
     mktemp_fresh := simple_mktemp_fresh;
     mktemp_no_suffix := simple_mktemp_no_suffix;
     written_through := holds_back 4;
     disk_error := fun _ => None |}.

Lemma simple_os_reliable : reliable_disk.
Proof. intros t. reflexivity. Qed.

(** A writer with a buffer of [size] bytes on a disk that is full. *)
Definition full_disk (size : nat) : LocalOS :=
  {| mktemp := simple_mktemp;
     mktemp_fresh := simple_mktemp_fresh;
     mktemp_no_suffix := simple_mktemp_no_suffix;
     written_through := holds_back size;
     disk_error := fun _ => Some ENOSPC |}.

(** A container whose commands succeed and that streams a two-chunk
    archive: both caches are saved, one archive each. *)
Example download_two_caches :
  let run := CacheManager_download cfg0 docker0 id
               (CacheManager_init
                  (scripted 0 EmptyString true true ([[x61; x62]; [x63]], None)) defs0)
               ["pip"; "npm"] (world0 fs_cache) in
  fst run = Ok tt
  ∧ fs (snd run) = {[ "/cache" := Dir;
                      "/cache/pip.tar" := File [x61; x62; x63];
                      "/cache/npm.tar" := File [x61; x62; x63] ]}.
Proof. vm_compute. split; reflexivity. Qed.

(** A failing prepare command whose output is not UTF-8: the decoding
    raises before the message of the [Exception] is built. *)
Example prepare_output_not_utf8 :
  fst (CacheSave_save cfg0
         (pip_save (scripted 1 (String "255"%char EmptyString) true true ([], None)))
         (world0 fs_cache))
  = Raise (UnicodeDecodeError "utf-8" (String "255"%char EmptyString) 0 1
             "invalid start byte").
Proof. vm_compute. reflexivity. Qed.

(** With a local file where the docker directory belongs, the docker save
    cannot place an archive. *)
Example docker_save_onto_file :
  fst (DockerCacheSave_save cfg0 docker2 dash_slug
         (CacheSaveFactory_get nothing_staged "docker" defs0)
         (world0 {[ "/cache" := Dir; "/cache/docker" := File [] ]}))
  = Raise (NotADirectoryError "/cache/docker/bbbb.tar").
Proof. vm_compute. reflexivity. Qed.

(** A cache whose name has a slash: the rename needs a directory that
    nothing makes. *)
Example save_into_missing_subdirectory :
  fst (CacheSave_save cfg0
         (CacheSaveFactory_get healthy "a/b"
            {[ "a/b" := {| name := "a/b"; path := "build" |} ]})
         (world0 fs_cache))
  = Raise (FileNotFoundError "/cache/a/b.tar").
Proof. vm_compute. reflexivity. Qed.

(** Restore of "docker" and "pip" with the archive of "pip" in place: the
    first is ignored, the second is uploaded and placed. *)
Example upload_docker_and_pip :
  CacheManager_upload cfg0
    (CacheManager_init (scripted 0 EmptyString true true ([], None)) defs0)
    ["docker"; "pip"] (world0 fs_pip)
  = (Ok tt,
     {| container_state := tt; fs := fs_pip;
        trace :=
          [Log INFO "Cache '%s': Ignoring" [AStr "docker"];
           Log INFO "Cache '%s': Uploading" [AStr "pip"];
           RunCommand (prepare_cache_dir_cmd "/caches/pip" "/caches");
           PutArchive "/caches" [x6f; x6c; x64];
           Log INFO "Cache '%s': Uploaded %s in %.3fs" [AStr "pip"; ASize 3; AElapsed];
           Log INFO "Cache '%s': Restoring" [AStr "pip"];
           RunCommand (PyStr.join PyStr.nl
                         (restore_cache_script "$HOME/.cache/pip" "/caches/pip"));
           Log INFO "Cache '%s': Restored in %.3fs" [AStr "pip"; AElapsed]] |}).
Proof. vm_compute. reflexivity. Qed.



(** C3 fails on the code. Save of "pip" beside the archive of an earlier
    run, the container streaming three bytes in two chunks.
    - With a writer that holds up to four bytes, on a disk that takes every
      write: the rename puts an empty file at the archive path, and the
      three bytes are put into the file at that path afterwards, when it
      is closed.
    - The same writer on a full disk: the rename still puts the empty file
      at the archive path, in place of the earlier archive, and the close
      raises; so does [save].
    - A writer that holds up to two bytes on a full disk: the second write
      raises; the error is caught and the temporary file unlinked, and then
      the close raises again: [save] raises instead of returning. *)
Theorem save_renames_before_close :
  let tmp := "/cache/tmp_______________" in
  let dst := "/cache/pip.tar" in
  let before :=
    [Log INFO "Cache '%s': Preparing" [AStr "pip"];
     RunCommand (prepare_cache_cmd "$HOME/.cache/pip" "/caches/pip");
     Log INFO "Cache '%s': Prepared in %.3fs" [AStr "pip"; AElapsed];
     PathExists "/caches/pip";
     Log INFO "Cache '%s': Downloading" [AStr "pip"];
     TmpCreate tmp;
     Log DEBUG ("Downloading cache folder '/caches/pip' to '" +:+ tmp +:+ "'") [];
     GetArchive "/caches/pip";
     FileWrite tmp [x61; x62];
     FileWrite tmp [x63]] in
  CacheSave_save cfg0 (pip_save healthy) (world0 fs_pip)
  = (Ok tt,
     {| container_state := tt;
        fs := {[ "/cache" := Dir; dst := File [x61; x62; x63] ]};
        trace := before ++
          [moving tmp dst;
           Rename tmp dst;
           Flush dst [x61; x62; x63];
           Log INFO "Cache '%s': Downloaded %s in %.3fs" [AStr "pip"; ASize 3; AElapsed]] |})
  ∧ CacheSave_save (los := full_disk 4) cfg0 (pip_save healthy) (world0 fs_pip)
    = (Raise ENOSPC,
       {| container_state := tt;
          fs := {[ "/cache" := Dir; dst := File [] ]};
          trace := before ++ [moving tmp dst; Rename tmp dst] |})
  ∧ CacheSave_save (los := full_disk 2) cfg0 (pip_save healthy) (world0 fs_pip)
    = (Raise ENOSPC,
       {| container_state := tt;
          fs := fs_pip;
          trace := before ++
            [Log ERROR ("Error getting cache from container: pip: " +:+ exn_str ENOSPC) [];
             Unlink tmp] |}).
Proof. vm_compute. repeat split. Qed.

(** Restore of "pip" with no local file at all. *)
Lemma restore_without_local_archive_witness :
  CacheRestore_restore cfg0 (pip_restore failing) (world0 ∅)
  = (Ok tt, {| container_state := tt; fs := ∅;
               trace := [] ++ [Log INFO "Cache '%s': Not found: Skipping" [AStr "pip"]] |}).
Proof.
  apply (restore_without_local_archive cfg0 (pip_restore failing) (world0 ∅)).
  reflexivity.
Defined.

(** Save of "pip" when the container has nothing staged. *)
Lemma save_nothing_staged_witness :
  fst (CacheSave_save cfg0 (pip_save nothing_staged) (world0 fs_pip)) = Ok tt
  ∧ fs (snd (CacheSave_save cfg0 (pip_save nothing_staged) (world0 fs_pip))) = fs_pip.
Proof.
  destruct (save_nothing_staged cfg0 (pip_save nothing_staged) (world0 fs_pip) pip_cache
              EmptyString tt tt) as [Hrun _];
    [reflexivity | reflexivity | reflexivity |].
  rewrite Hrun. split; reflexivity.
Defined.

(** C6 as stated fails for the upload phase: the staging-directory command
    exits with 1 and prints "boom", and the raised error does not carry
    that output. *)
Lemma upload_error_omits_output :
  fst (CacheRestore_restore cfg0 (pip_restore failing) (world0 fs_pip))
  = Raise (Exception "Error uploading cache: pip")
  ∧ run_command failing (upload_cmd cfg0 "pip") tt = ((1%Z, "boom"), tt)
  ∧ PyStr.contains "boom" (exn_str (Exception "Error uploading cache: pip")) = false.
Proof. vm_compute. repeat split. Qed.

(** The two failing commands of a restore of "pip". *)
Lemma restore_remote_command_failures_witness :
  fst (CacheRestore_restore cfg0 (pip_restore failing) (world0 fs_pip))
  = Raise (Exception "Error uploading cache: pip")
  ∧ fst (CacheRestore_restore cfg0 (pip_restore placement_fails) (world0 fs_pip))
    = Raise (Exception "Error restoring cache: pip: mv: cannot move").
Proof.
  split.
  - rewrite (proj1 (restore_remote_command_failures cfg0 (pip_restore failing)
                      (world0 fs_pip) [x6f; x6c; x64] eq_refl)
               1%Z "boom" tt eq_refl); [reflexivity | discriminate].
  - destruct (proj2 (restore_remote_command_failures cfg0 (pip_restore placement_fails)
                       (world0 fs_pip) [x6f; x6c; x64] eq_refl)
                {| container_state := tt; fs := fs_pip;
                   trace := [Log INFO "Cache '%s': Uploading" [AStr "pip"];
                             RunCommand (upload_cmd cfg0 "pip");
                             PutArchive (upload_dir cfg0 "pip") [x6f; x6c; x64];
                             Log INFO "Cache '%s': Uploaded %s in %.3fs"
                               [AStr "pip"; ASize 3; AElapsed]] |}
                pip_cache 2%Z "mv: cannot move" tt) as [Hrun _];
      [reflexivity | reflexivity | reflexivity | discriminate |].
    rewrite Hrun. reflexivity.
Defined.

(** Save of "gradle", which the definitions do not know. *)
Lemma undefined_cache_raises_key_error_witness :
  save cfg0 docker0 id (CacheSaveFactory_get nothing_staged "gradle" defs0) (world0 ∅)
  = (Raise (KeyError "gradle"), world0 ∅).
Proof.
  apply (proj1 (undefined_cache_raises_key_error cfg0 docker0 id nothing_staged defs0
                  "gradle" ltac:(discriminate) eq_refl)).
Defined.

(** C9 as stated fails. Two images whose first tags have the same slug end
    in one archive file, which holds the second. And with a directory where the
    archive of the first image belongs, its rename raises: [save] raises, the
    temporary file stays, and the second image is never exported. *)
Lemma docker_save_shares_and_aborts :
  (let run := DockerCacheSave_save cfg0 docker_twins dash_slug
                (CacheSaveFactory_get nothing_staged "docker" defs0) (world0 fs_cache) in
   fst run = Ok tt
   ∧ fs (snd run) = {[ "/cache" := Dir;
                       "/cache/docker" := Dir;
                       "/cache/docker/my-app-1.tar" := File [x66; x67] ]})
  ∧ (let run := DockerCacheSave_save cfg0 docker_blocked dash_slug
                  (CacheSaveFactory_get nothing_staged "docker" defs0) (world0 fs_blocked) in
     fst run = Raise (IsADirectoryError "/cache/docker/bbbb.tar")
     ∧ fs (snd run) !! "/cache/docker/my-app-1.tar" = None
     ∧ (ImageSave (short_id image_twin_a) ∉ trace (snd run))
     ∧ fs (snd run) = <[ "/cache/tmp_______________________" := File [x62; x63] ]> fs_blocked).
Proof.
  split.
  - vm_compute. split; reflexivity.
  - split; [vm_compute; reflexivity|]. split; [vm_compute; reflexivity|]. split.
    + vm_compute. intros H. repeat (apply elem_of_cons in H as [H|H]; [discriminate|]).
      by apply elem_of_nil in H.
    + vm_compute. reflexivity.
Qed.

(** The docker save over two images, the first of which fails to export:
    the docker directory is created and holds the second image only. *)
Lemma docker_save_exports_each_image_witness :
  ∃ w', DockerCacheSave_save cfg0 docker2 dash_slug
          (CacheSaveFactory_get nothing_staged "docker" defs0) (world0 fs_cache) = (Ok tt, w')
        ∧ fs w' = {[ "/cache" := Dir;
                     "/cache/docker" := Dir;
                     "/cache/docker/bbbb.tar" := File [x62; x63] ]}.
Proof.
  destruct (proj1 (docker_save_exports_each_image cfg0 docker2 dash_slug
                     (CacheSaveFactory_get nothing_staged "docker" defs0) (world0 fs_cache)
                     simple_os_reliable eq_refl eq_refl)
              ltac:(repeat constructor; eexists;
                    (split; [reflexivity
                            |split; [vm_compute; discriminate | vm_compute; reflexivity]])))
    as [evs Hrun].
  eexists. split; [exact Hrun|]. vm_compute. reflexivity.
Defined.

(** *** Runs of the further properties *)

(** The caches "pip" and "npm" share neither archive nor staging directory. *)
Lemma cache_paths_injective_witness :
  get_local_cache_archive_path cfg0 "pip" ≠ get_local_cache_archive_path cfg0 "npm"
  ∧ get_remote_temp_directory cfg0 "pip" ≠ get_remote_temp_directory cfg0 "npm".
Proof.
  split; intros H.
  - apply (proj1 (cache_paths_injective cfg0 "pip" "npm" eq_refl eq_refl)) in H.
    discriminate.
  - apply (proj2 (cache_paths_injective cfg0 "pip" "npm" eq_refl eq_refl)) in H.
    discriminate.
Defined.

(** A cache named [/etc/cron]. *)
Lemma absolute_cache_name_escapes_witness :
  get_local_cache_archive_path cfg0 "/etc/cron" = "/etc/cron.tar"
  ∧ get_remote_temp_directory cfg0 "/etc/cron" = "/etc/cron".
Proof. apply (absolute_cache_name_escapes cfg0 "/etc/cron"). reflexivity. Defined.

(** Restore of "pip" with its archive in place and a container that accepts everything. *)
Lemma restore_complete_witness :
  fst (CacheRestore_restore cfg0 (pip_restore healthy) (world0 fs_pip)) = Ok tt.
Proof.
  rewrite (restore_complete cfg0 (pip_restore healthy) (world0 fs_pip) [x6f; x6c; x64]
             pip_cache EmptyString EmptyString tt tt tt);
    reflexivity.
Defined.

(** Restore of "pip" with a container that refuses the upload. *)
Lemma restore_upload_refused_witness :
  fst (CacheRestore_restore cfg0 (pip_restore refuses_upload) (world0 fs_pip))
  = Raise (Exception "Error uploading cache: pip").
Proof.
  rewrite (restore_upload_refused cfg0 (pip_restore refuses_upload) (world0 fs_pip)
             [x6f; x6c; x64] EmptyString tt tt);
    reflexivity.
Defined.

(** Restore of "pip" with a directory at [/cache/pip.tar]. *)
Lemma restore_archive_is_directory_witness :
  fst (CacheRestore_restore cfg0 (pip_restore healthy) (world0 fs_pip_dir))
  = Raise (IsADirectoryError "/cache/pip.tar").
Proof.
  destruct (restore_archive_is_directory cfg0 (pip_restore healthy) (world0 fs_pip_dir)
              0%Z EmptyString tt) as (e & evs & Hrun & He & _);
    [reflexivity | reflexivity |].
  rewrite Hrun. destruct (He eq_refl) as [-> _]. reflexivity.
Defined.

(** Save of "pip" into an empty local cache directory. *)
Lemma save_complete_witness :
  ∃ w', CacheSave_save cfg0 (pip_save healthy) (world0 fs_cache) = (Ok tt, w')
        ∧ fs w' = {[ "/cache" := Dir; "/cache/pip.tar" := File [x61; x62; x63] ]}.
Proof.
  destruct (save_complete cfg0 (pip_save healthy) (world0 fs_cache) pip_cache EmptyString
              tt tt tt [[x61; x62]; [x63]]) as (evs & Hrun & _);
    [apply simple_os_reliable | reflexivity | reflexivity | reflexivity | reflexivity
    | reflexivity | split; [vm_compute; discriminate | vm_compute; reflexivity] |].
  eexists. split; [exact Hrun|]. vm_compute. reflexivity.
Defined.

(** Save of "npm" beside the archive of "pip". *)
Lemma save_changes_only_its_archive_witness :
  fs (snd (CacheSave_save cfg0 (CacheSaveFactory_get healthy "npm" defs0) (world0 fs_pip)))
    !! "/cache/pip.tar" = Some (File [x6f; x6c; x64]).
Proof.
  rewrite (save_changes_only_its_archive cfg0 (CacheSaveFactory_get healthy "npm" defs0)
             (world0 fs_pip)
             (snd (CacheSave_save cfg0 (CacheSaveFactory_get healthy "npm" defs0)
                     (world0 fs_pip)))).
  - reflexivity.
  - vm_compute. reflexivity.
  - discriminate.
Defined.

(** Save of "pip" with a directory at [/cache/pip.tar]. *)
Lemma save_onto_directory_leaves_temp_witness :
  ∃ tmp w', CacheSave_save cfg0 (pip_save healthy) (world0 fs_pip_dir)
            = (Raise (IsADirectoryError "/cache/pip.tar"), w')
            ∧ fs w' = <[tmp := File [x61; x62; x63]]> fs_pip_dir.
Proof.
  destruct (save_onto_directory_leaves_temp cfg0 (pip_save healthy) (world0 fs_pip_dir)
              pip_cache EmptyString tt tt tt [[x61; x62]; [x63]])
    as (tmp & w' & Hrun & _ & Hfs);
    [apply simple_os_reliable | reflexivity | reflexivity | reflexivity | reflexivity
    | reflexivity | reflexivity |].
  exists tmp, w'. split; [exact Hrun | exact Hfs].
Defined.

(** Save and then restore of "pip", over the archive of an earlier run. *)
Lemma save_then_restore_round_trip_witness :
  ∃ w1 w2, save cfg0 docker0 id (CacheSaveFactory_get healthy "pip" defs0) (world0 fs_pip)
           = (Ok tt, w1)
           ∧ restore cfg0 (CacheRestoreFactory_get healthy "pip" defs0) w1 = (Ok tt, w2)
           ∧ PutArchive "/caches" [x61; x62; x63] ∈ trace w2
           ∧ fs w2 = {[ "/cache" := Dir; "/cache/pip.tar" := File [x61; x62; x63] ]}.
Proof.
  destruct (save_then_restore_round_trip cfg0 docker0 id healthy defs0 "pip" pip_cache
              (world0 fs_pip) EmptyString EmptyString EmptyString tt tt tt tt tt tt
              [[x61; x62]; [x63]])
    as (w1 & w2 & evs & Hsave & Hrestore & Htr & Hin & Hfs);
    [apply simple_os_reliable | reflexivity | discriminate | reflexivity
    | split; [vm_compute; discriminate | vm_compute; reflexivity]
    | reflexivity | reflexivity | reflexivity | reflexivity | reflexivity | reflexivity |].
  exists w1, w2. split; [exact Hsave|]. split; [exact Hrestore|]. split.
  - rewrite Htr. apply elem_of_app. right. exact Hin.
  - rewrite Hfs. vm_compute. reflexivity.
Defined.

(** Docker restore with no docker directory. *)
Lemma docker_restore_nothing_cached_witness :
  DockerCacheRestore_restore cfg0 (CacheRestoreFactory_get healthy "docker" defs0) (world0 fs_pip)
  = (Ok tt, {| container_state := tt; fs := fs_pip;
               trace := [] ++ [Log INFO "Cache '%s': Not found: Skipping" [AStr "docker"]] |}).
Proof.
  apply (docker_restore_nothing_cached cfg0 (CacheRestoreFactory_get healthy "docker" defs0)
           (world0 fs_pip)).
  left. reflexivity.
Defined.

(** Docker restore with one image archive. *)
Lemma docker_restore_loads_every_archive_witness :
  ImagesLoad [x61; x62]
  ∈ trace (snd (DockerCacheRestore_restore cfg0
                  (CacheRestoreFactory_get healthy "docker" defs0) (world0 fs_docker))).
Proof.
  rewrite (docker_restore_loads_every_archive cfg0
             (CacheRestoreFactory_get healthy "docker" defs0) (world0 fs_docker)).
  - vm_compute. set_solver.
  - reflexivity.
  - vm_compute. discriminate.
  - vm_compute. repeat constructor. discriminate.
Defined.

(** Docker save of three images, the second of which has no name. *)
Lemma docker_save_stops_at_unnamed_image_witness :
  ∃ w', DockerCacheSave_save cfg0 docker3 dash_slug
          (CacheSaveFactory_get healthy "docker" defs0) (world0 fs_cache)
        = (Raise (IndexError "list index out of range"), w')
        ∧ fs w' = {[ "/cache" := Dir; "/cache/docker" := Dir;
                     "/cache/docker/bbbb.tar" := File [x62; x63] ]}.
Proof.
  destruct (docker_save_stops_at_unnamed_image cfg0 docker3 dash_slug
              (CacheSaveFactory_get healthy "docker" defs0) (world0 fs_cache)
              [image_untagged] [image_alpine] image_bare simple_os_reliable eq_refl eq_refl
              eq_refl
              ltac:(repeat constructor; eexists;
                    (split; [reflexivity
                            |split; [vm_compute; discriminate | vm_compute; reflexivity]]))
              eq_refl eq_refl)
    as [evs Hrun].
  eexists. split; [exact Hrun|]. vm_compute. reflexivity.
Defined.

(** Upload of three caches into a container whose commands would fail. *)
Lemma upload_without_archives_witness :
  CacheManager_upload cfg0 (CacheManager_init failing defs0) ["docker"; "pip"; "npm"] (world0 ∅)
  = (Ok tt, {| container_state := tt; fs := ∅;
               trace := [] ++ map upload_idle_event ["docker"; "pip"; "npm"] |}).
Proof.
  apply (upload_without_archives cfg0 (CacheManager_init failing defs0)
           ["docker"; "pip"; "npm"] (world0 ∅)).
  repeat constructor; right; reflexivity.
Defined.

(** Download of "npm" and "docker" beside the archive of "pip". *)
Lemma download_changes_only_archives_witness :
  fs (snd (CacheManager_download cfg0 docker0 id (CacheManager_init healthy defs0)
             ["npm"; "docker"] (world0 fs_pip)))
    !! "/cache/pip.tar" = Some (File [x6f; x6c; x64]).
Proof.
  rewrite (download_changes_only_archives cfg0 docker0 id (CacheManager_init healthy defs0)
             ["npm"; "docker"] (world0 fs_pip)
             (snd (CacheManager_download cfg0 docker0 id (CacheManager_init healthy defs0)
                     ["npm"; "docker"] (world0 fs_pip)))).
  - reflexivity.
  - vm_compute. reflexivity.
  - repeat constructor; discriminate.
Defined.

(** Export of an image onto the docker directory itself. *)
Lemma docker_save_image_onto_directory_witness :
  fst (DockerCacheSave__save_image cfg0 image_untagged "/cache/docker"
         (world0 fs_docker))
  = Raise (IsADirectoryError "/cache/docker").
Proof.
  destruct (docker_save_image_onto_directory cfg0 image_untagged "/cache/docker"
              (world0 fs_docker) simple_os_reliable eq_refl eq_refl)
    as [_ (evs & Hrun & _)].
  rewrite Hrun. reflexivity.
Defined.

Module ModelsRuns.
Import Models TestData.

(** [test_parse_pipeline_with_variables] *)
Example parse_pipeline_with_variables :
  Pipeline_parse_obj (DSeq [variables_doc; step1_doc]) = inl [foo_bar; step1].
Proof. reflexivity. Qed.

(** [test_variables_can_only_be_the_first_element_of_the_pipelines] *)
Example parse_pipeline_variables_second :
  Pipeline_parse_obj (DSeq [step1_doc; variables_doc])
  = inr (SchemaError "'variables' can only be the first element of the list").
Proof. reflexivity. Qed.

(** [test_parse_image_with_envvars] *)
Example parse_image_with_envvars :
  Image_parse_obj image_doc = inl image_unexpanded
  ∧ Image_expand_env_vars env_vars image_unexpanded = image_expected.
Proof. split; vm_compute; reflexivity. Qed.

(** The rule on the two pipelines of the tests. *)
Lemma variables_first_rule_witness :
  Pipeline_parse_obj (DSeq [variables_doc; step1_doc]) = inl [foo_bar; step1]
  ∧ Pipeline_parse_obj (DSeq [step1_doc; variables_doc])
    = inr (SchemaError variables_first_msg).
Proof.
  split.
  - apply (proj1 (ModelsProperties.variables_first_rule
                    [variables_doc; step1_doc] [foo_bar; step1] eq_refl)).
    intros [|[|[|i]]] d Hd Hc; [reflexivity | | | ]; simpl in Hd;
      try discriminate; injection Hd as <-; discriminate.
  - apply (proj1 (proj2 (ModelsProperties.variables_first_rule
                           [step1_doc; variables_doc] [step1; foo_bar] eq_refl))
             1 variables_doc eq_refl eq_refl).
    discriminate.
Defined.

(** The rule on the image of [test_parse_image_with_envvars]. *)
Lemma expansion_spares_image_name_witness :
  name (Image_expand_env_vars env_vars image_unexpanded) = "${IMAGE_NAME}"
  ∧ expand_string env_vars "${IMAGE_NAME}" = "alpine:latest"
  ∧ expand_string env_vars "$REPO_USERNAME" = "my-username".
Proof.
  pose proof (ModelsProperties.expansion_spares_image_name env_vars image_unexpanded)
    as (Hname & _ & _ & _ & _ & _ & Htok).
  split; [exact Hname|]. split.
  - exact (proj2 (Htok "IMAGE_NAME" "alpine:latest" eq_refl eq_refl)).
  - exact (proj1 (Htok "REPO_USERNAME" "my-username" eq_refl eq_refl)).
Defined.

End ModelsRuns.
